(** * TradingView -> Angel One middleware

    A shallow embedding of [src/middleware.py]: the [AngelOneTrader] class
    ([login], [get_symbol_token], [place_order]), the signal classifier
    [get_quantity_for_signal] and the [/webhook] route, followed by the
    properties of the order-dispatch translator.

    Python values are dynamically typed, so the embedding works over a small
    universe of values ([Py.pyval]) with the interpreter's truthiness,
    [str()], subscripting and attribute errors written out.  The brokerage
    SDK, the TOTP generator and the clock are an environment ([Env]) that
    answers every outgoing call, possibly by raising; every call is recorded
    in a trace so that call-count properties can be stated. *)

From Stdlib Require Import String Ascii ZArith List Bool Lia DecimalString.
Import ListNotations.
Local Open Scope string_scope.
Local Open Scope Z_scope.
Set Warnings "-register-all".

(** ** Python values and the built-ins the source relies on *)
Module Py.

(** JSON-shaped values.  Text is held as its UTF-8 bytes.  A float is kept abstract: the
    only observations the source makes of one are its truth value and its
    [str()] text, which the constructor carries. *)
Inductive pyval : Type :=
| PyNone
| PyBool (b : bool)
| PyInt (z : Z)
| PyFloat (nonzero : bool) (text : string)
| PyStr (s : string)
| PyList (l : list pyval)
| PyDict (d : list (string * pyval)).

(** A [dict] with string keys, in insertion order. *)
Definition dict := list (string * pyval).

(** Exceptions the modelled code can meet.  Everything here derives from
    Python's [Exception], so every [except Exception] clause catches it. *)
Inductive exn : Type :=
| AttributeError (type_name attr : string)
| KeyError (key : string)
| TypeError (msg : string)
| BadRequest (msg : string)
| SdkError (msg : string).

Inductive outcome (A : Type) : Type :=
| Ok (a : A)
| Raise (e : exn).
Arguments Ok {A} a.
Arguments Raise {A} e.

(** [bool(v)] *)
Definition py_truthy (v : pyval) : bool :=
  match v with
  | PyNone => false
  | PyBool b => b
  | PyInt z => negb (z =? 0)
  | PyFloat nonzero _ => nonzero
  | PyStr s => negb (s =? EmptyString)%string
  | PyList l => match l with [] => false | _ => true end
  | PyDict d => match d with [] => false | _ => true end
  end.

(** [type(v).__name__] *)
Definition type_name (v : pyval) : string :=
  match v with
  | PyNone => "NoneType"
  | PyBool _ => "bool"
  | PyInt _ => "int"
  | PyFloat _ _ => "float"
  | PyStr _ => "str"
  | PyList _ => "list"
  | PyDict _ => "dict"
  end.

(** *** Text *)

(** Upper-casing of an ASCII byte. *)
Definition is_lower (c : ascii) : bool :=
  ((97 <=? nat_of_ascii c) && (nat_of_ascii c <=? 122))%nat.

Definition upper_char (c : ascii) : ascii :=
  if is_lower c then ascii_of_nat (nat_of_ascii c - 32) else c.

(** UTF-8 form of a code point. *)
Definition utf8 (c : N) : string :=
  let byte (n : N) := ascii_of_N n in
  (if c <? 0x80 then String (byte c) EmptyString
   else if c <? 0x800 then
     String (byte (0xC0 + c / 0x40)) (String (byte (0x80 + c mod 0x40)) EmptyString)
   else if c <? 0x10000 then
     String (byte (0xE0 + c / 0x1000))
       (String (byte (0x80 + (c / 0x40) mod 0x40))
          (String (byte (0x80 + c mod 0x40)) EmptyString))
   else
     String (byte (0xF0 + c / 0x40000))
       (String (byte (0x80 + (c / 0x1000) mod 0x40))
          (String (byte (0x80 + (c / 0x40) mod 0x40))
             (String (byte (0x80 + c mod 0x40)) EmptyString))))%N.

(** The characters outside ASCII that [str.upper()] changes, by code point,
    each with the code points it becomes: the full upper-case mapping of
    Unicode 14.0 (the simple mappings of UnicodeData.txt and the
    unconditional ones of SpecialCasing.txt), as CPython 3.11 applies it
    character by character. *)
Definition upper_points : list (N * list N) :=
  [ (0xb5, [0x39c]); (0xdf, [0x53; 0x53]); (0xe0, [0xc0]); (0xe1, [0xc1]);
    (0xe2, [0xc2]); (0xe3, [0xc3]); (0xe4, [0xc4]); (0xe5, [0xc5]);
    (0xe6, [0xc6]); (0xe7, [0xc7]); (0xe8, [0xc8]); (0xe9, [0xc9]);
    (0xea, [0xca]); (0xeb, [0xcb]); (0xec, [0xcc]); (0xed, [0xcd]);
    (0xee, [0xce]); (0xef, [0xcf]); (0xf0, [0xd0]); (0xf1, [0xd1]);
    (0xf2, [0xd2]); (0xf3, [0xd3]); (0xf4, [0xd4]); (0xf5, [0xd5]);
    (0xf6, [0xd6]); (0xf8, [0xd8]); (0xf9, [0xd9]); (0xfa, [0xda]);
    (0xfb, [0xdb]); (0xfc, [0xdc]); (0xfd, [0xdd]); (0xfe, [0xde]);
    (0xff, [0x178]); (0x101, [0x100]); (0x103, [0x102]); (0x105, [0x104]);
    (0x107, [0x106]); (0x109, [0x108]); (0x10b, [0x10a]); (0x10d, [0x10c]);
    (0x10f, [0x10e]); (0x111, [0x110]); (0x113, [0x112]); (0x115, [0x114]);
    (0x117, [0x116]); (0x119, [0x118]); (0x11b, [0x11a]); (0x11d, [0x11c]);
    (0x11f, [0x11e]); (0x121, [0x120]); (0x123, [0x122]); (0x125, [0x124]);
    (0x127, [0x126]); (0x129, [0x128]); (0x12b, [0x12a]); (0x12d, [0x12c]);
    (0x12f, [0x12e]); (0x131, [0x49]); (0x133, [0x132]); (0x135, [0x134]);
    (0x137, [0x136]); (0x13a, [0x139]); (0x13c, [0x13b]); (0x13e, [0x13d]);
    (0x140, [0x13f]); (0x142, [0x141]); (0x144, [0x143]); (0x146, [0x145]);
    (0x148, [0x147]); (0x149, [0x2bc; 0x4e]); (0x14b, [0x14a]); (0x14d, [0x14c]);
    (0x14f, [0x14e]); (0x151, [0x150]); (0x153, [0x152]); (0x155, [0x154]);
    (0x157, [0x156]); (0x159, [0x158]); (0x15b, [0x15a]); (0x15d, [0x15c]);
    (0x15f, [0x15e]); (0x161, [0x160]); (0x163, [0x162]); (0x165, [0x164]);
    (0x167, [0x166]); (0x169, [0x168]); (0x16b, [0x16a]); (0x16d, [0x16c]);
    (0x16f, [0x16e]); (0x171, [0x170]); (0x173, [0x172]); (0x175, [0x174]);
    (0x177, [0x176]); (0x17a, [0x179]); (0x17c, [0x17b]); (0x17e, [0x17d]);
    (0x17f, [0x53]); (0x180, [0x243]); (0x183, [0x182]); (0x185, [0x184]);
    (0x188, [0x187]); (0x18c, [0x18b]); (0x192, [0x191]); (0x195, [0x1f6]);
    (0x199, [0x198]); (0x19a, [0x23d]); (0x19e, [0x220]); (0x1a1, [0x1a0]);
    (0x1a3, [0x1a2]); (0x1a5, [0x1a4]); (0x1a8, [0x1a7]); (0x1ad, [0x1ac]);
    (0x1b0, [0x1af]); (0x1b4, [0x1b3]); (0x1b6, [0x1b5]); (0x1b9, [0x1b8]);
    (0x1bd, [0x1bc]); (0x1bf, [0x1f7]); (0x1c5, [0x1c4]); (0x1c6, [0x1c4]);
    (0x1c8, [0x1c7]); (0x1c9, [0x1c7]); (0x1cb, [0x1ca]); (0x1cc, [0x1ca]);
    (0x1ce, [0x1cd]); (0x1d0, [0x1cf]); (0x1d2, [0x1d1]); (0x1d4, [0x1d3]);
    (0x1d6, [0x1d5]); (0x1d8, [0x1d7]); (0x1da, [0x1d9]); (0x1dc, [0x1db]);
    (0x1dd, [0x18e]); (0x1df, [0x1de]); (0x1e1, [0x1e0]); (0x1e3, [0x1e2]);
    (0x1e5, [0x1e4]); (0x1e7, [0x1e6]); (0x1e9, [0x1e8]); (0x1eb, [0x1ea]);
    (0x1ed, [0x1ec]); (0x1ef, [0x1ee]); (0x1f0, [0x4a; 0x30c]); (0x1f2, [0x1f1]);
    (0x1f3, [0x1f1]); (0x1f5, [0x1f4]); (0x1f9, [0x1f8]); (0x1fb, [0x1fa]);
    (0x1fd, [0x1fc]); (0x1ff, [0x1fe]); (0x201, [0x200]); (0x203, [0x202]);
    (0x205, [0x204]); (0x207, [0x206]); (0x209, [0x208]); (0x20b, [0x20a]);
    (0x20d, [0x20c]); (0x20f, [0x20e]); (0x211, [0x210]); (0x213, [0x212]);
    (0x215, [0x214]); (0x217, [0x216]); (0x219, [0x218]); (0x21b, [0x21a]);
    (0x21d, [0x21c]); (0x21f, [0x21e]); (0x223, [0x222]); (0x225, [0x224]);
    (0x227, [0x226]); (0x229, [0x228]); (0x22b, [0x22a]); (0x22d, [0x22c]);
    (0x22f, [0x22e]); (0x231, [0x230]); (0x233, [0x232]); (0x23c, [0x23b]);
    (0x23f, [0x2c7e]); (0x240, [0x2c7f]); (0x242, [0x241]); (0x247, [0x246]);
    (0x249, [0x248]); (0x24b, [0x24a]); (0x24d, [0x24c]); (0x24f, [0x24e]);
    (0x250, [0x2c6f]); (0x251, [0x2c6d]); (0x252, [0x2c70]); (0x253, [0x181]);
    (0x254, [0x186]); (0x256, [0x189]); (0x257, [0x18a]); (0x259, [0x18f]);
    (0x25b, [0x190]); (0x25c, [0xa7ab]); (0x260, [0x193]); (0x261, [0xa7ac]);
    (0x263, [0x194]); (0x265, [0xa78d]); (0x266, [0xa7aa]); (0x268, [0x197]);
    (0x269, [0x196]); (0x26a, [0xa7ae]); (0x26b, [0x2c62]); (0x26c, [0xa7ad]);
    (0x26f, [0x19c]); (0x271, [0x2c6e]); (0x272, [0x19d]); (0x275, [0x19f]);
    (0x27d, [0x2c64]); (0x280, [0x1a6]); (0x282, [0xa7c5]); (0x283, [0x1a9]);
    (0x287, [0xa7b1]); (0x288, [0x1ae]); (0x289, [0x244]); (0x28a, [0x1b1]);
    (0x28b, [0x1b2]); (0x28c, [0x245]); (0x292, [0x1b7]); (0x29d, [0xa7b2]);
    (0x29e, [0xa7b0]); (0x345, [0x399]); (0x371, [0x370]); (0x373, [0x372]);
    (0x377, [0x376]); (0x37b, [0x3fd]); (0x37c, [0x3fe]); (0x37d, [0x3ff]);
    (0x390, [0x399; 0x308; 0x301]); (0x3ac, [0x386]); (0x3ad, [0x388]); (0x3ae, [0x389]);
    (0x3af, [0x38a]); (0x3b0, [0x3a5; 0x308; 0x301]); (0x3b1, [0x391]); (0x3b2, [0x392]);
    (0x3b3, [0x393]); (0x3b4, [0x394]); (0x3b5, [0x395]); (0x3b6, [0x396]);
    (0x3b7, [0x397]); (0x3b8, [0x398]); (0x3b9, [0x399]); (0x3ba, [0x39a]);
    (0x3bb, [0x39b]); (0x3bc, [0x39c]); (0x3bd, [0x39d]); (0x3be, [0x39e]);
    (0x3bf, [0x39f]); (0x3c0, [0x3a0]); (0x3c1, [0x3a1]); (0x3c2, [0x3a3]);
    (0x3c3, [0x3a3]); (0x3c4, [0x3a4]); (0x3c5, [0x3a5]); (0x3c6, [0x3a6]);
    (0x3c7, [0x3a7]); (0x3c8, [0x3a8]); (0x3c9, [0x3a9]); (0x3ca, [0x3aa]);
    (0x3cb, [0x3ab]); (0x3cc, [0x38c]); (0x3cd, [0x38e]); (0x3ce, [0x38f]);
    (0x3d0, [0x392]); (0x3d1, [0x398]); (0x3d5, [0x3a6]); (0x3d6, [0x3a0]);
    (0x3d7, [0x3cf]); (0x3d9, [0x3d8]); (0x3db, [0x3da]); (0x3dd, [0x3dc]);
    (0x3df, [0x3de]); (0x3e1, [0x3e0]); (0x3e3, [0x3e2]); (0x3e5, [0x3e4]);
    (0x3e7, [0x3e6]); (0x3e9, [0x3e8]); (0x3eb, [0x3ea]); (0x3ed, [0x3ec]);
    (0x3ef, [0x3ee]); (0x3f0, [0x39a]); (0x3f1, [0x3a1]); (0x3f2, [0x3f9]);
    (0x3f3, [0x37f]); (0x3f5, [0x395]); (0x3f8, [0x3f7]); (0x3fb, [0x3fa]);
    (0x430, [0x410]); (0x431, [0x411]); (0x432, [0x412]); (0x433, [0x413]);
    (0x434, [0x414]); (0x435, [0x415]); (0x436, [0x416]); (0x437, [0x417]);
    (0x438, [0x418]); (0x439, [0x419]); (0x43a, [0x41a]); (0x43b, [0x41b]);
    (0x43c, [0x41c]); (0x43d, [0x41d]); (0x43e, [0x41e]); (0x43f, [0x41f]);
    (0x440, [0x420]); (0x441, [0x421]); (0x442, [0x422]); (0x443, [0x423]);
    (0x444, [0x424]); (0x445, [0x425]); (0x446, [0x426]); (0x447, [0x427]);
    (0x448, [0x428]); (0x449, [0x429]); (0x44a, [0x42a]); (0x44b, [0x42b]);
    (0x44c, [0x42c]); (0x44d, [0x42d]); (0x44e, [0x42e]); (0x44f, [0x42f]);
    (0x450, [0x400]); (0x451, [0x401]); (0x452, [0x402]); (0x453, [0x403]);
    (0x454, [0x404]); (0x455, [0x405]); (0x456, [0x406]); (0x457, [0x407]);
    (0x458, [0x408]); (0x459, [0x409]); (0x45a, [0x40a]); (0x45b, [0x40b]);
    (0x45c, [0x40c]); (0x45d, [0x40d]); (0x45e, [0x40e]); (0x45f, [0x40f]);
    (0x461, [0x460]); (0x463, [0x462]); (0x465, [0x464]); (0x467, [0x466]);
    (0x469, [0x468]); (0x46b, [0x46a]); (0x46d, [0x46c]); (0x46f, [0x46e]);
    (0x471, [0x470]); (0x473, [0x472]); (0x475, [0x474]); (0x477, [0x476]);
    (0x479, [0x478]); (0x47b, [0x47a]); (0x47d, [0x47c]); (0x47f, [0x47e]);
    (0x481, [0x480]); (0x48b, [0x48a]); (0x48d, [0x48c]); (0x48f, [0x48e]);
    (0x491, [0x490]); (0x493, [0x492]); (0x495, [0x494]); (0x497, [0x496]);
    (0x499, [0x498]); (0x49b, [0x49a]); (0x49d, [0x49c]); (0x49f, [0x49e]);
    (0x4a1, [0x4a0]); (0x4a3, [0x4a2]); (0x4a5, [0x4a4]); (0x4a7, [0x4a6]);
    (0x4a9, [0x4a8]); (0x4ab, [0x4aa]); (0x4ad, [0x4ac]); (0x4af, [0x4ae]);
    (0x4b1, [0x4b0]); (0x4b3, [0x4b2]); (0x4b5, [0x4b4]); (0x4b7, [0x4b6]);
    (0x4b9, [0x4b8]); (0x4bb, [0x4ba]); (0x4bd, [0x4bc]); (0x4bf, [0x4be]);
    (0x4c2, [0x4c1]); (0x4c4, [0x4c3]); (0x4c6, [0x4c5]); (0x4c8, [0x4c7]);
    (0x4ca, [0x4c9]); (0x4cc, [0x4cb]); (0x4ce, [0x4cd]); (0x4cf, [0x4c0]);
    (0x4d1, [0x4d0]); (0x4d3, [0x4d2]); (0x4d5, [0x4d4]); (0x4d7, [0x4d6]);
    (0x4d9, [0x4d8]); (0x4db, [0x4da]); (0x4dd, [0x4dc]); (0x4df, [0x4de]);
    (0x4e1, [0x4e0]); (0x4e3, [0x4e2]); (0x4e5, [0x4e4]); (0x4e7, [0x4e6]);
    (0x4e9, [0x4e8]); (0x4eb, [0x4ea]); (0x4ed, [0x4ec]); (0x4ef, [0x4ee]);
    (0x4f1, [0x4f0]); (0x4f3, [0x4f2]); (0x4f5, [0x4f4]); (0x4f7, [0x4f6]);
    (0x4f9, [0x4f8]); (0x4fb, [0x4fa]); (0x4fd, [0x4fc]); (0x4ff, [0x4fe]);
    (0x501, [0x500]); (0x503, [0x502]); (0x505, [0x504]); (0x507, [0x506]);
    (0x509, [0x508]); (0x50b, [0x50a]); (0x50d, [0x50c]); (0x50f, [0x50e]);
    (0x511, [0x510]); (0x513, [0x512]); (0x515, [0x514]); (0x517, [0x516]);
    (0x519, [0x518]); (0x51b, [0x51a]); (0x51d, [0x51c]); (0x51f, [0x51e]);
    (0x521, [0x520]); (0x523, [0x522]); (0x525, [0x524]); (0x527, [0x526]);
    (0x529, [0x528]); (0x52b, [0x52a]); (0x52d, [0x52c]); (0x52f, [0x52e]);
    (0x561, [0x531]); (0x562, [0x532]); (0x563, [0x533]); (0x564, [0x534]);
    (0x565, [0x535]); (0x566, [0x536]); (0x567, [0x537]); (0x568, [0x538]);
    (0x569, [0x539]); (0x56a, [0x53a]); (0x56b, [0x53b]); (0x56c, [0x53c]);
    (0x56d, [0x53d]); (0x56e, [0x53e]); (0x56f, [0x53f]); (0x570, [0x540]);
    (0x571, [0x541]); (0x572, [0x542]); (0x573, [0x543]); (0x574, [0x544]);
    (0x575, [0x545]); (0x576, [0x546]); (0x577, [0x547]); (0x578, [0x548]);
    (0x579, [0x549]); (0x57a, [0x54a]); (0x57b, [0x54b]); (0x57c, [0x54c]);
    (0x57d, [0x54d]); (0x57e, [0x54e]); (0x57f, [0x54f]); (0x580, [0x550]);
    (0x581, [0x551]); (0x582, [0x552]); (0x583, [0x553]); (0x584, [0x554]);
    (0x585, [0x555]); (0x586, [0x556]); (0x587, [0x535; 0x552]); (0x10d0, [0x1c90]);
    (0x10d1, [0x1c91]); (0x10d2, [0x1c92]); (0x10d3, [0x1c93]); (0x10d4, [0x1c94]);
    (0x10d5, [0x1c95]); (0x10d6, [0x1c96]); (0x10d7, [0x1c97]); (0x10d8, [0x1c98]);
    (0x10d9, [0x1c99]); (0x10da, [0x1c9a]); (0x10db, [0x1c9b]); (0x10dc, [0x1c9c]);
    (0x10dd, [0x1c9d]); (0x10de, [0x1c9e]); (0x10df, [0x1c9f]); (0x10e0, [0x1ca0]);
    (0x10e1, [0x1ca1]); (0x10e2, [0x1ca2]); (0x10e3, [0x1ca3]); (0x10e4, [0x1ca4]);
    (0x10e5, [0x1ca5]); (0x10e6, [0x1ca6]); (0x10e7, [0x1ca7]); (0x10e8, [0x1ca8]);
    (0x10e9, [0x1ca9]); (0x10ea, [0x1caa]); (0x10eb, [0x1cab]); (0x10ec, [0x1cac]);
    (0x10ed, [0x1cad]); (0x10ee, [0x1cae]); (0x10ef, [0x1caf]); (0x10f0, [0x1cb0]);
    (0x10f1, [0x1cb1]); (0x10f2, [0x1cb2]); (0x10f3, [0x1cb3]); (0x10f4, [0x1cb4]);
    (0x10f5, [0x1cb5]); (0x10f6, [0x1cb6]); (0x10f7, [0x1cb7]); (0x10f8, [0x1cb8]);
    (0x10f9, [0x1cb9]); (0x10fa, [0x1cba]); (0x10fd, [0x1cbd]); (0x10fe, [0x1cbe]);
    (0x10ff, [0x1cbf]); (0x13f8, [0x13f0]); (0x13f9, [0x13f1]); (0x13fa, [0x13f2]);
    (0x13fb, [0x13f3]); (0x13fc, [0x13f4]); (0x13fd, [0x13f5]); (0x1c80, [0x412]);
    (0x1c81, [0x414]); (0x1c82, [0x41e]); (0x1c83, [0x421]); (0x1c84, [0x422]);
    (0x1c85, [0x422]); (0x1c86, [0x42a]); (0x1c87, [0x462]); (0x1c88, [0xa64a]);
    (0x1d79, [0xa77d]); (0x1d7d, [0x2c63]); (0x1d8e, [0xa7c6]); (0x1e01, [0x1e00]);
    (0x1e03, [0x1e02]); (0x1e05, [0x1e04]); (0x1e07, [0x1e06]); (0x1e09, [0x1e08]);
    (0x1e0b, [0x1e0a]); (0x1e0d, [0x1e0c]); (0x1e0f, [0x1e0e]); (0x1e11, [0x1e10]);
    (0x1e13, [0x1e12]); (0x1e15, [0x1e14]); (0x1e17, [0x1e16]); (0x1e19, [0x1e18]);
    (0x1e1b, [0x1e1a]); (0x1e1d, [0x1e1c]); (0x1e1f, [0x1e1e]); (0x1e21, [0x1e20]);
    (0x1e23, [0x1e22]); (0x1e25, [0x1e24]); (0x1e27, [0x1e26]); (0x1e29, [0x1e28]);
    (0x1e2b, [0x1e2a]); (0x1e2d, [0x1e2c]); (0x1e2f, [0x1e2e]); (0x1e31, [0x1e30]);
    (0x1e33, [0x1e32]); (0x1e35, [0x1e34]); (0x1e37, [0x1e36]); (0x1e39, [0x1e38]);
    (0x1e3b, [0x1e3a]); (0x1e3d, [0x1e3c]); (0x1e3f, [0x1e3e]); (0x1e41, [0x1e40]);
    (0x1e43, [0x1e42]); (0x1e45, [0x1e44]); (0x1e47, [0x1e46]); (0x1e49, [0x1e48]);
    (0x1e4b, [0x1e4a]); (0x1e4d, [0x1e4c]); (0x1e4f, [0x1e4e]); (0x1e51, [0x1e50]);
    (0x1e53, [0x1e52]); (0x1e55, [0x1e54]); (0x1e57, [0x1e56]); (0x1e59, [0x1e58]);
    (0x1e5b, [0x1e5a]); (0x1e5d, [0x1e5c]); (0x1e5f, [0x1e5e]); (0x1e61, [0x1e60]);
    (0x1e63, [0x1e62]); (0x1e65, [0x1e64]); (0x1e67, [0x1e66]); (0x1e69, [0x1e68]);
    (0x1e6b, [0x1e6a]); (0x1e6d, [0x1e6c]); (0x1e6f, [0x1e6e]); (0x1e71, [0x1e70]);
    (0x1e73, [0x1e72]); (0x1e75, [0x1e74]); (0x1e77, [0x1e76]); (0x1e79, [0x1e78]);
    (0x1e7b, [0x1e7a]); (0x1e7d, [0x1e7c]); (0x1e7f, [0x1e7e]); (0x1e81, [0x1e80]);
    (0x1e83, [0x1e82]); (0x1e85, [0x1e84]); (0x1e87, [0x1e86]); (0x1e89, [0x1e88]);
    (0x1e8b, [0x1e8a]); (0x1e8d, [0x1e8c]); (0x1e8f, [0x1e8e]); (0x1e91, [0x1e90]);
    (0x1e93, [0x1e92]); (0x1e95, [0x1e94]); (0x1e96, [0x48; 0x331]); (0x1e97, [0x54; 0x308]);
    (0x1e98, [0x57; 0x30a]); (0x1e99, [0x59; 0x30a]); (0x1e9a, [0x41; 0x2be]); (0x1e9b, [0x1e60]);
    (0x1ea1, [0x1ea0]); (0x1ea3, [0x1ea2]); (0x1ea5, [0x1ea4]); (0x1ea7, [0x1ea6]);
    (0x1ea9, [0x1ea8]); (0x1eab, [0x1eaa]); (0x1ead, [0x1eac]); (0x1eaf, [0x1eae]);
    (0x1eb1, [0x1eb0]); (0x1eb3, [0x1eb2]); (0x1eb5, [0x1eb4]); (0x1eb7, [0x1eb6]);
    (0x1eb9, [0x1eb8]); (0x1ebb, [0x1eba]); (0x1ebd, [0x1ebc]); (0x1ebf, [0x1ebe]);
    (0x1ec1, [0x1ec0]); (0x1ec3, [0x1ec2]); (0x1ec5, [0x1ec4]); (0x1ec7, [0x1ec6]);
    (0x1ec9, [0x1ec8]); (0x1ecb, [0x1eca]); (0x1ecd, [0x1ecc]); (0x1ecf, [0x1ece]);
    (0x1ed1, [0x1ed0]); (0x1ed3, [0x1ed2]); (0x1ed5, [0x1ed4]); (0x1ed7, [0x1ed6]);
    (0x1ed9, [0x1ed8]); (0x1edb, [0x1eda]); (0x1edd, [0x1edc]); (0x1edf, [0x1ede]);
    (0x1ee1, [0x1ee0]); (0x1ee3, [0x1ee2]); (0x1ee5, [0x1ee4]); (0x1ee7, [0x1ee6]);
    (0x1ee9, [0x1ee8]); (0x1eeb, [0x1eea]); (0x1eed, [0x1eec]); (0x1eef, [0x1eee]);
    (0x1ef1, [0x1ef0]); (0x1ef3, [0x1ef2]); (0x1ef5, [0x1ef4]); (0x1ef7, [0x1ef6]);
    (0x1ef9, [0x1ef8]); (0x1efb, [0x1efa]); (0x1efd, [0x1efc]); (0x1eff, [0x1efe]);
    (0x1f00, [0x1f08]); (0x1f01, [0x1f09]); (0x1f02, [0x1f0a]); (0x1f03, [0x1f0b]);
    (0x1f04, [0x1f0c]); (0x1f05, [0x1f0d]); (0x1f06, [0x1f0e]); (0x1f07, [0x1f0f]);
    (0x1f10, [0x1f18]); (0x1f11, [0x1f19]); (0x1f12, [0x1f1a]); (0x1f13, [0x1f1b]);
    (0x1f14, [0x1f1c]); (0x1f15, [0x1f1d]); (0x1f20, [0x1f28]); (0x1f21, [0x1f29]);
    (0x1f22, [0x1f2a]); (0x1f23, [0x1f2b]); (0x1f24, [0x1f2c]); (0x1f25, [0x1f2d]);
    (0x1f26, [0x1f2e]); (0x1f27, [0x1f2f]); (0x1f30, [0x1f38]); (0x1f31, [0x1f39]);
    (0x1f32, [0x1f3a]); (0x1f33, [0x1f3b]); (0x1f34, [0x1f3c]); (0x1f35, [0x1f3d]);
    (0x1f36, [0x1f3e]); (0x1f37, [0x1f3f]); (0x1f40, [0x1f48]); (0x1f41, [0x1f49]);
    (0x1f42, [0x1f4a]); (0x1f43, [0x1f4b]); (0x1f44, [0x1f4c]); (0x1f45, [0x1f4d]);
    (0x1f50, [0x3a5; 0x313]); (0x1f51, [0x1f59]); (0x1f52, [0x3a5; 0x313; 0x300]); (0x1f53, [0x1f5b]);
    (0x1f54, [0x3a5; 0x313; 0x301]); (0x1f55, [0x1f5d]); (0x1f56, [0x3a5; 0x313; 0x342]); (0x1f57, [0x1f5f]);
    (0x1f60, [0x1f68]); (0x1f61, [0x1f69]); (0x1f62, [0x1f6a]); (0x1f63, [0x1f6b]);
    (0x1f64, [0x1f6c]); (0x1f65, [0x1f6d]); (0x1f66, [0x1f6e]); (0x1f67, [0x1f6f]);
    (0x1f70, [0x1fba]); (0x1f71, [0x1fbb]); (0x1f72, [0x1fc8]); (0x1f73, [0x1fc9]);
    (0x1f74, [0x1fca]); (0x1f75, [0x1fcb]); (0x1f76, [0x1fda]); (0x1f77, [0x1fdb]);
    (0x1f78, [0x1ff8]); (0x1f79, [0x1ff9]); (0x1f7a, [0x1fea]); (0x1f7b, [0x1feb]);
    (0x1f7c, [0x1ffa]); (0x1f7d, [0x1ffb]); (0x1f80, [0x1f08; 0x399]); (0x1f81, [0x1f09; 0x399]);
    (0x1f82, [0x1f0a; 0x399]); (0x1f83, [0x1f0b; 0x399]); (0x1f84, [0x1f0c; 0x399]); (0x1f85, [0x1f0d; 0x399]);
    (0x1f86, [0x1f0e; 0x399]); (0x1f87, [0x1f0f; 0x399]); (0x1f88, [0x1f08; 0x399]); (0x1f89, [0x1f09; 0x399]);
    (0x1f8a, [0x1f0a; 0x399]); (0x1f8b, [0x1f0b; 0x399]); (0x1f8c, [0x1f0c; 0x399]); (0x1f8d, [0x1f0d; 0x399]);
    (0x1f8e, [0x1f0e; 0x399]); (0x1f8f, [0x1f0f; 0x399]); (0x1f90, [0x1f28; 0x399]); (0x1f91, [0x1f29; 0x399]);
    (0x1f92, [0x1f2a; 0x399]); (0x1f93, [0x1f2b; 0x399]); (0x1f94, [0x1f2c; 0x399]); (0x1f95, [0x1f2d; 0x399]);
    (0x1f96, [0x1f2e; 0x399]); (0x1f97, [0x1f2f; 0x399]); (0x1f98, [0x1f28; 0x399]); (0x1f99, [0x1f29; 0x399]);
    (0x1f9a, [0x1f2a; 0x399]); (0x1f9b, [0x1f2b; 0x399]); (0x1f9c, [0x1f2c; 0x399]); (0x1f9d, [0x1f2d; 0x399]);
    (0x1f9e, [0x1f2e; 0x399]); (0x1f9f, [0x1f2f; 0x399]); (0x1fa0, [0x1f68; 0x399]); (0x1fa1, [0x1f69; 0x399]);
    (0x1fa2, [0x1f6a; 0x399]); (0x1fa3, [0x1f6b; 0x399]); (0x1fa4, [0x1f6c; 0x399]); (0x1fa5, [0x1f6d; 0x399]);
    (0x1fa6, [0x1f6e; 0x399]); (0x1fa7, [0x1f6f; 0x399]); (0x1fa8, [0x1f68; 0x399]); (0x1fa9, [0x1f69; 0x399]);
    (0x1faa, [0x1f6a; 0x399]); (0x1fab, [0x1f6b; 0x399]); (0x1fac, [0x1f6c; 0x399]); (0x1fad, [0x1f6d; 0x399]);
    (0x1fae, [0x1f6e; 0x399]); (0x1faf, [0x1f6f; 0x399]); (0x1fb0, [0x1fb8]); (0x1fb1, [0x1fb9]);
    (0x1fb2, [0x1fba; 0x399]); (0x1fb3, [0x391; 0x399]); (0x1fb4, [0x386; 0x399]); (0x1fb6, [0x391; 0x342]);
    (0x1fb7, [0x391; 0x342; 0x399]); (0x1fbc, [0x391; 0x399]); (0x1fbe, [0x399]); (0x1fc2, [0x1fca; 0x399]);
    (0x1fc3, [0x397; 0x399]); (0x1fc4, [0x389; 0x399]); (0x1fc6, [0x397; 0x342]); (0x1fc7, [0x397; 0x342; 0x399]);
    (0x1fcc, [0x397; 0x399]); (0x1fd0, [0x1fd8]); (0x1fd1, [0x1fd9]); (0x1fd2, [0x399; 0x308; 0x300]);
    (0x1fd3, [0x399; 0x308; 0x301]); (0x1fd6, [0x399; 0x342]); (0x1fd7, [0x399; 0x308; 0x342]); (0x1fe0, [0x1fe8]);
    (0x1fe1, [0x1fe9]); (0x1fe2, [0x3a5; 0x308; 0x300]); (0x1fe3, [0x3a5; 0x308; 0x301]); (0x1fe4, [0x3a1; 0x313]);
    (0x1fe5, [0x1fec]); (0x1fe6, [0x3a5; 0x342]); (0x1fe7, [0x3a5; 0x308; 0x342]); (0x1ff2, [0x1ffa; 0x399]);
    (0x1ff3, [0x3a9; 0x399]); (0x1ff4, [0x38f; 0x399]); (0x1ff6, [0x3a9; 0x342]); (0x1ff7, [0x3a9; 0x342; 0x399]);
    (0x1ffc, [0x3a9; 0x399]); (0x214e, [0x2132]); (0x2170, [0x2160]); (0x2171, [0x2161]);
    (0x2172, [0x2162]); (0x2173, [0x2163]); (0x2174, [0x2164]); (0x2175, [0x2165]);
    (0x2176, [0x2166]); (0x2177, [0x2167]); (0x2178, [0x2168]); (0x2179, [0x2169]);
    (0x217a, [0x216a]); (0x217b, [0x216b]); (0x217c, [0x216c]); (0x217d, [0x216d]);
    (0x217e, [0x216e]); (0x217f, [0x216f]); (0x2184, [0x2183]); (0x24d0, [0x24b6]);
    (0x24d1, [0x24b7]); (0x24d2, [0x24b8]); (0x24d3, [0x24b9]); (0x24d4, [0x24ba]);
    (0x24d5, [0x24bb]); (0x24d6, [0x24bc]); (0x24d7, [0x24bd]); (0x24d8, [0x24be]);
    (0x24d9, [0x24bf]); (0x24da, [0x24c0]); (0x24db, [0x24c1]); (0x24dc, [0x24c2]);
    (0x24dd, [0x24c3]); (0x24de, [0x24c4]); (0x24df, [0x24c5]); (0x24e0, [0x24c6]);
    (0x24e1, [0x24c7]); (0x24e2, [0x24c8]); (0x24e3, [0x24c9]); (0x24e4, [0x24ca]);
    (0x24e5, [0x24cb]); (0x24e6, [0x24cc]); (0x24e7, [0x24cd]); (0x24e8, [0x24ce]);
    (0x24e9, [0x24cf]); (0x2c30, [0x2c00]); (0x2c31, [0x2c01]); (0x2c32, [0x2c02]);
    (0x2c33, [0x2c03]); (0x2c34, [0x2c04]); (0x2c35, [0x2c05]); (0x2c36, [0x2c06]);
    (0x2c37, [0x2c07]); (0x2c38, [0x2c08]); (0x2c39, [0x2c09]); (0x2c3a, [0x2c0a]);
    (0x2c3b, [0x2c0b]); (0x2c3c, [0x2c0c]); (0x2c3d, [0x2c0d]); (0x2c3e, [0x2c0e]);
    (0x2c3f, [0x2c0f]); (0x2c40, [0x2c10]); (0x2c41, [0x2c11]); (0x2c42, [0x2c12]);
    (0x2c43, [0x2c13]); (0x2c44, [0x2c14]); (0x2c45, [0x2c15]); (0x2c46, [0x2c16]);
    (0x2c47, [0x2c17]); (0x2c48, [0x2c18]); (0x2c49, [0x2c19]); (0x2c4a, [0x2c1a]);
    (0x2c4b, [0x2c1b]); (0x2c4c, [0x2c1c]); (0x2c4d, [0x2c1d]); (0x2c4e, [0x2c1e]);
    (0x2c4f, [0x2c1f]); (0x2c50, [0x2c20]); (0x2c51, [0x2c21]); (0x2c52, [0x2c22]);
    (0x2c53, [0x2c23]); (0x2c54, [0x2c24]); (0x2c55, [0x2c25]); (0x2c56, [0x2c26]);
    (0x2c57, [0x2c27]); (0x2c58, [0x2c28]); (0x2c59, [0x2c29]); (0x2c5a, [0x2c2a]);
    (0x2c5b, [0x2c2b]); (0x2c5c, [0x2c2c]); (0x2c5d, [0x2c2d]); (0x2c5e, [0x2c2e]);
    (0x2c5f, [0x2c2f]); (0x2c61, [0x2c60]); (0x2c65, [0x23a]); (0x2c66, [0x23e]);
    (0x2c68, [0x2c67]); (0x2c6a, [0x2c69]); (0x2c6c, [0x2c6b]); (0x2c73, [0x2c72]);
    (0x2c76, [0x2c75]); (0x2c81, [0x2c80]); (0x2c83, [0x2c82]); (0x2c85, [0x2c84]);
    (0x2c87, [0x2c86]); (0x2c89, [0x2c88]); (0x2c8b, [0x2c8a]); (0x2c8d, [0x2c8c]);
    (0x2c8f, [0x2c8e]); (0x2c91, [0x2c90]); (0x2c93, [0x2c92]); (0x2c95, [0x2c94]);
    (0x2c97, [0x2c96]); (0x2c99, [0x2c98]); (0x2c9b, [0x2c9a]); (0x2c9d, [0x2c9c]);
    (0x2c9f, [0x2c9e]); (0x2ca1, [0x2ca0]); (0x2ca3, [0x2ca2]); (0x2ca5, [0x2ca4]);
    (0x2ca7, [0x2ca6]); (0x2ca9, [0x2ca8]); (0x2cab, [0x2caa]); (0x2cad, [0x2cac]);
    (0x2caf, [0x2cae]); (0x2cb1, [0x2cb0]); (0x2cb3, [0x2cb2]); (0x2cb5, [0x2cb4]);
    (0x2cb7, [0x2cb6]); (0x2cb9, [0x2cb8]); (0x2cbb, [0x2cba]); (0x2cbd, [0x2cbc]);
    (0x2cbf, [0x2cbe]); (0x2cc1, [0x2cc0]); (0x2cc3, [0x2cc2]); (0x2cc5, [0x2cc4]);
    (0x2cc7, [0x2cc6]); (0x2cc9, [0x2cc8]); (0x2ccb, [0x2cca]); (0x2ccd, [0x2ccc]);
    (0x2ccf, [0x2cce]); (0x2cd1, [0x2cd0]); (0x2cd3, [0x2cd2]); (0x2cd5, [0x2cd4]);
    (0x2cd7, [0x2cd6]); (0x2cd9, [0x2cd8]); (0x2cdb, [0x2cda]); (0x2cdd, [0x2cdc]);
    (0x2cdf, [0x2cde]); (0x2ce1, [0x2ce0]); (0x2ce3, [0x2ce2]); (0x2cec, [0x2ceb]);
    (0x2cee, [0x2ced]); (0x2cf3, [0x2cf2]); (0x2d00, [0x10a0]); (0x2d01, [0x10a1]);
    (0x2d02, [0x10a2]); (0x2d03, [0x10a3]); (0x2d04, [0x10a4]); (0x2d05, [0x10a5]);
    (0x2d06, [0x10a6]); (0x2d07, [0x10a7]); (0x2d08, [0x10a8]); (0x2d09, [0x10a9]);
    (0x2d0a, [0x10aa]); (0x2d0b, [0x10ab]); (0x2d0c, [0x10ac]); (0x2d0d, [0x10ad]);
    (0x2d0e, [0x10ae]); (0x2d0f, [0x10af]); (0x2d10, [0x10b0]); (0x2d11, [0x10b1]);
    (0x2d12, [0x10b2]); (0x2d13, [0x10b3]); (0x2d14, [0x10b4]); (0x2d15, [0x10b5]);
    (0x2d16, [0x10b6]); (0x2d17, [0x10b7]); (0x2d18, [0x10b8]); (0x2d19, [0x10b9]);
    (0x2d1a, [0x10ba]); (0x2d1b, [0x10bb]); (0x2d1c, [0x10bc]); (0x2d1d, [0x10bd]);
    (0x2d1e, [0x10be]); (0x2d1f, [0x10bf]); (0x2d20, [0x10c0]); (0x2d21, [0x10c1]);
    (0x2d22, [0x10c2]); (0x2d23, [0x10c3]); (0x2d24, [0x10c4]); (0x2d25, [0x10c5]);
    (0x2d27, [0x10c7]); (0x2d2d, [0x10cd]); (0xa641, [0xa640]); (0xa643, [0xa642]);
    (0xa645, [0xa644]); (0xa647, [0xa646]); (0xa649, [0xa648]); (0xa64b, [0xa64a]);
    (0xa64d, [0xa64c]); (0xa64f, [0xa64e]); (0xa651, [0xa650]); (0xa653, [0xa652]);
    (0xa655, [0xa654]); (0xa657, [0xa656]); (0xa659, [0xa658]); (0xa65b, [0xa65a]);
    (0xa65d, [0xa65c]); (0xa65f, [0xa65e]); (0xa661, [0xa660]); (0xa663, [0xa662]);
    (0xa665, [0xa664]); (0xa667, [0xa666]); (0xa669, [0xa668]); (0xa66b, [0xa66a]);
    (0xa66d, [0xa66c]); (0xa681, [0xa680]); (0xa683, [0xa682]); (0xa685, [0xa684]);
    (0xa687, [0xa686]); (0xa689, [0xa688]); (0xa68b, [0xa68a]); (0xa68d, [0xa68c]);
    (0xa68f, [0xa68e]); (0xa691, [0xa690]); (0xa693, [0xa692]); (0xa695, [0xa694]);
    (0xa697, [0xa696]); (0xa699, [0xa698]); (0xa69b, [0xa69a]); (0xa723, [0xa722]);
    (0xa725, [0xa724]); (0xa727, [0xa726]); (0xa729, [0xa728]); (0xa72b, [0xa72a]);
    (0xa72d, [0xa72c]); (0xa72f, [0xa72e]); (0xa733, [0xa732]); (0xa735, [0xa734]);
    (0xa737, [0xa736]); (0xa739, [0xa738]); (0xa73b, [0xa73a]); (0xa73d, [0xa73c]);
    (0xa73f, [0xa73e]); (0xa741, [0xa740]); (0xa743, [0xa742]); (0xa745, [0xa744]);
    (0xa747, [0xa746]); (0xa749, [0xa748]); (0xa74b, [0xa74a]); (0xa74d, [0xa74c]);
    (0xa74f, [0xa74e]); (0xa751, [0xa750]); (0xa753, [0xa752]); (0xa755, [0xa754]);
    (0xa757, [0xa756]); (0xa759, [0xa758]); (0xa75b, [0xa75a]); (0xa75d, [0xa75c]);
    (0xa75f, [0xa75e]); (0xa761, [0xa760]); (0xa763, [0xa762]); (0xa765, [0xa764]);
    (0xa767, [0xa766]); (0xa769, [0xa768]); (0xa76b, [0xa76a]); (0xa76d, [0xa76c]);
    (0xa76f, [0xa76e]); (0xa77a, [0xa779]); (0xa77c, [0xa77b]); (0xa77f, [0xa77e]);
    (0xa781, [0xa780]); (0xa783, [0xa782]); (0xa785, [0xa784]); (0xa787, [0xa786]);
    (0xa78c, [0xa78b]); (0xa791, [0xa790]); (0xa793, [0xa792]); (0xa794, [0xa7c4]);
    (0xa797, [0xa796]); (0xa799, [0xa798]); (0xa79b, [0xa79a]); (0xa79d, [0xa79c]);
    (0xa79f, [0xa79e]); (0xa7a1, [0xa7a0]); (0xa7a3, [0xa7a2]); (0xa7a5, [0xa7a4]);
    (0xa7a7, [0xa7a6]); (0xa7a9, [0xa7a8]); (0xa7b5, [0xa7b4]); (0xa7b7, [0xa7b6]);
    (0xa7b9, [0xa7b8]); (0xa7bb, [0xa7ba]); (0xa7bd, [0xa7bc]); (0xa7bf, [0xa7be]);
    (0xa7c1, [0xa7c0]); (0xa7c3, [0xa7c2]); (0xa7c8, [0xa7c7]); (0xa7ca, [0xa7c9]);
    (0xa7d1, [0xa7d0]); (0xa7d7, [0xa7d6]); (0xa7d9, [0xa7d8]); (0xa7f6, [0xa7f5]);
    (0xab53, [0xa7b3]); (0xab70, [0x13a0]); (0xab71, [0x13a1]); (0xab72, [0x13a2]);
    (0xab73, [0x13a3]); (0xab74, [0x13a4]); (0xab75, [0x13a5]); (0xab76, [0x13a6]);
    (0xab77, [0x13a7]); (0xab78, [0x13a8]); (0xab79, [0x13a9]); (0xab7a, [0x13aa]);
    (0xab7b, [0x13ab]); (0xab7c, [0x13ac]); (0xab7d, [0x13ad]); (0xab7e, [0x13ae]);
    (0xab7f, [0x13af]); (0xab80, [0x13b0]); (0xab81, [0x13b1]); (0xab82, [0x13b2]);
    (0xab83, [0x13b3]); (0xab84, [0x13b4]); (0xab85, [0x13b5]); (0xab86, [0x13b6]);
    (0xab87, [0x13b7]); (0xab88, [0x13b8]); (0xab89, [0x13b9]); (0xab8a, [0x13ba]);
    (0xab8b, [0x13bb]); (0xab8c, [0x13bc]); (0xab8d, [0x13bd]); (0xab8e, [0x13be]);
    (0xab8f, [0x13bf]); (0xab90, [0x13c0]); (0xab91, [0x13c1]); (0xab92, [0x13c2]);
    (0xab93, [0x13c3]); (0xab94, [0x13c4]); (0xab95, [0x13c5]); (0xab96, [0x13c6]);
    (0xab97, [0x13c7]); (0xab98, [0x13c8]); (0xab99, [0x13c9]); (0xab9a, [0x13ca]);
    (0xab9b, [0x13cb]); (0xab9c, [0x13cc]); (0xab9d, [0x13cd]); (0xab9e, [0x13ce]);
    (0xab9f, [0x13cf]); (0xaba0, [0x13d0]); (0xaba1, [0x13d1]); (0xaba2, [0x13d2]);
    (0xaba3, [0x13d3]); (0xaba4, [0x13d4]); (0xaba5, [0x13d5]); (0xaba6, [0x13d6]);
    (0xaba7, [0x13d7]); (0xaba8, [0x13d8]); (0xaba9, [0x13d9]); (0xabaa, [0x13da]);
    (0xabab, [0x13db]); (0xabac, [0x13dc]); (0xabad, [0x13dd]); (0xabae, [0x13de]);
    (0xabaf, [0x13df]); (0xabb0, [0x13e0]); (0xabb1, [0x13e1]); (0xabb2, [0x13e2]);
    (0xabb3, [0x13e3]); (0xabb4, [0x13e4]); (0xabb5, [0x13e5]); (0xabb6, [0x13e6]);
    (0xabb7, [0x13e7]); (0xabb8, [0x13e8]); (0xabb9, [0x13e9]); (0xabba, [0x13ea]);
    (0xabbb, [0x13eb]); (0xabbc, [0x13ec]); (0xabbd, [0x13ed]); (0xabbe, [0x13ee]);
    (0xabbf, [0x13ef]); (0xfb00, [0x46; 0x46]); (0xfb01, [0x46; 0x49]); (0xfb02, [0x46; 0x4c]);
    (0xfb03, [0x46; 0x46; 0x49]); (0xfb04, [0x46; 0x46; 0x4c]); (0xfb05, [0x53; 0x54]); (0xfb06, [0x53; 0x54]);
    (0xfb13, [0x544; 0x546]); (0xfb14, [0x544; 0x535]); (0xfb15, [0x544; 0x53b]); (0xfb16, [0x54e; 0x546]);
    (0xfb17, [0x544; 0x53d]); (0xff41, [0xff21]); (0xff42, [0xff22]); (0xff43, [0xff23]);
    (0xff44, [0xff24]); (0xff45, [0xff25]); (0xff46, [0xff26]); (0xff47, [0xff27]);
    (0xff48, [0xff28]); (0xff49, [0xff29]); (0xff4a, [0xff2a]); (0xff4b, [0xff2b]);
    (0xff4c, [0xff2c]); (0xff4d, [0xff2d]); (0xff4e, [0xff2e]); (0xff4f, [0xff2f]);
    (0xff50, [0xff30]); (0xff51, [0xff31]); (0xff52, [0xff32]); (0xff53, [0xff33]);
    (0xff54, [0xff34]); (0xff55, [0xff35]); (0xff56, [0xff36]); (0xff57, [0xff37]);
    (0xff58, [0xff38]); (0xff59, [0xff39]); (0xff5a, [0xff3a]); (0x10428, [0x10400]);
    (0x10429, [0x10401]); (0x1042a, [0x10402]); (0x1042b, [0x10403]); (0x1042c, [0x10404]);
    (0x1042d, [0x10405]); (0x1042e, [0x10406]); (0x1042f, [0x10407]); (0x10430, [0x10408]);
    (0x10431, [0x10409]); (0x10432, [0x1040a]); (0x10433, [0x1040b]); (0x10434, [0x1040c]);
    (0x10435, [0x1040d]); (0x10436, [0x1040e]); (0x10437, [0x1040f]); (0x10438, [0x10410]);
    (0x10439, [0x10411]); (0x1043a, [0x10412]); (0x1043b, [0x10413]); (0x1043c, [0x10414]);
    (0x1043d, [0x10415]); (0x1043e, [0x10416]); (0x1043f, [0x10417]); (0x10440, [0x10418]);
    (0x10441, [0x10419]); (0x10442, [0x1041a]); (0x10443, [0x1041b]); (0x10444, [0x1041c]);
    (0x10445, [0x1041d]); (0x10446, [0x1041e]); (0x10447, [0x1041f]); (0x10448, [0x10420]);
    (0x10449, [0x10421]); (0x1044a, [0x10422]); (0x1044b, [0x10423]); (0x1044c, [0x10424]);
    (0x1044d, [0x10425]); (0x1044e, [0x10426]); (0x1044f, [0x10427]); (0x104d8, [0x104b0]);
    (0x104d9, [0x104b1]); (0x104da, [0x104b2]); (0x104db, [0x104b3]); (0x104dc, [0x104b4]);
    (0x104dd, [0x104b5]); (0x104de, [0x104b6]); (0x104df, [0x104b7]); (0x104e0, [0x104b8]);
    (0x104e1, [0x104b9]); (0x104e2, [0x104ba]); (0x104e3, [0x104bb]); (0x104e4, [0x104bc]);
    (0x104e5, [0x104bd]); (0x104e6, [0x104be]); (0x104e7, [0x104bf]); (0x104e8, [0x104c0]);
    (0x104e9, [0x104c1]); (0x104ea, [0x104c2]); (0x104eb, [0x104c3]); (0x104ec, [0x104c4]);
    (0x104ed, [0x104c5]); (0x104ee, [0x104c6]); (0x104ef, [0x104c7]); (0x104f0, [0x104c8]);
    (0x104f1, [0x104c9]); (0x104f2, [0x104ca]); (0x104f3, [0x104cb]); (0x104f4, [0x104cc]);
    (0x104f5, [0x104cd]); (0x104f6, [0x104ce]); (0x104f7, [0x104cf]); (0x104f8, [0x104d0]);
    (0x104f9, [0x104d1]); (0x104fa, [0x104d2]); (0x104fb, [0x104d3]); (0x10597, [0x10570]);
    (0x10598, [0x10571]); (0x10599, [0x10572]); (0x1059a, [0x10573]); (0x1059b, [0x10574]);
    (0x1059c, [0x10575]); (0x1059d, [0x10576]); (0x1059e, [0x10577]); (0x1059f, [0x10578]);
    (0x105a0, [0x10579]); (0x105a1, [0x1057a]); (0x105a3, [0x1057c]); (0x105a4, [0x1057d]);
    (0x105a5, [0x1057e]); (0x105a6, [0x1057f]); (0x105a7, [0x10580]); (0x105a8, [0x10581]);
    (0x105a9, [0x10582]); (0x105aa, [0x10583]); (0x105ab, [0x10584]); (0x105ac, [0x10585]);
    (0x105ad, [0x10586]); (0x105ae, [0x10587]); (0x105af, [0x10588]); (0x105b0, [0x10589]);
    (0x105b1, [0x1058a]); (0x105b3, [0x1058c]); (0x105b4, [0x1058d]); (0x105b5, [0x1058e]);
    (0x105b6, [0x1058f]); (0x105b7, [0x10590]); (0x105b8, [0x10591]); (0x105b9, [0x10592]);
    (0x105bb, [0x10594]); (0x105bc, [0x10595]); (0x10cc0, [0x10c80]); (0x10cc1, [0x10c81]);
    (0x10cc2, [0x10c82]); (0x10cc3, [0x10c83]); (0x10cc4, [0x10c84]); (0x10cc5, [0x10c85]);
    (0x10cc6, [0x10c86]); (0x10cc7, [0x10c87]); (0x10cc8, [0x10c88]); (0x10cc9, [0x10c89]);
    (0x10cca, [0x10c8a]); (0x10ccb, [0x10c8b]); (0x10ccc, [0x10c8c]); (0x10ccd, [0x10c8d]);
    (0x10cce, [0x10c8e]); (0x10ccf, [0x10c8f]); (0x10cd0, [0x10c90]); (0x10cd1, [0x10c91]);
    (0x10cd2, [0x10c92]); (0x10cd3, [0x10c93]); (0x10cd4, [0x10c94]); (0x10cd5, [0x10c95]);
    (0x10cd6, [0x10c96]); (0x10cd7, [0x10c97]); (0x10cd8, [0x10c98]); (0x10cd9, [0x10c99]);
    (0x10cda, [0x10c9a]); (0x10cdb, [0x10c9b]); (0x10cdc, [0x10c9c]); (0x10cdd, [0x10c9d]);
    (0x10cde, [0x10c9e]); (0x10cdf, [0x10c9f]); (0x10ce0, [0x10ca0]); (0x10ce1, [0x10ca1]);
    (0x10ce2, [0x10ca2]); (0x10ce3, [0x10ca3]); (0x10ce4, [0x10ca4]); (0x10ce5, [0x10ca5]);
    (0x10ce6, [0x10ca6]); (0x10ce7, [0x10ca7]); (0x10ce8, [0x10ca8]); (0x10ce9, [0x10ca9]);
    (0x10cea, [0x10caa]); (0x10ceb, [0x10cab]); (0x10cec, [0x10cac]); (0x10ced, [0x10cad]);
    (0x10cee, [0x10cae]); (0x10cef, [0x10caf]); (0x10cf0, [0x10cb0]); (0x10cf1, [0x10cb1]);
    (0x10cf2, [0x10cb2]); (0x118c0, [0x118a0]); (0x118c1, [0x118a1]); (0x118c2, [0x118a2]);
    (0x118c3, [0x118a3]); (0x118c4, [0x118a4]); (0x118c5, [0x118a5]); (0x118c6, [0x118a6]);
    (0x118c7, [0x118a7]); (0x118c8, [0x118a8]); (0x118c9, [0x118a9]); (0x118ca, [0x118aa]);
    (0x118cb, [0x118ab]); (0x118cc, [0x118ac]); (0x118cd, [0x118ad]); (0x118ce, [0x118ae]);
    (0x118cf, [0x118af]); (0x118d0, [0x118b0]); (0x118d1, [0x118b1]); (0x118d2, [0x118b2]);
    (0x118d3, [0x118b3]); (0x118d4, [0x118b4]); (0x118d5, [0x118b5]); (0x118d6, [0x118b6]);
    (0x118d7, [0x118b7]); (0x118d8, [0x118b8]); (0x118d9, [0x118b9]); (0x118da, [0x118ba]);
    (0x118db, [0x118bb]); (0x118dc, [0x118bc]); (0x118dd, [0x118bd]); (0x118de, [0x118be]);
    (0x118df, [0x118bf]); (0x16e60, [0x16e40]); (0x16e61, [0x16e41]); (0x16e62, [0x16e42]);
    (0x16e63, [0x16e43]); (0x16e64, [0x16e44]); (0x16e65, [0x16e45]); (0x16e66, [0x16e46]);
    (0x16e67, [0x16e47]); (0x16e68, [0x16e48]); (0x16e69, [0x16e49]); (0x16e6a, [0x16e4a]);
    (0x16e6b, [0x16e4b]); (0x16e6c, [0x16e4c]); (0x16e6d, [0x16e4d]); (0x16e6e, [0x16e4e]);
    (0x16e6f, [0x16e4f]); (0x16e70, [0x16e50]); (0x16e71, [0x16e51]); (0x16e72, [0x16e52]);
    (0x16e73, [0x16e53]); (0x16e74, [0x16e54]); (0x16e75, [0x16e55]); (0x16e76, [0x16e56]);
    (0x16e77, [0x16e57]); (0x16e78, [0x16e58]); (0x16e79, [0x16e59]); (0x16e7a, [0x16e5a]);
    (0x16e7b, [0x16e5b]); (0x16e7c, [0x16e5c]); (0x16e7d, [0x16e5d]); (0x16e7e, [0x16e5e]);
    (0x16e7f, [0x16e5f]); (0x1e922, [0x1e900]); (0x1e923, [0x1e901]); (0x1e924, [0x1e902]);
    (0x1e925, [0x1e903]); (0x1e926, [0x1e904]); (0x1e927, [0x1e905]); (0x1e928, [0x1e906]);
    (0x1e929, [0x1e907]); (0x1e92a, [0x1e908]); (0x1e92b, [0x1e909]); (0x1e92c, [0x1e90a]);
    (0x1e92d, [0x1e90b]); (0x1e92e, [0x1e90c]); (0x1e92f, [0x1e90d]); (0x1e930, [0x1e90e]);
    (0x1e931, [0x1e90f]); (0x1e932, [0x1e910]); (0x1e933, [0x1e911]); (0x1e934, [0x1e912]);
    (0x1e935, [0x1e913]); (0x1e936, [0x1e914]); (0x1e937, [0x1e915]); (0x1e938, [0x1e916]);
    (0x1e939, [0x1e917]); (0x1e93a, [0x1e918]); (0x1e93b, [0x1e919]); (0x1e93c, [0x1e91a]);
    (0x1e93d, [0x1e91b]); (0x1e93e, [0x1e91c]); (0x1e93f, [0x1e91d]); (0x1e940, [0x1e91e]);
    (0x1e941, [0x1e91f]); (0x1e942, [0x1e920]); (0x1e943, [0x1e921]) ]%N.

(** The table in bytes: the UTF-8 form of each character with the UTF-8
    form of its upper-case text. *)
Definition upper_table : list (string * string) :=
  Eval vm_compute in
    map (fun entry : N * list N =>
           (utf8 (fst entry), String.concat EmptyString (map utf8 (snd entry))))
        upper_points.

(** A byte of ASCII text; a continuation byte of a multi-byte character. *)
Definition is_ascii (c : ascii) : bool := (nat_of_ascii c <? 128)%nat.

Definition is_continuation (c : ascii) : bool :=
  ((128 <=? nat_of_ascii c) && (nat_of_ascii c <? 192))%nat.

(** [s] without its first [n] bytes. *)
Fixpoint drop (n : nat) (s : string) : string :=
  match n, s with
  | O, _ => s
  | S _, EmptyString => EmptyString
  | S m, String _ r => drop m r
  end.

(** The entry of the table for the character that starts with the byte [c]
    and goes on with the first bytes of [r], if it has one. *)
(** [s] begins with [k]. *)
Fixpoint starts_with (k s : string) : bool :=
  match k, s with
  | EmptyString, _ => true
  | String _ _, EmptyString => false
  | String a k', String b s' => Ascii.eqb a b && starts_with k' s'
  end.

(** The key of a table entry is the character that starts with the byte
    [c] and goes on with the first bytes of [r]. *)
Definition entry_matches (c : ascii) (r : string) (entry : string * string) : bool :=
  match fst entry with
  | EmptyString => false
  | String c0 k => Ascii.eqb c0 c && starts_with k r
  end.

Definition find_entry (c : ascii) (r : string) : option (string * string) :=
  find (entry_matches c r) upper_table.

(** Upper-casing from left to right.  [skip] counts the bytes still to pass
    over of a character that has been replaced. *)
Fixpoint upper_from (skip : nat) (s : string) : string :=
  match s with
  | EmptyString => EmptyString
  | String c r =>
      match skip with
      | S n => upper_from n r
      | O =>
          if is_ascii c then String (upper_char c) (upper_from 0 r)
          else match find_entry c r with
               | Some (k, u) => u ++ upper_from (String.length k - 1) r
               | None => String c (upper_from 0 r)
               end
      end
  end.

(** [s.upper()] *)
Definition upper (s : string) : string := upper_from 0 s.

(** *** What the proofs need to know of the table *)

Fixpoint all_bytes (p : ascii -> bool) (s : string) : bool :=
  match s with
  | EmptyString => true
  | String c r => p c && all_bytes p r
  end.

(** A key is a lead byte followed by continuation bytes. *)
Definition key_ok (k : string) : bool :=
  match k with
  | EmptyString => false
  | String c r => negb (is_ascii c) && negb (is_continuation c)
                  && all_bytes is_continuation r
  end.

(** [k] and [s] differ at a position both have. *)
Fixpoint clash (k s : string) : bool :=
  match k, s with
  | String a k', String b s' => negb (Ascii.eqb a b) || clash k' s'
  | _, _ => false
  end.

(** Upper-casing leaves [u] alone whatever follows it: its ASCII bytes are
    not lower-case letters and no key of the table can start inside it. *)
Fixpoint settled (u : string) : bool :=
  match u with
  | EmptyString => true
  | String c r =>
      (if is_ascii c then Ascii.eqb (upper_char c) c
       else if is_continuation c then true
       else forallb (fun entry : string * string =>
                       match fst entry with
                       | EmptyString => true
                       | String c0 k => negb (Ascii.eqb c0 c) || clash k r
                       end) upper_table)
      && settled r
  end.

Definition entry_ok (entry : string * string) : bool :=
  key_ok (fst entry)
  && match snd entry with
     | EmptyString => false
     | String c _ => negb (is_continuation c)
     end
  && settled (snd entry).

Definition squote : ascii := ascii_of_nat 39.
Definition dquote : ascii := ascii_of_nat 34.
Definition bslash : ascii := ascii_of_nat 92.

Fixpoint contains_char (c : ascii) (s : string) : bool :=
  match s with
  | EmptyString => false
  | String x r => Ascii.eqb x c || contains_char c r
  end.

Definition hex_digit (n : nat) : ascii :=
  if (n <? 10)%nat then ascii_of_nat (48 + n) else ascii_of_nat (87 + n).

Definition escape_char (q c : ascii) : string :=
  let n := nat_of_ascii c in
  if Ascii.eqb c q || Ascii.eqb c bslash then String bslash (String c EmptyString)
  else if (n =? 9)%nat then String bslash "t"
  else if (n =? 10)%nat then String bslash "n"
  else if (n =? 13)%nat then String bslash "r"
  else if ((n <? 32) || (126 <? n))%nat then
    String bslash (String "x" (String (hex_digit (n / 16)) (String (hex_digit (n mod 16)) EmptyString)))
  else String c EmptyString.

Fixpoint escape (q : ascii) (s : string) : string :=
  match s with
  | EmptyString => EmptyString
  | String c r => escape_char q c ++ escape q r
  end.

(** [repr(s)] of a [str]: single quotes unless the text holds a single quote
    and no double quote.  The escapes are those of ASCII text; bytes of
    characters outside ASCII are written as hexadecimal escapes. *)
Definition repr_str (s : string) : string :=
  let q := if contains_char squote s && negb (contains_char dquote s)
           then dquote else squote in
  String q (escape q s ++ String q EmptyString).

Definition str_int (z : Z) : string := NilZero.string_of_int (Z.to_int z).

(** [repr(v)] *)
Fixpoint py_repr (v : pyval) : string :=
  match v with
  | PyNone => "None"
  | PyBool true => "True"
  | PyBool false => "False"
  | PyInt z => str_int z
  | PyFloat _ text => text
  | PyStr s => repr_str s
  | PyList l =>
      "[" ++ String.concat ", " ((fix items (l : list pyval) : list string :=
                                    match l with
                                    | [] => []
                                    | x :: r => py_repr x :: items r
                                    end) l) ++ "]"
  | PyDict d =>
      "{" ++ String.concat ", " ((fix items (d : list (string * pyval)) : list string :=
                                    match d with
                                    | [] => []
                                    | (k, x) :: r => (repr_str k ++ ": " ++ py_repr x) :: items r
                                    end) d) ++ "}"
  end.

(** [str(v)], also what an f-string field [{v}] renders. *)
Definition py_str (v : pyval) : string :=
  match v with
  | PyStr s => s
  | _ => py_repr v
  end.

(** [str(e)] *)
Definition exn_str (e : exn) : string :=
  match e with
  | AttributeError t a => "'" ++ t ++ "' object has no attribute '" ++ a ++ "'"
  | KeyError k => repr_str k
  | TypeError m => m
  | BadRequest m => m
  | SdkError m => m
  end.

(** *** Dictionaries *)

Fixpoint lookup {A : Type} (k : string) (d : list (string * A)) : option A :=
  match d with
  | [] => None
  | (k', x) :: r => if (k' =? k)%string then Some x else lookup k r
  end.

(** [d[k] = x] *)
Fixpoint dict_set (d : dict) (k : string) (x : pyval) : dict :=
  match d with
  | [] => [(k, x)]
  | (k', y) :: r => if (k' =? k)%string then (k', x) :: r else (k', y) :: dict_set r k x
  end.

(** [v[k]] for a string key [k] *)
Definition py_getitem (v : pyval) (k : string) : outcome pyval :=
  match v with
  | PyDict d => match lookup k d with
                | Some x => Ok x
                | None => Raise (KeyError k)
                end
  | PyStr _ => Raise (TypeError "string indices must be integers, not 'str'")
  | PyList _ => Raise (TypeError "list indices must be integers or slices, not str")
  | _ => Raise (TypeError ("'" ++ type_name v ++ "' object is not subscriptable"))
  end.

(** [d.get(k, default)] on a [dict] *)
Definition dict_get (d : dict) (k : string) (default : pyval) : pyval :=
  match lookup k d with
  | Some x => x
  | None => default
  end.

(** [v.get(k, default)]: only a [dict] has the method. *)
Definition py_get (v : pyval) (k : string) (default : pyval) : outcome pyval :=
  match v with
  | PyDict d => Ok (dict_get d k default)
  | _ => Raise (AttributeError (type_name v) "get")
  end.

(** [v.upper()]: only a [str] has the method. *)
Definition py_upper (v : pyval) : outcome pyval :=
  match v with
  | PyStr s => Ok (PyStr (upper s))
  | _ => Raise (AttributeError (type_name v) "upper")
  end.

(** [table.get(key, default)] on a table with string keys and an arbitrary
    key: a list or a dict is unhashable, any other non-string key is simply
    not found. *)
Definition table_get (table : dict) (key : pyval) (default : pyval) : outcome pyval :=
  match key with
  | PyStr s => match lookup s table with
               | Some x => Ok x
               | None => Ok default
               end
  | PyList _ | PyDict _ => Raise (TypeError ("unhashable type: '" ++ type_name key ++ "'"))
  | _ => Ok default
  end.

(** [v == s] for a string literal [s] *)
Definition eq_str (v : pyval) (s : string) : bool :=
  match v with
  | PyStr t => (t =? s)%string
  | _ => false
  end.

(** [v in [s1, s2, ...]] for a list of string literals *)
Definition in_strs (v : pyval) (l : list string) : bool :=
  existsb (eq_str v) l.

End Py.

Import Py.

(** ** State, environment and the monad of the embedding *)

(** The fields [AngelOneTrader.__init__] sets.  [smart_api] is [None] until a
    [SmartConnect] object exists; the object is an opaque handle (such an
    object is always truthy). *)
Record Trader : Type := mkTrader {
  api_key : string;
  username : string;
  password : string;
  totp_key : string;
  smart_api : option nat;
  auth_token : pyval;
  refresh_token : pyval;
  feed_token : pyval;
  default_quantity : Z;
  product_type : string;
  order_type : string
}.

(** [AngelOneTrader()] for the given credentials. *)
Definition init_trader (key user pass totp : string) : Trader :=
  {| api_key := key; username := user; password := pass; totp_key := totp;
     smart_api := None; auth_token := PyNone; refresh_token := PyNone;
     feed_token := PyNone;
     default_quantity := 1; product_type := "MIS"; order_type := "MARKET" |}.

(** What the code did, in order: entries into its own methods and the calls
    that leave the process. *)
Inductive event : Type :=
| CallLogin
| CallGetSymbolToken (symbol : pyval)
| CallPlaceOrder (symbol action quantity price : pyval)
| SmartConnect (key : string)
| TotpNow (key : string)
| GenerateSession (client : nat) (user pass totp : string)
| PlaceOrder (client : nat) (order_params : dict).

(** The collaborators outside the source: the SDK constructor, [pyotp]'s
    [TOTP(key).now()], the SDK's two endpoints and [datetime.now().isoformat()].
    Each answer may depend on everything that happened before. *)
Record Env : Type := mkEnv {
  env_SmartConnect : list event -> string -> outcome nat;
  env_totp_now : list event -> string -> outcome string;
  env_generateSession : list event -> nat -> string -> string -> string -> outcome pyval;
  env_placeOrder : list event -> nat -> dict -> outcome pyval;
  env_now : list event -> string
}.

Record state : Type := mkState {
  trader : Trader;
  trace : list event
}.

(** A computation reads the environment, updates the state and either returns
    or raises; what it did to the state before raising stays done. *)
Definition M (A : Type) : Type := Env -> state -> outcome A * state.

Definition ret {A} (a : A) : M A := fun _ st => (Ok a, st).

Definition bind {A B} (m : M A) (f : A -> M B) : M B :=
  fun env st =>
    match m env st with
    | (Ok a, st') => f a env st'
    | (Raise e, st') => (Raise e, st')
    end.

Definition lift {A} (o : outcome A) : M A := fun _ st => (o, st).

(** [try: body  except Exception as e: handler(e)] *)
Definition try_except {A} (body : M A) (handler : exn -> M A) : M A :=
  fun env st =>
    match body env st with
    | (Ok a, st') => (Ok a, st')
    | (Raise e, st') => handler e env st'
    end.

Declare Scope py_scope.
Delimit Scope py_scope with py.
Notation "x <- m ;; k" := (bind m (fun x => k))
  (at level 61, m at next level, right associativity) : py_scope.
Notation "m ;; k" := (bind m (fun _ => k))
  (at level 61, right associativity) : py_scope.
Local Open Scope py_scope.

Definition get_self : M Trader := fun _ st => (Ok (trader st), st).

Definition update (f : Trader -> Trader) : M unit :=
  fun _ st => (Ok tt, {| trader := f (trader st); trace := trace st |}).

Definition record (e : event) : M unit :=
  fun _ st => (Ok tt, {| trader := trader st; trace := trace st ++ [e] |}).

(** An outgoing call: recorded, then answered by the environment from the
    history before it. *)
Definition call {A} (e : event) (answer : Env -> list event -> outcome A) : M A :=
  fun env st =>
    (answer env (trace st), {| trader := trader st; trace := trace st ++ [e] |}).

Definition set_smart_api (c : option nat) (t : Trader) : Trader :=
  {| api_key := api_key t; username := username t; password := password t;
     totp_key := totp_key t; smart_api := c; auth_token := auth_token t;
     refresh_token := refresh_token t; feed_token := feed_token t;
     default_quantity := default_quantity t; product_type := product_type t;
     order_type := order_type t |}.

Definition set_auth_token (v : pyval) (t : Trader) : Trader :=
  {| api_key := api_key t; username := username t; password := password t;
     totp_key := totp_key t; smart_api := smart_api t; auth_token := v;
     refresh_token := refresh_token t; feed_token := feed_token t;
     default_quantity := default_quantity t; product_type := product_type t;
     order_type := order_type t |}.

Definition set_refresh_token (v : pyval) (t : Trader) : Trader :=
  {| api_key := api_key t; username := username t; password := password t;
     totp_key := totp_key t; smart_api := smart_api t; auth_token := auth_token t;
     refresh_token := v; feed_token := feed_token t;
     default_quantity := default_quantity t; product_type := product_type t;
     order_type := order_type t |}.

Definition set_feed_token (v : pyval) (t : Trader) : Trader :=
  {| api_key := api_key t; username := username t; password := password t;
     totp_key := totp_key t; smart_api := smart_api t; auth_token := auth_token t;
     refresh_token := refresh_token t; feed_token := v;
     default_quantity := default_quantity t; product_type := product_type t;
     order_type := order_type t |}.

(** [self.smart_api.<method>(...)]: without an object the attribute lookup
    fails on [None]. *)
Definition sdk_call {A} (method : string) (c : option nat)
    (ev : nat -> event) (answer : nat -> Env -> list event -> outcome A) : M A :=
  match c with
  | Some h => call (ev h) (answer h)
  | None => lift (Raise (AttributeError "NoneType" method))
  end.

(** ** The source, function by function *)

(** [AngelOneTrader.login] (lines 35-58).  Logging is not modelled. *)
Definition login : M bool :=
  record CallLogin ;;
  try_except
    (self <- get_self ;;
     c <- call (SmartConnect (api_key self)) (fun env h => env_SmartConnect env h (api_key self)) ;;
     update (set_smart_api (Some c)) ;;
     self <- get_self ;;
     totp <- call (TotpNow (totp_key self)) (fun env h => env_totp_now env h (totp_key self)) ;;
     self <- get_self ;;
     data <- sdk_call "generateSession" (smart_api self)
               (fun c => GenerateSession c (username self) (password self) totp)
               (fun c env h => env_generateSession env h c (username self) (password self) totp) ;;
     status <- lift (py_getitem data "status") ;;
     if py_truthy status then
       d <- lift (py_getitem data "data") ;;
       jwt <- lift (py_getitem d "jwtToken") ;;
       update (set_auth_token jwt) ;;
       d <- lift (py_getitem data "data") ;;
       rt <- lift (py_getitem d "refreshToken") ;;
       update (set_refresh_token rt) ;;
       d <- lift (py_getitem data "data") ;;
       ft <- lift (py_getitem d "feedToken") ;;
       update (set_feed_token ft) ;;
       ret true
     else
       ret false)
    (fun _ => ret false).

Definition symbol_map : dict :=
  [ ("NIFTY", PyStr "99926000");
    ("BANKNIFTY", PyStr "99926009");
    ("RELIANCE", PyStr "2885");
    ("TCS", PyStr "11536");
    ("INFY", PyStr "1594");
    ("HDFCBANK", PyStr "1333");
    ("ICICIBANK", PyStr "4963");
    ("SBIN", PyStr "3045");
    ("ITC", PyStr "424");
    ("HINDUNILVR", PyStr "356") ].

(** [AngelOneTrader.get_symbol_token] (lines 60-83); the [exchange]
    argument is never read. *)
Definition get_symbol_token (symbol : pyval) : M pyval :=
  record (CallGetSymbolToken symbol) ;;
  try_except
    (key <- lift (py_upper symbol) ;;
     lift (table_get symbol_map key PyNone))
    (fun _ => ret PyNone).

(** The session test of [place_order]: line 88 logs in when
    [not self.smart_api or not self.auth_token]; a session is present when
    both are truthy. *)
Definition session_present (t : Trader) : bool :=
  match smart_api t with
  | Some _ => py_truthy (auth_token t)
  | None => false
  end.

(** The dictionaries [place_order] returns. *)
Definition failure (message : string) : pyval :=
  PyDict [("status", PyBool false); ("message", PyStr message)].

Definition placed (message : string) (order_id : pyval) : pyval :=
  PyDict [("status", PyBool true); ("message", PyStr message); ("order_id", order_id)].

(** The order parameters of lines 105-119: the nine fixed fields, then
    [price] when the order type is LIMIT and [price] is truthy. *)
Definition order_params_for (self : Trader)
    (symbol symbol_token : pyval) (transaction_type : string)
    (quantity price : pyval) : dict :=
  let order_params : dict :=
    [ ("variety", PyStr "NORMAL");
      ("tradingsymbol", symbol);
      ("symboltoken", symbol_token);
      ("transactiontype", PyStr transaction_type);
      ("exchange", PyStr "NSE");
      ("ordertype", PyStr (order_type self));
      ("producttype", PyStr (product_type self));
      ("duration", PyStr "DAY");
      ("quantity", PyStr (py_str quantity)) ] in
  if (order_type self =? "LIMIT")%string && py_truthy price
  then dict_set order_params "price" (PyStr (py_str price))
  else order_params.

(** [AngelOneTrader.place_order] (lines 85-138).  An early [return] is the
    [then] branch of a conditional whose [else] branch is the rest of the
    body. *)
Definition place_order (symbol action quantity price : pyval) : M pyval :=
  record (CallPlaceOrder symbol action quantity price) ;;
  try_except
    (self <- get_self ;;
     login_failed <- (if negb (session_present self)
                      then (ok <- login ;; ret (negb ok))
                      else ret false) ;;
     if login_failed then ret (failure "Login failed") else
     symbol_token <- get_symbol_token symbol ;;
     if negb (py_truthy symbol_token)
     then ret (failure ("Symbol token not found for " ++ py_str symbol)) else
     self <- get_self ;;
     let quantity := if negb (py_truthy quantity)
                     then PyInt (default_quantity self) else quantity in
     action_upper <- lift (py_upper action) ;;
     let transaction_type := if eq_str action_upper "BUY" then "BUY" else "SELL" in
     let order_params :=
       order_params_for self symbol symbol_token transaction_type quantity price in
     order_response <- sdk_call "placeOrder" (smart_api self)
                         (fun c => PlaceOrder c order_params)
                         (fun c env h => env_placeOrder env h c order_params) ;;
     accepted <- (if py_truthy order_response
                  then (s <- lift (py_get order_response "status" PyNone) ;;
                        ret (py_truthy s))
                  else ret false) ;;
     if accepted then
       d <- lift (py_getitem order_response "data") ;;
       order_id <- lift (py_getitem d "orderid") ;;
       ret (placed ("Order placed: " ++ transaction_type ++ " " ++ py_str quantity
                      ++ " " ++ py_str symbol) order_id)
     else
       ret (failure ("Order failed: " ++ py_str order_response)))
    (fun e => ret (failure ("Error: " ++ exn_str e))).

Definition signal_quantities : dict :=
  [ ("G_BOX", PyInt 1);
    ("R_BOX", PyInt 1);
    ("2G_BOX", PyInt 2);
    ("2R_BOX", PyInt 2);
    ("1G_BOX", PyInt 1);
    ("1R_BOX", PyInt 1);
    ("2GR_BOX", PyInt 1);
    ("2RG_BOX", PyInt 1) ].

(** [get_quantity_for_signal] (lines 209-223) *)
Definition get_quantity_for_signal (signal : pyval) : outcome pyval :=
  table_get signal_quantities signal (PyInt 1).

(** What Flask hands to the route, seen through [request.get_json()], which
    the route calls without [silent=True]: a request Flask does not take for
    JSON yields [None]; a body that parses yields its value; a body that is
    not valid JSON makes Flask's [on_json_loading_failed] raise
    [BadRequest], carrying the given text. *)
Inductive request : Type :=
| NoJson
| Unparsable (detail : string)
| Json (v : pyval).

Definition get_json (r : request) : outcome pyval :=
  match r with
  | NoJson => Ok PyNone
  | Unparsable detail => Raise (BadRequest detail)
  | Json v => Ok v
  end.

Definition now_isoformat : M string :=
  fun env st => (Ok (env_now env (trace st)), st).

Definition error_body (message : string) : pyval :=
  PyDict [("status", PyStr "error"); ("message", PyStr message)].

(** The [try] block of the [/webhook] route (lines 161-203): the JSON body
    handed to [jsonify] and the HTTP status. *)
Definition webhook_try (r : request) : M (pyval * Z) :=
    (data <- lift (get_json r) ;;
     if negb (py_truthy data) then ret (error_body "No data received", 400) else
     action <- lift (py_get data "action" PyNone) ;;
     symbol <- lift (py_get data "symbol" (PyStr "NIFTY")) ;;
     signal <- lift (py_get data "signal" PyNone) ;;
     price <- lift (py_get data "price" PyNone) ;;
     message <- lift (py_get data "message" PyNone) ;;
     if negb (py_truthy action) || negb (in_strs action ["BUY"; "SELL"])
     then ret (error_body "Invalid action", 400) else
     quantity <- lift (get_quantity_for_signal signal) ;;
     result <- place_order symbol action quantity price ;;
     result_status <- lift (py_get result "status" PyNone) ;;
     result_message <- lift (py_get result "message" PyNone) ;;
     timestamp <- now_isoformat ;;
     let response : dict :=
       [ ("status", PyStr (if py_truthy result_status then "success" else "error"));
         ("message", result_message);
         ("timestamp", PyStr timestamp);
         ("signal", signal);
         ("action", action);
         ("symbol", symbol);
         ("quantity", quantity) ] in
     order_id <- lift (py_get result "order_id" PyNone) ;;
     response <- (if py_truthy order_id
                  then (oid <- lift (py_getitem result "order_id") ;;
                        ret (dict_set response "order_id" oid))
                  else ret response) ;;
     result_status <- lift (py_get result "status" PyNone) ;;
     ret (PyDict response, if py_truthy result_status then 200 else 400)).

(** The [/webhook] route (lines 157-207). *)
Definition webhook (r : request) : M (pyval * Z) :=
  try_except (webhook_try r)
    (fun e => ret (error_body (exn_str e), 500)).

(** The [/login] route (lines 236-244): the JSON body. *)
Definition manual_login : M pyval :=
  success <- login ;;
  timestamp <- now_isoformat ;;
  ret (PyDict [ ("status", PyStr (if success then "success" else "error"));
                ("message", PyStr (if success then "Login successful" else "Login failed"));
                ("timestamp", PyStr timestamp) ]).

(** [x is not None] *)
Definition is_not_none (v : pyval) : bool :=
  match v with
  | PyNone => false
  | _ => true
  end.

(** The [/status] route (lines 225-234): the JSON body.  The argument is
    the value of the environment variable [RAILWAY_ENVIRONMENT], if set. *)
Definition status (railway_environment : option string) : M pyval :=
  timestamp <- now_isoformat ;;
  self <- get_self ;;
  ret (PyDict
         [ ("status", PyStr "running");
           ("timestamp", PyStr timestamp);
           ("logged_in", PyBool (is_not_none (auth_token self)));
           ("api_key_configured",
            PyBool (negb (api_key self =? "YOUR_ANGEL_ONE_API_KEY")%string));
           ("environment",
            PyStr (match railway_environment with
                   | Some label => label
                   | None => "development"
                   end)) ]).

(** The [/test] route (lines 246-259): the JSON body.  [place_order] is
    called with three arguments, so its [price] is the default [None]. *)
Definition test_order (r : request) : M pyval :=
  try_except
    (got <- lift (get_json r) ;;
     let data := if py_truthy got then got else PyDict [] in
     symbol <- lift (py_get data "symbol" (PyStr "NIFTY")) ;;
     action <- lift (py_get data "action" (PyStr "BUY")) ;;
     quantity <- lift (py_get data "quantity" (PyInt 1)) ;;
     result <- place_order symbol action quantity PyNone ;;
     ret result)
    (fun e => ret (failure (exn_str e))).

(** ** Observations of a run *)

Definition result_of {A} (m : M A) (env : Env) (st : state) : outcome A :=
  fst (m env st).

Definition trader_after {A} (m : M A) (env : Env) (st : state) : Trader :=
  trader (snd (m env st)).

(** The events a run adds to the trace. *)
Definition events_of {A} (m : M A) (env : Env) (st : state) : list event :=
  skipn (length (trace st)) (trace (snd (m env st))).

Definition tokens (t : Trader) : pyval * pyval * pyval :=
  (auth_token t, refresh_token t, feed_token t).

Definition is_session_call (e : event) : bool :=
  match e with
  | CallLogin | SmartConnect _ | TotpNow _ | GenerateSession _ _ _ _ => true
  | _ => false
  end.

Definition is_order_call (e : event) : bool :=
  match e with
  | PlaceOrder _ _ => true
  | _ => false
  end.


Definition is_dispatch_call (e : event) : bool :=
  match e with
  | CallPlaceOrder _ _ _ _ => true
  | _ => false
  end.

(** [result.get("status")] is truthy *)
Definition reports_success (result : pyval) : bool :=
  match py_get result "status" PyNone with
  | Ok s => py_truthy s
  | Raise _ => false
  end.

(** The state with further events logged. *)
Definition logged (st : state) (evs : list event) : state :=
  {| trader := trader st; trace := trace st ++ evs |}.

(** The state in which the body of [place_order] starts. *)
Definition entered (symbol action quantity price : pyval) (st : state) : state :=
  logged st [CallPlaceOrder symbol action quantity price].

(** Lines 88-90 of [place_order] on their own: log in only when the session
    test fails; the boolean tells whether the body goes on. *)
Definition session_step (env : Env) (st : state) : outcome bool * state :=
  if session_present (trader st) then (Ok true, st) else login env st.

(** The session step of a call of [place_order] lets the body go on: a
    session was there, or the login made by the call returned [True]. *)
Definition session_established (env : Env) (st : state)
    (symbol action quantity price : pyval) : Prop :=
  session_present (trader st) = true \/
  result_of login env (entered symbol action quantity price st) = Ok true.

(** The value [get_symbol_token] returns (see [get_symbol_token_run]). *)
Definition token_of (symbol : pyval) : pyval :=
  match symbol with
  | PyStr s => match lookup (upper s) symbol_map with
               | Some t => t
               | None => PyNone
               end
  | _ => PyNone
  end.

(** What a [login] started in [st] gets back from [generateSession], or the
    exception raised on the way there. *)
Definition session_reply (env : Env) (st : state) : outcome pyval :=
  let self := trader st in
  let h0 := (trace st ++ [CallLogin])%list in
  match env_SmartConnect env h0 (api_key self) with
  | Raise e => Raise e
  | Ok c =>
      let h1 := (h0 ++ [SmartConnect (api_key self)])%list in
      match env_totp_now env h1 (totp_key self) with
      | Raise e => Raise e
      | Ok totp =>
          env_generateSession env (h1 ++ [TotpNow (totp_key self)])%list c
            (username self) (password self) totp
      end
  end.

(** [data['status']] of the reply was read and is truthy. *)
Definition status_reported (reply : outcome pyval) : bool :=
  match reply with
  | Ok data => match py_getitem data "status" with
               | Ok s => py_truthy s
               | Raise _ => false
               end
  | Raise _ => false
  end.

(** The fields that are configuration rather than session. *)
Definition config_kept (t t' : Trader) : Prop :=
  api_key t' = api_key t /\ username t' = username t /\
  password t' = password t /\ totp_key t' = totp_key t /\
  default_quantity t' = default_quantity t /\
  product_type t' = product_type t /\ order_type t' = order_type t.

Definition same_ignoring_case (s k : string) : Prop := upper s = upper k.

(** [s] and [k] are ASCII texts of one length that agree up to the case of
    their letters. *)
Fixpoint same_ascii_letters (s k : string) : bool :=
  match s, k with
  | EmptyString, EmptyString => true
  | String a s', String b k' =>
      is_ascii a && is_ascii b && Ascii.eqb (upper_char a) (upper_char b)
      && same_ascii_letters s' k'
  | _, _ => false
  end.

(** The four ways through [place_order] once the session step is over:
    whether that step let the body go on, the dictionary returned, and the
    events logged after the step.  [self] is the trader after the step. *)
Inductive order_tail (self : Trader) (symbol action quantity price : pyval) :
    bool -> pyval -> list event -> Prop :=
| tail_login_failed :
    order_tail self symbol action quantity price
      false (failure "Login failed") []
| tail_no_token :
    py_truthy (token_of symbol) = false ->
    order_tail self symbol action quantity price
      true (failure ("Symbol token not found for " ++ py_str symbol))
      [CallGetSymbolToken symbol]
| tail_bad_action e :
    py_truthy (token_of symbol) = true ->
    py_upper action = Raise e ->
    order_tail self symbol action quantity price
      true (failure ("Error: " ++ exn_str e))
      [CallGetSymbolToken symbol]
| tail_submitted a c result :
    py_truthy (token_of symbol) = true ->
    action = PyStr a ->
    smart_api self = Some c ->
    ((exists m, result = failure m) \/ (exists m oid, result = placed m oid)) ->
    order_tail self symbol action quantity price
      true result
      [CallGetSymbolToken symbol;
       PlaceOrder c
         (order_params_for self symbol (token_of symbol)
            (if (upper a =? "BUY")%string then "BUY" else "SELL")
            (if negb (py_truthy quantity)
             then PyInt (default_quantity self) else quantity)
            price)].

(** Lines 124-138 of [place_order] as a function of what [placeOrder]
    answered (see [place_order_settled]). *)
Definition order_result (transaction_type : string) (quantity symbol : pyval)
    (reply : outcome pyval) : pyval :=
  match reply with
  | Raise e => failure ("Error: " ++ exn_str e)
  | Ok order_response =>
      let accepted :=
        if py_truthy order_response
        then match py_get order_response "status" PyNone with
             | Ok s => Ok (py_truthy s)
             | Raise e => Raise e
             end
        else Ok false in
      match accepted with
      | Raise e => failure ("Error: " ++ exn_str e)
      | Ok false => failure ("Order failed: " ++ py_str order_response)
      | Ok true =>
          match py_getitem order_response "data" with
          | Raise e => failure ("Error: " ++ exn_str e)
          | Ok d =>
              match py_getitem d "orderid" with
              | Raise e => failure ("Error: " ++ exn_str e)
              | Ok order_id =>
                  placed ("Order placed: " ++ transaction_type ++ " "
                            ++ py_str quantity ++ " " ++ py_str symbol) order_id
              end
          end
      end
  end.

(** What the environment answered to the first order call among [evs],
    which were logged after the history [h]. *)
Fixpoint reply_to_order (env : Env) (h evs : list event) : option (outcome pyval) :=
  match evs with
  | [] => None
  | PlaceOrder c p :: _ => Some (env_placeOrder env h c p)
  | e :: r => reply_to_order env (h ++ [e]) r
  end.

(** What the brokerage answered to the order of a run, if the run placed
    one. *)
Definition order_reply {A} (m : M A) (env : Env) (st : state) : option (outcome pyval) :=
  reply_to_order env (trace st) (events_of m env st).

(** The brokerage reply carries an order id: it is truthy, its [status] is
    truthy and [reply['data']['orderid']] exists. *)
Definition reply_order_id (reply : outcome pyval) : option pyval :=
  match reply with
  | Ok resp =>
      if py_truthy resp && reports_success resp
      then match py_getitem resp "data" with
           | Ok d => match py_getitem d "orderid" with
                     | Ok oid => Some oid
                     | Raise _ => None
                     end
           | Raise _ => None
           end
      else None
  | Raise _ => None
  end.

(** The quantity [place_order] works with (lines 98-99). *)
Definition quantity_used (self : Trader) (quantity : pyval) : pyval :=
  if negb (py_truthy quantity) then PyInt (default_quantity self) else quantity.

(** The transaction type of line 102 for a string action. *)
Definition transaction_type_for (a : string) : string :=
  if (upper a =? "BUY")%string then "BUY" else "SELL".

(** The nine keys every order payload has, in source order (lines 105-115). *)
Definition payload_keys : list string :=
  [ "variety"; "tradingsymbol"; "symboltoken"; "transactiontype"; "exchange";
    "ordertype"; "producttype"; "duration"; "quantity" ].

(** ** Sample collaborators, for running the embedding *)

Definition session_reply_ok : pyval :=
  PyDict [ ("status", PyBool true);
           ("data", PyDict [ ("jwtToken", PyStr "jwt-1");
                             ("refreshToken", PyStr "refresh-1");
                             ("feedToken", PyStr "feed-1") ]) ].

Definition order_reply_ok : pyval :=
  PyDict [ ("status", PyBool true);
           ("data", PyDict [("orderid", PyStr "ORD-1")]) ].

(** A brokerage that accepts everything. *)
Definition env_ok : Env :=
  {| env_SmartConnect := fun _ _ => Ok 1%nat;
     env_totp_now := fun _ _ => Ok "123456";
     env_generateSession := fun _ _ _ _ _ => Ok session_reply_ok;
     env_placeOrder := fun _ _ _ => Ok order_reply_ok;
     env_now := fun _ => "2024-01-01T09:15:00" |}.

(** A brokerage that refuses the credentials. *)
Definition env_refuse : Env :=
  {| env_SmartConnect := fun _ _ => Ok 1%nat;
     env_totp_now := fun _ _ => Ok "123456";
     env_generateSession := fun _ _ _ _ _ =>
       Ok (PyDict [("status", PyBool false); ("message", PyStr "Invalid totp")]);
     env_placeOrder := fun _ _ _ => Ok order_reply_ok;
     env_now := fun _ => "2024-01-01T09:15:00" |}.

Definition fresh : state :=
  {| trader := init_trader "key" "user" "pass" "seed"; trace := [] |}.

(** A brokerage that accepts the first login and refuses every later one. *)
Definition env_second_refused : Env :=
  {| env_SmartConnect := fun _ _ => Ok 1%nat;
     env_totp_now := fun _ _ => Ok "123456";
     env_generateSession := fun h _ _ _ _ =>
       if existsb (fun e => match e with GenerateSession _ _ _ _ => true | _ => false end) h
       then Ok (PyDict [("status", PyBool false); ("message", PyStr "Invalid totp")])
       else Ok session_reply_ok;
     env_placeOrder := fun _ _ _ => Ok order_reply_ok;
     env_now := fun _ => "2024-01-01T09:15:00" |}.

(** A brokerage whose session reply lacks the refresh and feed tokens. *)
Definition env_short_reply : Env :=
  {| env_SmartConnect := fun _ _ => Ok 1%nat;
     env_totp_now := fun _ _ => Ok "123456";
     env_generateSession := fun _ _ _ _ _ =>
       Ok (PyDict [ ("status", PyBool true);
                    ("data", PyDict [("jwtToken", PyStr "jwt-1")]) ]);
     env_placeOrder := fun _ _ _ => Ok order_reply_ok;
     env_now := fun _ => "2024-01-01T09:15:00" |}.

(** A brokerage that reports success with an empty session token. *)
Definition env_empty_token : Env :=
  {| env_SmartConnect := fun _ _ => Ok 1%nat;
     env_totp_now := fun _ _ => Ok "123456";
     env_generateSession := fun _ _ _ _ _ =>
       Ok (PyDict [ ("status", PyBool true);
                    ("data", PyDict [ ("jwtToken", PyStr EmptyString);
                                      ("refreshToken", PyStr "refresh-1");
                                      ("feedToken", PyStr "feed-1") ]) ]);
     env_placeOrder := fun _ _ _ => Ok order_reply_ok;
     env_now := fun _ => "2024-01-01T09:15:00" |}.

(** The state a run leaves behind. *)
Definition state_after {A} (m : M A) (env : Env) (st : state) : state :=
  snd (m env st).

(** A trader with a session, and the same configured for LIMIT orders. *)
Definition in_session : state := state_after login env_ok fresh.

Definition in_session_limit : state :=
  {| trader :=
       {| api_key := "key"; username := "user"; password := "pass";
          totp_key := "seed"; smart_api := Some 1%nat;
          auth_token := PyStr "jwt-1"; refresh_token := PyStr "refresh-1";
          feed_token := PyStr "feed-1";
          default_quantity := 1; product_type := "MIS"; order_type := "LIMIT" |};
     trace := [] |}.

(** A brokerage that rejects every order. *)
Definition env_reject : Env :=
  {| env_SmartConnect := fun _ _ => Ok 1%nat;
     env_totp_now := fun _ _ => Ok "123456";
     env_generateSession := fun _ _ _ _ _ => Ok session_reply_ok;
     env_placeOrder := fun _ _ _ =>
       Ok (PyDict [("status", PyBool false); ("message", PyStr "Insufficient funds")]);
     env_now := fun _ => "2024-01-01T09:15:00" |}.

(** A brokerage whose order endpoint cannot be reached. *)
Definition env_down : Env :=
  {| env_SmartConnect := fun _ _ => Ok 1%nat;
     env_totp_now := fun _ _ => Ok "123456";
     env_generateSession := fun _ _ _ _ _ => Ok session_reply_ok;
     env_placeOrder := fun _ _ _ => Raise (SdkError "Connection timed out");
     env_now := fun _ => "2024-01-01T09:15:00" |}.


(** "nifty" written with a dotless i (U+0131), and "sbin" written with a
    long s (U+017F). *)
Definition nifty_dotless_i : string := "n" ++ utf8 0x131 ++ "fty".

Definition sbin_long_s : string := utf8 0x17f ++ "bin".

(** The webhook body of scenario A of the specification. *)
Definition scenario_a : dict :=
  [("action", PyStr "BUY"); ("symbol", PyStr "RELIANCE"); ("signal", PyStr "2G_BOX")].

(** ** Proof steps shared by the runs below *)

Ltac monad_unfold :=
  unfold bind, try_except, record, call, sdk_call, update, get_self, lift, ret in *.

Ltac case_step :=
  match goal with
  | |- context [match ?x with Ok _ => _ | Raise _ => _ end] =>
      let E := fresh "E" in destruct x eqn:E; simpl in *
  | |- context [if ?x then _ else _] =>
      let E := fresh "E" in destruct x eqn:E; simpl in *
  end.

Ltac tidy :=
  repeat match goal with
         | H : Ok _ = Ok _ |- _ => injection H as H; try subst
         | H : Raise _ = Raise _ |- _ => injection H as H; try subst
         | H : Ok _ = Raise _ |- _ => discriminate H
         | H : Raise _ = Ok _ |- _ => discriminate H
         end.

(** ** Upper-casing *)

Lemma upper_table_ok : forallb entry_ok upper_table = true.
Proof. vm_compute. reflexivity. Qed.

Lemma upper_entry_ok k u :
  In (k, u) upper_table ->
  key_ok k = true /\
  (exists c r, u = String c r /\ is_continuation c = false) /\
  settled u = true.
Proof.
  intros I. pose proof upper_table_ok as T.
  rewrite forallb_forall in T. specialize (T _ I). unfold entry_ok in T.
  cbn [fst snd] in T.
  apply andb_true_iff in T as [T S]. apply andb_true_iff in T as [K U].
  repeat split; auto.
  destruct u as [|c r]; [discriminate|].
  exists c, r. split; [reflexivity|]. now apply negb_true_iff in U.
Qed.

Lemma upper_char_idempotent c : upper_char (upper_char c) = upper_char c.
Proof.
  destruct c as [[] [] [] [] [] [] [] []]; reflexivity.
Qed.

Lemma upper_char_ascii c : is_ascii c = true -> is_ascii (upper_char c) = true.
Proof.
  destruct c as [[] [] [] [] [] [] [] []]; intros H; try discriminate H; reflexivity.
Qed.

Lemma continuation_not_ascii c : is_continuation c = true -> is_ascii c = false.
Proof.
  destruct c as [[] [] [] [] [] [] [] []]; intros H; try discriminate H; reflexivity.
Qed.

Lemma upper_from_drop n s : upper_from n s = upper (drop n s).
Proof.
  revert n. induction s as [|c r IH]; intros [|n]; try reflexivity.
  simpl. apply IH.
Qed.

(** [upper] one character at a time. *)
Lemma upper_step c r :
  upper (String c r)
  = if is_ascii c then String (upper_char c) (upper r)
    else match find_entry c r with
         | Some (k, u) => u ++ upper (drop (String.length k - 1) r)
         | None => String c (upper r)
         end.
Proof.
  unfold upper at 1. cbn [upper_from].
  destruct (is_ascii c); [reflexivity|].
  destruct (find_entry c r) as [[k u]|]; [|reflexivity].
  now rewrite upper_from_drop.
Qed.

Lemma clash_no_start k s x : clash k s = true -> starts_with k (s ++ x) = false.
Proof.
  revert s. induction k as [|a k IH]; intros [|b s] C; try discriminate C.
  simpl in *. destruct (Ascii.eqb a b); simpl in *; auto.
Qed.

Lemma find_entry_none c r :
  find_entry c r = None <->
  forall k u, In (String c k, u) upper_table -> starts_with k r = false.
Proof.
  unfold find_entry. split.
  - intros F k u I. pose proof (find_none _ _ F _ I) as N.
    unfold entry_matches in N. cbn [fst] in N.
    now rewrite Ascii.eqb_refl in N.
  - intros A. destruct (find (entry_matches c r) upper_table) as [[k u]|] eqn:F;
      [|reflexivity].
    apply find_some in F as [I M]. unfold entry_matches in M. cbn [fst] in M.
    destruct k as [|c0 k]; [discriminate|].
    apply andb_true_iff in M as [E S]. apply Ascii.eqb_eq in E. subst c0.
    rewrite (A _ _ I) in S. discriminate.
Qed.

Lemma find_entry_some c r k u :
  find_entry c r = Some (k, u) -> In (k, u) upper_table.
Proof. unfold find_entry. intros F. now apply find_some in F. Qed.

(** Settled text goes through [upper] unchanged, whatever follows it. *)
Lemma upper_settled u x : settled u = true -> upper (u ++ x) = u ++ upper x.
Proof.
  induction u as [|c r IH]; intros S; [reflexivity|].
  cbn [settled] in S. apply andb_true_iff in S as [H S].
  cbn [append]. rewrite upper_step.
  destruct (is_ascii c) eqn:A.
  - apply Ascii.eqb_eq in H. now rewrite H, IH.
  - assert (N : find_entry c (r ++ x) = None).
    { apply find_entry_none. intros k u' I.
      destruct (is_continuation c) eqn:C.
      - destruct (upper_entry_ok _ _ I) as (K & _). simpl in K.
        rewrite C in K. rewrite andb_false_r in K. discriminate.
      - rewrite forallb_forall in H. specialize (H _ I). cbn [fst] in H.
        rewrite Ascii.eqb_refl in H. simpl in H. now apply clash_no_start. }
    now rewrite N, IH.
Qed.

(** Continuation bytes at the start of upper-cased text were there before. *)
Lemma continuation_start k r :
  all_bytes is_continuation k = true ->
  starts_with k (upper r) = true -> starts_with k r = true.
Proof.
  revert r. induction k as [|c k IH]; intros r K S; [reflexivity|].
  cbn [all_bytes] in K. apply andb_true_iff in K as [C K].
  destruct r as [|d r]; [discriminate S|].
  rewrite upper_step in S.
  destruct (is_ascii d) eqn:A.
  - cbn [starts_with] in S. apply andb_true_iff in S as [E _].
    apply Ascii.eqb_eq in E. subst c.
    apply continuation_not_ascii in C. rewrite (upper_char_ascii _ A) in C.
    discriminate.
  - destruct (find_entry d r) as [[k2 u]|] eqn:F.
    + apply find_entry_some in F.
      destruct (upper_entry_ok _ _ F) as (_ & (c0 & r0 & -> & NC) & _).
      cbn [append starts_with] in S. apply andb_true_iff in S as [E _].
      apply Ascii.eqb_eq in E. subst c0. congruence.
    + cbn [starts_with] in *. apply andb_true_iff in S as [E S].
      rewrite E. simpl. now apply IH.
Qed.

Lemma drop_length n s : (String.length (drop n s) <= String.length s)%nat.
Proof.
  revert n. induction s as [|c r IH]; intros [|n]; simpl; auto.
Qed.

Lemma upper_idempotent s : upper (upper s) = upper s.
Proof.
  remember (String.length s) as n eqn:L.
  assert (B : (String.length s <= n)%nat) by lia. clear L.
  revert s B. induction n as [|n IH]; intros [|c r] B; try reflexivity.
  - simpl in B. lia.
  - simpl in B. rewrite (upper_step c r).
    destruct (is_ascii c) eqn:A.
    + rewrite upper_step, (upper_char_ascii _ A), upper_char_idempotent.
      rewrite IH by lia. reflexivity.
    + destruct (find_entry c r) as [[k u]|] eqn:F.
      * pose proof (find_entry_some _ _ _ _ F) as I.
        destruct (upper_entry_ok _ _ I) as (_ & _ & S).
        rewrite (upper_settled _ _ S). rewrite IH; [reflexivity|].
        pose proof (drop_length (String.length k - 1) r). lia.
      * rewrite upper_step, A.
        assert (N : find_entry c (upper r) = None).
        { apply find_entry_none. intros k u I.
          destruct (starts_with k (upper r)) eqn:S; [|reflexivity].
          destruct (upper_entry_ok _ _ I) as (K & _). simpl in K.
          apply andb_true_iff in K as [_ K].
          apply (continuation_start _ _ K) in S.
          rewrite (proj1 (find_entry_none c r) F _ _ I) in S. discriminate. }
        rewrite N, IH by lia. reflexivity.
Qed.

(** ASCII texts that agree up to the case of their letters have one
    upper-case form. *)
Lemma same_ascii_letters_upper s k :
  same_ascii_letters s k = true -> upper s = upper k.
Proof.
  revert k. induction s as [|a s IH]; intros [|b k] H; try discriminate H;
    [reflexivity|].
  cbn [same_ascii_letters] in H.
  apply andb_true_iff in H as [H R]. apply andb_true_iff in H as [H E].
  apply andb_true_iff in H as [A B]. apply Ascii.eqb_eq in E.
  rewrite !upper_step, A, B, E, (IH k R). reflexivity.
Qed.

(** ** Runs of the individual functions *)

Lemma skipn_app_length {A} (l r : list A) : skipn (length l) (l ++ r) = r.
Proof. induction l; simpl; auto. Qed.

(** [login] always returns a boolean; it adds its own entry and session
    calls only, keeps the configuration, and leaves a client behind when it
    succeeds. *)
Lemma login_cases env st :
  exists b t' evs,
    login env st = (Ok b, {| trader := t'; trace := trace st ++ CallLogin :: evs |}) /\
    forallb is_session_call evs = true /\
    config_kept (trader st) t' /\
    (b = true -> exists c, smart_api t' = Some c).
Proof.
  unfold login. monad_unfold. simpl.
  repeat case_step.
  all: rewrite <- ?app_assoc; simpl.
  all: do 3 eexists; split; [reflexivity|].
  all: unfold config_kept; simpl; repeat split; eauto; try discriminate.
Qed.

(** A reply without a truthy status leaves the three tokens alone. *)
Lemma login_refused env st :
  status_reported (session_reply env st) = false ->
  result_of login env st = Ok false /\
  tokens (trader_after login env st) = tokens (trader st).
Proof.
  unfold status_reported, session_reply, result_of, trader_after, tokens, login.
  monad_unfold. simpl.
  repeat case_step; intros H; tidy; try discriminate; try congruence; auto.
Qed.

(** A login that returns [True] has stored the three tokens of the reply. *)
Lemma login_accepted env st :
  result_of login env st = Ok true ->
  exists data d,
    session_reply env st = Ok data /\
    py_getitem data "data" = Ok d /\
    py_getitem d "jwtToken" = Ok (auth_token (trader_after login env st)) /\
    py_getitem d "refreshToken" = Ok (refresh_token (trader_after login env st)) /\
    py_getitem d "feedToken" = Ok (feed_token (trader_after login env st)).
Proof.
  unfold session_reply, result_of, trader_after, login.
  monad_unfold. simpl.
  repeat case_step; intros H; tidy; try discriminate.
  do 2 eexists. repeat split; eauto.
Qed.

Lemma get_symbol_token_run symbol env st :
  get_symbol_token symbol env st
  = (Ok (token_of symbol), logged st [CallGetSymbolToken symbol]).
Proof.
  unfold get_symbol_token, bind, try_except, record, lift, ret, logged.
  destruct symbol; try reflexivity.
  unfold py_upper, table_get, token_of.
  destruct (lookup (upper s) symbol_map); reflexivity.
Qed.

Lemma logged_nil st : logged st [] = st.
Proof. destruct st; unfold logged; simpl. now rewrite app_nil_r. Qed.

Lemma events_of_eq {A} (m : M A) env st (a : outcome A) st' evs :
  m env st = (a, st') ->
  trace st' = (trace st ++ evs)%list ->
  events_of m env st = evs.
Proof.
  intros R T. unfold events_of. rewrite R. simpl. rewrite T.
  apply skipn_app_length.
Qed.

(** The session step: nothing happens when the session test passes,
    otherwise it is [login]. *)
Lemma session_step_cases env st :
  exists b st1 evs,
    session_step env st = (Ok b, st1) /\
    trace st1 = (trace st ++ evs)%list /\
    forallb is_session_call evs = true /\
    config_kept (trader st) (trader st1) /\
    (b = true -> exists c, smart_api (trader st1) = Some c) /\
    (session_present (trader st) = true -> b = true /\ st1 = st /\ evs = []) /\
    (session_present (trader st) = false ->
       login env st = (Ok b, st1) /\ exists evs', evs = CallLogin :: evs').
Proof.
  unfold session_step.
  destruct (session_present (trader st)) eqn:P.
  - exists true, st, []. rewrite app_nil_r.
    repeat split; auto; try discriminate.
    unfold session_present in P. destruct (smart_api (trader st)); eauto; discriminate.
  - destruct (login_cases env st) as (b & t' & evs & L & F & K & C).
    exists b, {| trader := t'; trace := trace st ++ CallLogin :: evs |}, (CallLogin :: evs).
    repeat split; auto; try discriminate; try apply K. eauto.
Qed.

(** [place_order] always returns a dictionary, along one of four ways. *)
Lemma place_order_cases env st symbol action quantity price :
  exists b st1 result tail,
    session_step env (entered symbol action quantity price st) = (Ok b, st1) /\
    place_order symbol action quantity price env st = (Ok result, logged st1 tail) /\
    order_tail (trader st1) symbol action quantity price b result tail.
Proof.
  destruct (session_step_cases env (entered symbol action quantity price st))
    as (b & st1 & evs & G & _ & _ & _ & C & _).
  exists b, st1.
  unfold place_order.
  unfold bind at 1. unfold record at 1. cbv beta iota.
  fold (logged st [CallPlaceOrder symbol action quantity price]).
  fold (entered symbol action quantity price st).
  set (st0 := entered symbol action quantity price st) in *.
  unfold try_except at 1. unfold bind at 1. unfold get_self at 1. cbv beta iota.
  unfold bind at 1.
  assert (GS : (if negb (session_present (trader st0))
                then (ok <- login ;; ret (negb ok))
                else ret false) env st0 = (Ok (negb b), st1)).
  { unfold session_step in G. destruct (session_present (trader st0)); simpl.
    - inversion G; subst. reflexivity.
    - unfold bind, ret. rewrite G. reflexivity. }
  rewrite GS. clear GS.
  destruct b; cbv beta iota delta [negb].
  2:{ exists (failure "Login failed"), []. rewrite logged_nil.
      repeat split; auto. constructor. }
  unfold bind at 1. rewrite get_symbol_token_run. cbv beta iota.
  destruct (py_truthy (token_of symbol)) eqn:T; cbv beta iota delta [negb];
    [|do 2 eexists; split; [exact G|split; [reflexivity| now constructor]]].
  destruct (C eq_refl) as [c Sc].
  unfold bind at 1. unfold get_self at 1. cbv beta iota.
  unfold bind at 1. unfold lift at 1.
  destruct action;
    try (do 2 eexists; split; [exact G|split;
         [reflexivity| eapply tail_bad_action; eauto; reflexivity]]).
  cbv beta iota. unfold py_upper. cbv beta iota.
  change (trader (logged st1 [CallGetSymbolToken symbol])) with (trader st1).
  rewrite Sc. unfold sdk_call, call, bind, lift, ret.
  change (eq_str (PyStr (upper s)) "BUY") with (upper s =? "BUY")%string.
  match goal with |- context [PlaceOrder c ?p] => set (params := p) end.
  assert (ST : {| trader := trader (logged st1 [CallGetSymbolToken symbol]);
                  trace := trace (logged st1 [CallGetSymbolToken symbol])
                           ++ [PlaceOrder c params] |}
               = logged st1 [CallGetSymbolToken symbol; PlaceOrder c params]).
  { unfold logged; simpl. rewrite <- app_assoc. reflexivity. }
  rewrite ST. clear ST.
  assert (DONE : forall result,
             (exists m, result = failure m) \/ (exists m oid, result = placed m oid) ->
             order_tail (trader st1) symbol (PyStr s) quantity price true result
               [CallGetSymbolToken symbol; PlaceOrder c params]).
  { intros result R. eapply tail_submitted; eauto. }
  destruct (env_placeOrder env _ c params) as [resp|e];
    [| do 2 eexists; split; [exact G|split; [reflexivity| apply DONE; eauto]]].
  destruct (py_truthy resp);
    [| do 2 eexists; split; [exact G|split; [reflexivity| apply DONE; eauto]]].
  destruct (py_get resp "status" PyNone) as [s'|e];
    [| do 2 eexists; split; [exact G|split; [reflexivity| apply DONE; eauto]]].
  destruct (py_truthy s');
    [| do 2 eexists; split; [exact G|split; [reflexivity| apply DONE; eauto]]].
  destruct (py_getitem resp "data") as [d|e];
    [| do 2 eexists; split; [exact G|split; [reflexivity| apply DONE; eauto]]].
  destruct (py_getitem d "orderid") as [oid|e];
    do 2 eexists; (split; [exact G|split; [reflexivity| apply DONE; eauto]]).
Qed.

(** Everything observable of a call of [place_order], in one statement. *)
Lemma place_order_observed env st symbol action quantity price :
  let st0 := entered symbol action quantity price st in
  let run := place_order symbol action quantity price in
  exists b st1 sevs result tail,
    session_step env st0 = (Ok b, st1) /\
    forallb is_session_call sevs = true /\
    config_kept (trader st) (trader st1) /\
    (session_present (trader st) = true ->
       b = true /\ sevs = [] /\ trader st1 = trader st) /\
    (session_present (trader st) = false ->
       login env st0 = (Ok b, st1) /\ exists evs', sevs = CallLogin :: evs') /\
    result_of run env st = Ok result /\
    trader_after run env st = trader st1 /\
    events_of run env st
      = (CallPlaceOrder symbol action quantity price :: sevs ++ tail)%list /\
    order_tail (trader st1) symbol action quantity price b result tail /\
    (b = true <-> session_established env st symbol action quantity price).
Proof.
  intros st0 run.
  destruct (place_order_cases env st symbol action quantity price)
    as (b & st1 & result & tail & G & R & T).
  destruct (session_step_cases env st0)
    as (b' & st1' & sevs & G' & TR & F & K & _ & P & NP).
  fold st0 in G. rewrite G in G'. injection G' as <- <-.
  exists b, st1, sevs, result, tail.
  repeat split; try apply K; auto.
  - apply P; apply H.
  - apply P; apply H.
  - destruct (P H) as (_ & -> & _). reflexivity.
  - apply NP; apply H.
  - apply NP; apply H.
  - unfold result_of, run. now rewrite R.
  - unfold trader_after, run. now rewrite R.
  - unfold run. eapply events_of_eq; [exact R|].
    unfold logged; simpl. rewrite TR. unfold st0, entered, logged; simpl.
    rewrite <- !app_assoc. reflexivity.
  - intros ->. unfold session_established. fold st0.
    destruct (session_present (trader st)) eqn:SP; auto.
    right. unfold result_of. destruct (NP SP) as [L _]. now rewrite L.
  - intros [SP | L]; [now apply P|].
    destruct (session_present (trader st)) eqn:SP; [now apply P|].
    destruct (NP SP) as [L' _]. unfold result_of in L. fold st0 in L.
    rewrite L' in L. simpl in L. congruence.
Qed.

Lemma existsb_session_only (p : event -> bool) evs :
  forallb is_session_call evs = true ->
  (forall e, is_session_call e = true -> p e = false) ->
  existsb p evs = false.
Proof.
  intros F D. induction evs as [|e r IH]; simpl in *; auto.
  apply andb_true_iff in F as [Fe Fr]. rewrite (D e Fe), IH; auto.
Qed.

Lemma session_call_not_order e : is_session_call e = true -> is_order_call e = false.
Proof. destruct e; simpl; congruence. Qed.


(** ** The order dispatcher short-circuits *)




(** ** The order payload *)

Lemma session_calls_no_order c p evs :
  forallb is_session_call evs = true -> ~ In (PlaceOrder c p) evs.
Proof.
  intros F I. rewrite forallb_forall in F. apply F in I. discriminate.
Qed.

(** Every payload that reaches the order endpoint was built by lines
    105-119 from a string action, a resolved token and the configuration
    the call started with. *)
Lemma submitted_payload env st symbol action quantity price c p :
  In (PlaceOrder c p) (events_of (place_order symbol action quantity price) env st) ->
  exists self a,
    config_kept (trader st) self /\
    action = PyStr a /\
    py_truthy (token_of symbol) = true /\
    p = order_params_for self symbol (token_of symbol)
          (if (upper a =? "BUY")%string then "BUY" else "SELL")
          (if negb (py_truthy quantity)
           then PyInt (default_quantity self) else quantity)
          price.
Proof.
  destruct (place_order_observed env st symbol action quantity price)
    as (b & st1 & sevs & result & tail & G & F & K & P & NP & R & TA & EV & T & SE).
  rewrite EV. intros [I | I]; [discriminate|].
  apply in_app_or in I as [I | I]; [now apply session_calls_no_order in I|].
  inversion T; subst; simpl in I;
    repeat (destruct I as [I | I]; try discriminate I);
    try contradiction.
  injection I as <- <-. exists (trader st1), a. auto.
Qed.

Lemma order_params_price self symbol token transaction_type quantity price :
  lookup "price" (order_params_for self symbol token transaction_type quantity price)
  = if (order_type self =? "LIMIT")%string && py_truthy price
    then Some (PyStr (py_str price)) else None.
Proof.
  unfold order_params_for.
  destruct ((order_type self =? "LIMIT")%string && py_truthy price); reflexivity.
Qed.

Lemma order_params_transaction_type self symbol token transaction_type quantity price :
  lookup "transactiontype"
    (order_params_for self symbol token transaction_type quantity price)
  = Some (PyStr transaction_type).
Proof.
  unfold order_params_for.
  destruct ((order_type self =? "LIMIT")%string && py_truthy price); reflexivity.
Qed.

(** C4, as the code has it.  A payload submitted under order type MARKET
    has no price field, whatever price was passed.  Under order type LIMIT
    the price field is [str(price)] when the price passed is truthy (not
    [None], zero or empty); a falsy price leaves the payload without a
    price field under either order type. *)
Theorem order_price_field env st symbol action quantity price c p :
  In (PlaceOrder c p) (events_of (place_order symbol action quantity price) env st) ->
  (order_type (trader st) = "MARKET" -> lookup "price" p = None) /\
  (order_type (trader st) = "LIMIT" -> py_truthy price = true ->
     lookup "price" p = Some (PyStr (py_str price))) /\
  (py_truthy price = false -> lookup "price" p = None).
Proof.
  intros I.
  destruct (submitted_payload _ _ _ _ _ _ _ _ I) as (self & a & K & _ & _ & ->).
  rewrite order_params_price.
  destruct K as (_ & _ & _ & _ & _ & _ & ->).
  repeat split.
  - intros ->. reflexivity.
  - intros -> ->. reflexivity.
  - intros ->. now rewrite andb_false_r.
Qed.

Lemma order_price_field_witness :
  In (PlaceOrder 1
        (order_params_for (trader in_session_limit) (PyStr "TCS") (PyStr "11536")
           "BUY" (PyInt 1) (PyInt 2450)))
     (events_of (place_order (PyStr "TCS") (PyStr "BUY") (PyInt 1) (PyInt 2450))
        env_ok in_session_limit) /\
  lookup "price"
    (order_params_for (trader in_session_limit) (PyStr "TCS") (PyStr "11536")
       "BUY" (PyInt 1) (PyInt 2450))
  = Some (PyStr "2450").
Proof.
  assert (I : In (PlaceOrder 1
                    (order_params_for (trader in_session_limit) (PyStr "TCS")
                       (PyStr "11536") "BUY" (PyInt 1) (PyInt 2450)))
                 (events_of (place_order (PyStr "TCS") (PyStr "BUY") (PyInt 1)
                               (PyInt 2450)) env_ok in_session_limit)).
  { vm_compute. auto. }
  split; [exact I|].
  destruct (order_price_field env_ok in_session_limit
              (PyStr "TCS") (PyStr "BUY") (PyInt 1) (PyInt 2450) 1%nat _ I)
    as (_ & L & _).
  apply L; reflexivity.
Defined.

(** C4 as stated fails: a LIMIT order placed with the price 0 is submitted
    without a price field. *)
Lemma limit_order_zero_price_counterexample :
  order_type (trader in_session_limit) = "LIMIT" /\
  exists c p,
    In (PlaceOrder c p)
       (events_of (place_order (PyStr "TCS") (PyStr "BUY") (PyInt 1) (PyInt 0))
          env_ok in_session_limit) /\
    lookup "price" p = None /\
    lookup "price" p <> Some (PyStr (py_str (PyInt 0))).
Proof.
  split; [reflexivity|].
  eexists. eexists. split; [vm_compute; right; right; left; reflexivity|].
  split; [reflexivity | discriminate].
Qed.

(** C7.  Whenever [place_order] called with a string action submits an
    order, the payload's transaction type is BUY if the action upper-cases
    to "BUY" and SELL otherwise; and any string action is submitted once the
    session step succeeded and the symbol resolved, so no action string is
    turned away. *)
Theorem transaction_type_of_action env st symbol a quantity price :
  let run := place_order symbol (PyStr a) quantity price in
  (forall c p,
     In (PlaceOrder c p) (events_of run env st) ->
     lookup "transactiontype" p
     = Some (PyStr (if (upper a =? "BUY")%string then "BUY" else "SELL")))
  /\
  (session_established env st symbol (PyStr a) quantity price ->
   forall tok,
     result_of (get_symbol_token symbol) env st = Ok tok ->
     py_truthy tok = true ->
     existsb is_order_call (events_of run env st) = true).
Proof.
  intros run. split.
  - intros c p I.
    destruct (submitted_payload _ _ _ _ _ _ _ _ I) as (self & a' & _ & E & _ & ->).
    injection E as <-. apply order_params_transaction_type.
  - intros S tok E TT.
    unfold result_of in E. rewrite get_symbol_token_run in E. injection E as <-.
    destruct (place_order_observed env st symbol (PyStr a) quantity price)
      as (b & st1 & sevs & result & tail & G & F & K & P & NP & R & TA & EV & T & SE).
    fold run in EV. rewrite EV. simpl. rewrite existsb_app.
    apply SE in S. subst b.
    inversion T; subst; try congruence; try discriminate.
    simpl. apply orb_true_r.
Qed.

Lemma transaction_type_of_action_witness :
  existsb is_order_call
    (events_of (place_order (PyStr "INFY") (PyStr "hold") PyNone PyNone)
       env_ok in_session) = true /\
  lookup "transactiontype"
    (order_params_for (trader in_session) (PyStr "INFY") (PyStr "1594")
       "SELL" (PyInt 1) PyNone)
  = Some (PyStr "SELL").
Proof.
  split.
  - apply (proj2 (transaction_type_of_action env_ok in_session
                    (PyStr "INFY") "hold" PyNone PyNone)) with (tok := PyStr "1594").
    + left. reflexivity.
    + reflexivity.
    + reflexivity.
  - apply (proj1 (transaction_type_of_action env_ok in_session
                    (PyStr "INFY") "hold" PyNone PyNone) 1%nat).
    vm_compute. auto.
Defined.

(** ** Session handling inside [place_order] *)

Lemma order_tail_no_session_call self symbol action quantity price b result tail :
  order_tail self symbol action quantity price b result tail ->
  existsb is_session_call tail = false.
Proof. intros T; inversion T; reflexivity. Qed.

(** C8, as the code has it.  When the session test of line 88 passes (the
    SDK client exists and the auth token is truthy: neither [None] nor
    empty), [place_order] makes no session call at all: no [login], no
    client construction, no TOTP, no [generateSession]. *)
Theorem no_login_with_session env st symbol action quantity price :
  session_present (trader st) = true ->
  existsb is_session_call
    (events_of (place_order symbol action quantity price) env st) = false.
Proof.
  intros SP.
  destruct (place_order_observed env st symbol action quantity price)
    as (b & st1 & sevs & result & tail & G & F & K & P & NP & R & TA & EV & T & SE).
  destruct (P SP) as (_ & -> & _).
  rewrite EV. simpl. eapply order_tail_no_session_call; eauto.
Qed.

Lemma no_login_with_session_witness :
  session_present (trader in_session) = true /\
  existsb is_session_call
    (events_of (place_order (PyStr "SBIN") (PyStr "BUY") PyNone PyNone)
       env_ok in_session) = false.
Proof.
  split; [reflexivity|].
  apply (no_login_with_session env_ok in_session). reflexivity.
Defined.

(** C8 as stated fails: after a login that the brokerage answered with
    status true and an empty [jwtToken], the auth token is not [None] and
    the client exists, yet the next [place_order] logs in again. *)
Lemma empty_token_login_counterexample :
  let order := place_order (PyStr "TCS") (PyStr "BUY") PyNone PyNone in
  let st := state_after order env_empty_token fresh in
  auth_token (trader st) <> PyNone /\
  smart_api (trader st) <> None /\
  In (GenerateSession 1 "user" "pass" "123456")
     (events_of order env_empty_token st) /\
  existsb is_session_call (events_of order env_empty_token st) = true.
Proof.
  vm_compute. repeat split; try discriminate. auto 10.
Qed.

(** C10.  A call of [place_order] that finds a session leaves every field
    of the trader as it was, whatever it returns; a call that makes no
    session call changes nothing either; and a call that finds no session
    leaves exactly the trader that its [login] leaves. *)
Theorem place_order_keeps_session env st symbol action quantity price :
  let run := place_order symbol action quantity price in
  (session_present (trader st) = true ->
     trader_after run env st = trader st) /\
  (existsb is_session_call (events_of run env st) = false ->
     trader_after run env st = trader st) /\
  (session_present (trader st) = false ->
     trader_after run env st
     = trader_after login env (entered symbol action quantity price st)).
Proof.
  intros run.
  destruct (place_order_observed env st symbol action quantity price)
    as (b & st1 & sevs & result & tail & G & F & K & P & NP & R & TA & EV & T & SE).
  fold run in TA, EV. rewrite TA, EV.
  assert (S1 : session_present (trader st) = true -> trader st1 = trader st)
    by (intros SP; apply P; exact SP).
  repeat split; auto.
  - destruct (session_present (trader st)) eqn:SP; auto.
    destruct (NP eq_refl) as (_ & evs' & ->). simpl. discriminate.
  - intros SP. destruct (NP SP) as (L & _).
    unfold trader_after. now rewrite L.
Qed.

Lemma place_order_keeps_session_witness :
  trader_after (place_order (PyStr "ITC") (PyStr "SELL") (PyInt 3) PyNone)
    env_ok in_session = trader in_session /\
  trader_after (place_order (PyStr "NOPE") (PyStr "SELL") (PyInt 3) PyNone)
    env_refuse in_session = trader in_session.
Proof.
  split.
  - apply (proj1 (place_order_keeps_session env_ok in_session
                    (PyStr "ITC") (PyStr "SELL") (PyInt 3) PyNone)).
    reflexivity.
  - apply (proj1 (proj2 (place_order_keeps_session env_refuse in_session
                    (PyStr "NOPE") (PyStr "SELL") (PyInt 3) PyNone))).
    reflexivity.
Defined.

(** ** Login and the session tokens *)

(** C3, as the code has it.  [login] always returns a boolean.  When the
    reply carries no truthy status (the brokerage reported status false, or
    an exception was raised before the status could be read: client
    construction, TOTP, transport, a reply without [status]), [login]
    returns false and the three token fields are exactly what they were
    before the call, so null only if they were null.  When [login] returns
    true, the three fields hold the [jwtToken], [refreshToken] and
    [feedToken] of the reply. *)
Theorem login_session_update env st :
  (exists b, result_of login env st = Ok b) /\
  (status_reported (session_reply env st) = false ->
     result_of login env st = Ok false /\
     tokens (trader_after login env st) = tokens (trader st)) /\
  (result_of login env st = Ok true ->
     exists data d,
       session_reply env st = Ok data /\
       py_getitem data "data" = Ok d /\
       py_getitem d "jwtToken" = Ok (auth_token (trader_after login env st)) /\
       py_getitem d "refreshToken" = Ok (refresh_token (trader_after login env st)) /\
       py_getitem d "feedToken" = Ok (feed_token (trader_after login env st))).
Proof.
  split; [|split].
  - destruct (login_cases env st) as (b & t' & evs & L & _).
    exists b. unfold result_of. now rewrite L.
  - apply login_refused.
  - apply login_accepted.
Qed.

Lemma login_session_update_witness :
  (result_of login env_refuse fresh = Ok false /\
   tokens (trader_after login env_refuse fresh) = (PyNone, PyNone, PyNone)) /\
  (exists data d,
     session_reply env_ok fresh = Ok data /\
     py_getitem data "data" = Ok d /\
     py_getitem d "jwtToken" = Ok (PyStr "jwt-1") /\
     py_getitem d "refreshToken" = Ok (PyStr "refresh-1") /\
     py_getitem d "feedToken" = Ok (PyStr "feed-1")).
Proof.
  split.
  - apply (proj1 (proj2 (login_session_update env_refuse fresh))). reflexivity.
  - apply (proj2 (proj2 (login_session_update env_ok fresh))). reflexivity.
Defined.

(** C3 as stated fails: a login that the brokerage refuses after an earlier
    successful one returns false and leaves the earlier tokens in place,
    not null. *)
Lemma refused_login_keeps_tokens_counterexample :
  let st := state_after login env_second_refused fresh in
  result_of login env_second_refused st = Ok false /\
  tokens (trader_after login env_second_refused st)
  = (PyStr "jwt-1", PyStr "refresh-1", PyStr "feed-1") /\
  auth_token (trader_after login env_second_refused st) <> PyNone.
Proof.
  vm_compute. repeat split. discriminate.
Qed.

(** The three assignments of lines 47-49 are separate steps: a reply with a
    truthy status and a [jwtToken] but no [refreshToken] makes [login]
    return false with the auth token already stored. *)
Example login_short_reply :
  result_of login env_short_reply fresh = Ok false /\
  tokens (trader_after login env_short_reply fresh)
  = (PyStr "jwt-1", PyNone, PyNone).
Proof. vm_compute. auto. Qed.

(** ** The two lookup tables *)

(** C5, as the code has it.  [get_quantity_for_signal] returns 2 for 2G_BOX
    and 2R_BOX and 1 for the six other labels of the table; for every other
    string, for an absent signal and for every other hashable value (a
    number, a boolean) it returns 1; on a list or an object, which are
    unhashable, it raises [TypeError].  Whenever it returns, the quantity is
    1 or 2. *)
Theorem quantity_for_signal :
  get_quantity_for_signal (PyStr "2G_BOX") = Ok (PyInt 2) /\
  get_quantity_for_signal (PyStr "2R_BOX") = Ok (PyInt 2) /\
  get_quantity_for_signal (PyStr "G_BOX") = Ok (PyInt 1) /\
  get_quantity_for_signal (PyStr "R_BOX") = Ok (PyInt 1) /\
  get_quantity_for_signal (PyStr "1G_BOX") = Ok (PyInt 1) /\
  get_quantity_for_signal (PyStr "1R_BOX") = Ok (PyInt 1) /\
  get_quantity_for_signal (PyStr "2GR_BOX") = Ok (PyInt 1) /\
  get_quantity_for_signal (PyStr "2RG_BOX") = Ok (PyInt 1) /\
  (forall s, lookup s signal_quantities = None ->
             get_quantity_for_signal (PyStr s) = Ok (PyInt 1)) /\
  get_quantity_for_signal PyNone = Ok (PyInt 1) /\
  (forall s, get_quantity_for_signal (PyStr s) = Ok (PyInt 1) \/
             get_quantity_for_signal (PyStr s) = Ok (PyInt 2)) /\
  (forall signal,
     (forall s, signal <> PyStr s) ->
     match signal with
     | PyList _ | PyDict _ =>
         get_quantity_for_signal signal
         = Raise (TypeError ("unhashable type: '" ++ type_name signal ++ "'"))
     | _ => get_quantity_for_signal signal = Ok (PyInt 1)
     end) /\
  (forall signal quantity,
     get_quantity_for_signal signal = Ok quantity ->
     quantity = PyInt 1 \/ quantity = PyInt 2).
Proof.
  assert (STR : forall s, get_quantity_for_signal (PyStr s) = Ok (PyInt 1) \/
                          get_quantity_for_signal (PyStr s) = Ok (PyInt 2)).
  { intros s. unfold get_quantity_for_signal, table_get, signal_quantities.
    cbn [lookup].
    repeat match goal with
           | |- context [if ?c then _ else _] => destruct c; auto
           end. }
  do 8 (split; [reflexivity|]).
  split.
  { intros s H. unfold get_quantity_for_signal, table_get. now rewrite H. }
  split; [reflexivity|]. split; [exact STR|]. split.
  - intros signal NS. destruct signal; try reflexivity. now destruct (NS s).
  - intros signal quantity Q. destruct signal;
      try (injection Q as <-; now left); try discriminate Q.
    destruct (STR s) as [E | E]; rewrite E in Q; injection Q as <-; auto.
Qed.

Lemma quantity_for_signal_witness :
  lookup "BREAKOUT" signal_quantities = None /\
  get_quantity_for_signal (PyStr "BREAKOUT") = Ok (PyInt 1).
Proof.
  split; [reflexivity|].
  apply (proj1 (proj2 (proj2 (proj2 (proj2 (proj2 (proj2 (proj2 (proj2
           quantity_for_signal))))))))).
  reflexivity.
Defined.

(** C5 as stated fails: the function is not total.  On a list, which the
    webhook passes on when the body's signal is one, it raises. *)
Lemma unhashable_signal_counterexample :
  get_quantity_for_signal (PyList [])
  = Raise (TypeError "unhashable type: 'list'") /\
  forall quantity, get_quantity_for_signal (PyList []) <> Ok quantity.
Proof.
  split; [reflexivity|]. intros quantity H. discriminate H.
Qed.

(** Every key of the symbol table is its own upper-case form. *)
Lemma symbol_map_keys_upper key token :
  lookup key symbol_map = Some token -> upper key = key.
Proof.
  intros H. unfold symbol_map in H. cbn [lookup] in H.
  repeat match type of H with
         | context [if (?k =? key)%string then _ else _] =>
             destruct (String.eqb_spec k key) as [<-|_]; [reflexivity|]
         end.
  discriminate.
Qed.

(** C6, as the code has it.  A string whose upper-case form under
    [str.upper()] is a key of the symbol table resolves to the token the
    table gives for that key, and a string whose upper-case form is no key
    resolves to [None].  The first kind holds every spelling of a key in
    upper, lower or mixed ASCII case, and also strings with letters outside
    ASCII that Unicode upper-cases into ASCII: "nifty" with a dotless i
    resolves like NIFTY, "sbin" with a long s like SBIN.  The ten documented
    tokens follow. *)
Theorem symbol_resolution env st :
  (forall key token s,
     lookup key symbol_map = Some token ->
     same_ignoring_case s key ->
     result_of (get_symbol_token (PyStr s)) env st = Ok token) /\
  (forall s,
     (forall key token,
        lookup key symbol_map = Some token -> ~ same_ignoring_case s key) ->
     result_of (get_symbol_token (PyStr s)) env st = Ok PyNone) /\
  map (fun s => result_of (get_symbol_token (PyStr s)) env st)
    [ "NIFTY"; "BANKNIFTY"; "RELIANCE"; "TCS"; "INFY";
      "HDFCBANK"; "ICICIBANK"; "SBIN"; "ITC"; "HINDUNILVR";
      "reliance"; "Reliance"; "hdfcBank" ]
  = map (fun t => Ok (PyStr t))
      [ "99926000"; "99926009"; "2885"; "11536"; "1594";
        "1333"; "4963"; "3045"; "424"; "356";
        "2885"; "2885"; "1333" ] /\
  (forall key token s,
     lookup key symbol_map = Some token ->
     same_ascii_letters s key = true ->
     result_of (get_symbol_token (PyStr s)) env st = Ok token) /\
  result_of (get_symbol_token (PyStr nifty_dotless_i)) env st
  = Ok (PyStr "99926000") /\
  result_of (get_symbol_token (PyStr sbin_long_s)) env st = Ok (PyStr "3045").
Proof.
  assert (KEY : forall key token s,
            lookup key symbol_map = Some token ->
            same_ignoring_case s key ->
            result_of (get_symbol_token (PyStr s)) env st = Ok token).
  { intros key token s L C. unfold result_of. rewrite get_symbol_token_run.
    cbn [fst]. unfold token_of.
    unfold same_ignoring_case in C.
    rewrite (symbol_map_keys_upper _ _ L) in C. now rewrite C, L. }
  split; [exact KEY|]. split; [|split; [|split; [|split]]].
  - intros s N. unfold result_of. rewrite get_symbol_token_run.
    cbn [fst]. unfold token_of.
    destruct (lookup (upper s) symbol_map) as [t|] eqn:L; [|reflexivity].
    exfalso. apply (N (upper s) t L). unfold same_ignoring_case.
    now rewrite (symbol_map_keys_upper _ _ L).
  - unfold result_of. cbn [map]. rewrite !get_symbol_token_run.
    vm_compute. reflexivity.
  - intros key token s L V. apply (KEY key token s L).
    now apply same_ascii_letters_upper.
  - unfold result_of. rewrite get_symbol_token_run. vm_compute. reflexivity.
  - unfold result_of. rewrite get_symbol_token_run. vm_compute. reflexivity.
Qed.

Lemma symbol_resolution_witness :
  result_of (get_symbol_token (PyStr "BankNifty")) env_ok fresh
  = Ok (PyStr "99926009").
Proof.
  apply (proj1 (symbol_resolution env_ok fresh)
           "BANKNIFTY" (PyStr "99926009") "BankNifty").
  - vm_compute. reflexivity.
  - vm_compute. reflexivity.
Defined.

(** C6 as stated fails: "nifty" written with a dotless i is not in the
    table, and is not a key up to the case of its letters (the dotless i is
    no case form of I: its lower-case and case-folded forms are itself), yet
    it resolves to the token of NIFTY. *)
Lemma dotless_i_resolves_counterexample :
  lookup nifty_dotless_i symbol_map = None /\
  (forall key token,
     lookup key symbol_map = Some token ->
     same_ascii_letters nifty_dotless_i key = false) /\
  result_of (get_symbol_token (PyStr nifty_dotless_i)) env_ok fresh
  = Ok (PyStr "99926000") /\
  result_of (get_symbol_token (PyStr nifty_dotless_i)) env_ok fresh <> Ok PyNone.
Proof.
  split; [vm_compute; reflexivity|]. split; [|split].
  - intros key token L. unfold symbol_map in L. cbn [lookup] in L.
    repeat match type of L with
           | context [if (?k =? key)%string then _ else _] =>
               destruct (String.eqb_spec k key) as [<-|_];
               [vm_compute; reflexivity|]
           end.
    discriminate.
  - unfold result_of. rewrite get_symbol_token_run. vm_compute. reflexivity.
  - unfold result_of. rewrite get_symbol_token_run. vm_compute. discriminate.
Qed.

(** C9.  [get_symbol_token] returns for every argument and never raises.
    On an argument that is not a string the [upper()] call raises inside the
    [try], and the function returns [None]; [None] itself is such an
    argument.  The trader is left untouched. *)
Theorem get_symbol_token_total symbol env st :
  (exists tok, result_of (get_symbol_token symbol) env st = Ok tok) /\
  ((forall s, symbol <> PyStr s) ->
     (exists e, py_upper symbol = Raise e) /\
     result_of (get_symbol_token symbol) env st = Ok PyNone) /\
  (py_upper PyNone = Raise (AttributeError "NoneType" "upper") /\
   result_of (get_symbol_token PyNone) env st = Ok PyNone) /\
  trader_after (get_symbol_token symbol) env st = trader st.
Proof.
  unfold result_of, trader_after. rewrite !get_symbol_token_run. simpl.
  repeat split; eauto.
  - destruct symbol; simpl; eauto. now destruct (H s).
  - destruct symbol; simpl; auto. now destruct (H s).
Qed.

Lemma get_symbol_token_total_witness :
  (exists e, py_upper (PyInt 2885) = Raise e) /\
  result_of (get_symbol_token (PyInt 2885)) env_ok fresh = Ok PyNone.
Proof.
  apply (proj1 (proj2 (get_symbol_token_total (PyInt 2885) env_ok fresh))).
  discriminate.
Defined.

(** ** The webhook route *)

Lemma webhook_unfold r env st :
  webhook r env st
  = match webhook_try r env st with
    | (Ok a, st') => (Ok a, st')
    | (Raise e, st') => (Ok (error_body (exn_str e), 500), st')
    end.
Proof. reflexivity. Qed.

Lemma place_order_returns env st symbol action quantity price :
  exists result st',
    place_order symbol action quantity price env st = (Ok result, st') /\
    ((exists m, result = failure m) \/ (exists m oid, result = placed m oid)).
Proof.
  destruct (place_order_cases env st symbol action quantity price)
    as (b & st1 & result & tail & _ & R & T).
  exists result, (logged st1 tail). split; [exact R|].
  inversion T; subst; eauto.
Qed.

Lemma in_strs_truthy v l : in_strs v l = true -> ~ In EmptyString l -> py_truthy v = true.
Proof.
  unfold in_strs. intros H N. apply existsb_exists in H as (x & I & E).
  destruct v; simpl in E; try discriminate.
  apply String.eqb_eq in E. subst. simpl.
  destruct (String.eqb_spec x EmptyString); [subst; contradiction|reflexivity].
Qed.

Lemma webhook_try_dispatched env st d quantity :
  let action := dict_get d "action" PyNone in
  let symbol := dict_get d "symbol" (PyStr "NIFTY") in
  let signal := dict_get d "signal" PyNone in
  let price := dict_get d "price" PyNone in
  in_strs action ["BUY"; "SELL"] = true ->
  get_quantity_for_signal signal = Ok quantity ->
  exists body result st',
    place_order symbol action quantity price env st = (Ok result, st') /\
    webhook_try (Json (PyDict d)) env st
    = (Ok (body, if reports_success result then 200 else 400), st').
Proof.
  intros action symbol signal price A Q.
  subst action symbol signal price.
  assert (TA : py_truthy (dict_get d "action" PyNone) = true).
  { apply (in_strs_truthy _ _ A). simpl. intros [H|[H|[]]]; discriminate. }
  assert (TD : py_truthy (PyDict d) = true).
  { destruct d; [discriminate A | reflexivity]. }
  destruct (place_order_returns env st (dict_get d "symbol" (PyStr "NIFTY")) (dict_get d "action" PyNone) quantity (dict_get d "price" PyNone))
    as (result & st' & R & Shape).
  unfold webhook_try, get_json, py_get.
  unfold bind at 1. unfold lift at 1. cbv beta iota.
  rewrite TD. cbv beta iota delta [negb].
  do 5 (unfold bind at 1; unfold lift at 1; cbv beta iota).
  rewrite TA, A. cbv beta iota delta [negb orb].
  unfold bind at 1. unfold lift at 1. rewrite Q. cbv beta iota.
  unfold bind at 1. rewrite R. cbv beta iota.
  destruct Shape as [(m & ->) | (m & oid & ->)].
  - do 3 eexists. split; [reflexivity|]. reflexivity.
  - unfold bind, lift, ret, now_isoformat. simpl.
    match goal with |- context [if py_truthy ?x then _ else _] => destruct (py_truthy x) end;
      do 3 eexists; (split; [reflexivity|]); reflexivity.
Qed.

Lemma dict_truthy (d : dict) : d <> [] -> py_truthy (PyDict d) = true.
Proof. destruct d; [congruence | reflexivity]. Qed.

Lemma webhook_try_invalid env st d :
  d <> [] ->
  in_strs (dict_get d "action" PyNone) ["BUY"; "SELL"] = false ->
  webhook_try (Json (PyDict d)) env st
  = (Ok (error_body "Invalid action", 400), st).
Proof.
  intros N A. unfold webhook_try, get_json, py_get.
  unfold bind at 1. unfold lift at 1. cbv beta iota.
  rewrite (dict_truthy d N). cbv beta iota delta [negb].
  do 5 (unfold bind at 1; unfold lift at 1; cbv beta iota).
  rewrite A. rewrite orb_true_r. reflexivity.
Qed.

Lemma webhook_try_unhashable env st d e :
  in_strs (dict_get d "action" PyNone) ["BUY"; "SELL"] = true ->
  get_quantity_for_signal (dict_get d "signal" PyNone) = Raise e ->
  webhook_try (Json (PyDict d)) env st = (Raise e, st).
Proof.
  intros A Q.
  assert (TA : py_truthy (dict_get d "action" PyNone) = true).
  { apply (in_strs_truthy _ _ A). simpl. intros [H|[H|[]]]; discriminate. }
  assert (TD : py_truthy (PyDict d) = true).
  { destruct d; [discriminate A | reflexivity]. }
  unfold webhook_try, get_json, py_get.
  unfold bind at 1. unfold lift at 1. cbv beta iota.
  rewrite TD. cbv beta iota delta [negb].
  do 5 (unfold bind at 1; unfold lift at 1; cbv beta iota).
  rewrite TA, A. cbv beta iota delta [negb orb].
  unfold bind at 1. unfold lift at 1. rewrite Q. reflexivity.
Qed.

Lemma events_of_same {A} (m : M A) env st (a : outcome A) :
  m env st = (a, st) -> events_of m env st = [].
Proof.
  intros R. eapply events_of_eq; [exact R|]. now rewrite app_nil_r.
Qed.

(** C2, as the code has it.  Every POST to [/webhook] is answered with a
    body and a status among 200, 400 and 500.  When [get_json()] returns a
    falsy value ([None] for a request without JSON, an empty JSON value) the
    status is 400 with the message "No data received".  When [get_json()]
    raises, as it does on a body that is not valid JSON, the status is 500
    with the text of the exception.  When the body is a non-empty JSON object
    whose action is absent or is not BUY or SELL, the status is 400 with the
    message "Invalid action" and [place_order] is not called.  When the
    action is BUY or SELL and the quantity lookup returns, the status is 200
    if [place_order] reports success and 400 if it reports failure.  The
    status is 500 exactly when the [try] block raised. *)
Theorem webhook_status env st r :
  exists body code,
    result_of (webhook r) env st = Ok (body, code) /\
    (code = 200 \/ code = 400 \/ code = 500) /\
    (code = 500 <-> exists e, result_of (webhook_try r) env st = Raise e) /\
    (forall v, get_json r = Ok v -> py_truthy v = false ->
       code = 400 /\ body = error_body "No data received") /\
    (forall e, get_json r = Raise e ->
       code = 500 /\ body = error_body (exn_str e)) /\
    (forall d, get_json r = Ok (PyDict d) -> d <> [] ->
       in_strs (dict_get d "action" PyNone) ["BUY"; "SELL"] = false ->
       code = 400 /\ body = error_body "Invalid action" /\
       existsb is_dispatch_call (events_of (webhook r) env st) = false) /\
    (forall d quantity, get_json r = Ok (PyDict d) ->
       in_strs (dict_get d "action" PyNone) ["BUY"; "SELL"] = true ->
       get_quantity_for_signal (dict_get d "signal" PyNone) = Ok quantity ->
       exists result,
         result_of (place_order (dict_get d "symbol" (PyStr "NIFTY"))
                      (dict_get d "action" PyNone) quantity
                      (dict_get d "price" PyNone)) env st = Ok result /\
         code = if reports_success result then 200 else 400).
Proof.
  match goal with |- ?G => assert (EARLY : forall body code,
            webhook_try r env st = (Ok (body, code), st) ->
            (code = 400) ->
            (forall d, get_json r = Ok (PyDict d) ->
               in_strs (dict_get d "action" PyNone) ["BUY"; "SELL"] = true -> False) ->
            (forall v, get_json r = Ok v -> py_truthy v = false ->
               body = error_body "No data received") ->
            (forall d, get_json r = Ok (PyDict d) -> d <> [] ->
               body = error_body "Invalid action") ->
            (forall e, get_json r <> Raise e) ->
            G) end.
  { intros body code R -> NV ND IA NR. exists body, 400.
    assert (EV : events_of (webhook r) env st = []).
    { apply events_of_same with (a := Ok (body, 400)).
      now rewrite webhook_unfold, R. }
    unfold result_of. rewrite webhook_unfold, R. cbn [fst].
    split; [reflexivity|]. split; [auto|].
    split; [split; [discriminate | intros (e & E); discriminate]|].
    split; [intros v E F; split; eauto|].
    split; [intros e E; exfalso; apply (NR e E)|].
    split; [intros d E N A; rewrite EV; repeat split; eauto|].
    intros d q E A _. exfalso; eauto. }
  match goal with |- ?G => assert (RAISED : forall e,
            webhook_try r env st = (Raise e, st) ->
            (forall v, get_json r = Ok v -> py_truthy v = true) ->
            (forall d, get_json r = Ok (PyDict d) ->
               in_strs (dict_get d "action" PyNone) ["BUY"; "SELL"] = true /\
               get_quantity_for_signal (dict_get d "signal" PyNone) = Raise e) ->
            (forall e', get_json r = Raise e' -> e' = e) ->
            G) end.
  { intros e R TV DV RE. exists (error_body (exn_str e)), 500.
    unfold result_of. rewrite webhook_unfold, R. cbn [fst].
    split; [reflexivity|]. split; [auto|].
    split; [split; eauto|].
    split; [intros v E F; apply TV in E; congruence|].
    split; [intros e' E; now rewrite (RE e' E)|].
    split; [intros d E _ A; apply DV in E; destruct E; congruence|].
    intros d q E A Q. apply DV in E. destruct E. congruence. }
  destruct r as [|detail|v].
  - apply (EARLY (error_body "No data received") 400);
      cbn [get_json]; intros; try discriminate; reflexivity.
  - apply (RAISED (BadRequest detail));
      cbn [get_json]; intros; try discriminate; try congruence; reflexivity.
  - destruct (py_truthy v) eqn:TV.
    + assert (NONDICT :
                (forall d, v <> PyDict d) ->
                webhook_try (Json v) env st
                = (Raise (AttributeError (type_name v) "get"), st)).
      { intros ND. unfold webhook_try, get_json.
        unfold bind at 1. unfold lift at 1. cbv beta iota.
        rewrite TV. cbv beta iota delta [negb].
        unfold bind at 1. unfold lift at 1.
        destruct v; try reflexivity. now destruct (ND d). }
      destruct v as [| | | | | |d];
        try (apply (RAISED _ (NONDICT ltac:(discriminate)));
             cbn [get_json]; intros; try discriminate; congruence).
      clear NONDICT.
      assert (N : d <> []) by (destruct d; [discriminate TV | discriminate]).
      destruct (in_strs (dict_get d "action" PyNone) ["BUY"; "SELL"]) eqn:A.
      * destruct (get_quantity_for_signal (dict_get d "signal" PyNone))
          as [quantity|e] eqn:Q.
        -- destruct (webhook_try_dispatched env st d quantity A Q)
             as (body & result & st' & R & W).
           exists body, (if reports_success result then 200 else 400).
           unfold result_of. rewrite webhook_unfold, W. cbn [fst get_json].
           split; [reflexivity|].
           split; [destruct (reports_success result); auto|].
           split; [split; [destruct (reports_success result); discriminate
                          | intros (e & E); discriminate]|].
           split; [intros v E F; injection E as <-; congruence|].
           split; [intros e E; discriminate|].
           split; [intros d' E _ A'; injection E as <-; congruence|].
           intros d' q E _ Q'. injection E as <-.
           rewrite Q in Q'. injection Q' as <-. rewrite R.
           exists result. split; reflexivity.
        -- apply (RAISED e (webhook_try_unhashable env st d e A Q));
             cbn [get_json]; intros; try discriminate; try congruence.
           match goal with H : Ok _ = Ok _ |- _ => injection H as <- end. auto.
      * apply (EARLY _ _ (webhook_try_invalid env st d N A));
          cbn [get_json]; intros; try discriminate; try congruence;
          try reflexivity;
          match goal with H : Ok _ = Ok _ |- _ => injection H as <- end;
          congruence.
    + assert (R : webhook_try (Json v) env st
                  = (Ok (error_body "No data received", 400), st)).
      { unfold webhook_try, get_json.
        unfold bind at 1. unfold lift at 1. cbv beta iota.
        rewrite TV. reflexivity. }
      apply (EARLY _ _ R); cbn [get_json]; intros; try discriminate;
        try reflexivity;
        match goal with H : Ok _ = Ok _ |- _ => injection H as -> end.
      * destruct d; [discriminate | discriminate TV].
      * destruct d; [congruence | discriminate TV].
Qed.

Lemma webhook_status_witness :
  exists body, result_of (webhook (Json (PyDict scenario_a))) env_ok fresh = Ok (body, 200).
Proof.
  destruct (webhook_status env_ok fresh (Json (PyDict scenario_a)))
    as (body & code & R & _ & _ & _ & _ & _ & D).
  destruct (D scenario_a (PyInt 2) eq_refl eq_refl eq_refl) as (result & PR & C).
  exists body. rewrite R. vm_compute in PR. injection PR as <-.
  rewrite C. reflexivity.
Defined.

(** C2 as stated fails: a body that is not valid JSON makes [get_json()]
    raise, and the route answers 500, not 400. *)
Lemma unparsable_body_counterexample :
  result_of (webhook (Unparsable "400 Bad Request: Failed to decode JSON object"))
    env_ok fresh
  = Ok (error_body "400 Bad Request: Failed to decode JSON object", 500) /\
  forall body,
    result_of (webhook (Unparsable "400 Bad Request: Failed to decode JSON object"))
      env_ok fresh
    <> Ok (body, 400).
Proof.
  split; [reflexivity|]. intros body H. vm_compute in H. discriminate H.
Qed.
(** ** How a submitted order is settled *)

(** Once the session step is over and the symbol resolved, a string action
    is submitted and the result is read off the brokerage's answer. *)
Lemma place_order_settled env st symbol a quantity price st1 c :
  session_step env (entered symbol (PyStr a) quantity price st) = (Ok true, st1) ->
  py_truthy (token_of symbol) = true ->
  smart_api (trader st1) = Some c ->
  let params :=
    order_params_for (trader st1) symbol (token_of symbol)
      (transaction_type_for a) (quantity_used (trader st1) quantity) price in
  place_order symbol (PyStr a) quantity price env st
  = (Ok (order_result (transaction_type_for a)
           (quantity_used (trader st1) quantity) symbol
           (env_placeOrder env (trace st1 ++ [CallGetSymbolToken symbol]) c params)),
     logged st1 [CallGetSymbolToken symbol; PlaceOrder c params]).
Proof.
  intros G T Sc params.
  unfold place_order.
  unfold bind at 1. unfold record at 1. cbv beta iota.
  fold (logged st [CallPlaceOrder symbol (PyStr a) quantity price]).
  fold (entered symbol (PyStr a) quantity price st).
  set (st0 := entered symbol (PyStr a) quantity price st) in *.
  unfold try_except at 1. unfold bind at 1. unfold get_self at 1. cbv beta iota.
  unfold bind at 1.
  assert (GS : (if negb (session_present (trader st0))
                then (ok <- login ;; ret (negb ok))
                else ret false) env st0 = (Ok false, st1)).
  { unfold session_step in G. destruct (session_present (trader st0)); simpl.
    - inversion G; subst. reflexivity.
    - unfold bind, ret. rewrite G. reflexivity. }
  rewrite GS. clear GS. cbv beta iota.
  unfold bind at 1. rewrite get_symbol_token_run. cbv beta iota.
  rewrite T. cbv beta iota delta [negb].
  unfold bind at 1. unfold get_self at 1. cbv beta iota.
  unfold bind at 1. unfold lift at 1.
  unfold py_upper. cbv beta iota.
  change (trader (logged st1 [CallGetSymbolToken symbol])) with (trader st1).
  rewrite Sc. unfold sdk_call, call, bind, lift, ret.
  change (eq_str (PyStr (upper a)) "BUY") with (upper a =? "BUY")%string.
  fold (transaction_type_for a).
  change (if if py_truthy quantity then false else true
          then PyInt (default_quantity (trader st1)) else quantity)
    with (quantity_used (trader st1) quantity).
  fold params.
  assert (ST : {| trader := trader (logged st1 [CallGetSymbolToken symbol]);
                  trace := trace (logged st1 [CallGetSymbolToken symbol])
                           ++ [PlaceOrder c params] |}
               = logged st1 [CallGetSymbolToken symbol; PlaceOrder c params]).
  { unfold logged; simpl. rewrite <- app_assoc. reflexivity. }
  rewrite ST. clear ST.
  change (trace (logged st1 [CallGetSymbolToken symbol]))
    with (trace st1 ++ [CallGetSymbolToken symbol])%list.
  unfold order_result.
  destruct (env_placeOrder env _ c params) as [resp|e]; [|reflexivity].
  destruct (py_truthy resp); [|reflexivity].
  destruct (py_get resp "status" PyNone) as [s'|e]; [|reflexivity].
  destruct (py_truthy s'); [|reflexivity].
  destruct (py_getitem resp "data") as [d|e]; [|reflexivity].
  destruct (py_getitem d "orderid") as [oid|e]; reflexivity.
Qed.

Lemma reply_to_order_skip env h evs c p r :
  existsb is_order_call evs = false ->
  reply_to_order env h (evs ++ PlaceOrder c p :: r)
  = Some (env_placeOrder env (h ++ evs) c p).
Proof.
  revert h. induction evs as [|e evs IH]; intros h N; simpl in *.
  - now rewrite app_nil_r.
  - apply orb_false_iff in N as [Ne Nr].
    destruct e; try discriminate Ne; rewrite (IH _ Nr), <- app_assoc; reflexivity.
Qed.

Lemma reply_to_order_none env h evs :
  existsb is_order_call evs = false -> reply_to_order env h evs = None.
Proof.
  revert h. induction evs as [|e evs IH]; intros h N; simpl in *; auto.
  apply orb_false_iff in N as [Ne Nr].
  destruct e; try discriminate Ne; now apply IH.
Qed.

Lemma quantity_used_config self self' quantity :
  config_kept self self' -> quantity_used self' quantity = quantity_used self quantity.
Proof.
  intros (_ & _ & _ & _ & D & _). unfold quantity_used. now rewrite D.
Qed.

(** A run of [place_order] either places no order, or places one for a
    string action and returns what lines 124-138 make of the answer. *)
Lemma place_order_reply env st symbol action quantity price :
  let run := place_order symbol action quantity price in
  (order_reply run env st = None /\
   existsb is_order_call (events_of run env st) = false /\
   exists m, result_of run env st = Ok (failure m))
  \/
  (exists a reply,
     action = PyStr a /\
     order_reply run env st = Some reply /\
     result_of run env st
     = Ok (order_result (transaction_type_for a)
             (quantity_used (trader st) quantity) symbol reply)).
Proof.
  intros run.
  destruct (session_step_cases env (entered symbol action quantity price st))
    as (b & st1 & sevs & G & TR & F & K & C & _).
  destruct (place_order_cases env st symbol action quantity price)
    as (b' & st1' & result & tail & G' & R & T).
  rewrite G in G'. injection G' as <- <-.
  assert (NoOrd : existsb is_order_call sevs = false)
    by (apply existsb_session_only; auto using session_call_not_order).
  assert (EV : events_of run env st
               = (CallPlaceOrder symbol action quantity price :: sevs ++ tail)%list).
  { eapply events_of_eq; [exact R|]. unfold logged; simpl. rewrite TR.
    unfold entered, logged; simpl. rewrite <- !app_assoc. reflexivity. }
  assert (NONE : existsb is_order_call tail = false ->
                 order_reply run env st = None /\
                 existsb is_order_call (events_of run env st) = false).
  { intros N. unfold order_reply. rewrite EV. split.
    - apply reply_to_order_none. simpl. now rewrite existsb_app, NoOrd, N.
    - simpl. now rewrite existsb_app, NoOrd, N. }
  inversion T; subst.
  - left. destruct (NONE eq_refl) as [N1 N2].
    split; [exact N1|]. split; [exact N2|].
    unfold result_of, run. rewrite R. cbn [fst]. eauto.
  - left. destruct (NONE eq_refl) as [N1 N2].
    split; [exact N1|]. split; [exact N2|].
    unfold result_of, run. rewrite R. cbn [fst]. eauto.
  - left. destruct (NONE eq_refl) as [N1 N2].
    split; [exact N1|]. split; [exact N2|].
    unfold result_of, run. rewrite R. cbn [fst]. eauto.
  - right. exists a.
    pose proof (place_order_settled env st symbol a quantity price st1 c G H H1) as S.
    cbv zeta in S.
    rewrite (quantity_used_config _ _ quantity K) in S.
    assert (D : default_quantity (trader st1) = default_quantity (trader st))
      by apply K.
    rewrite D in EV.
    eexists. split; [reflexivity|]. split.
    + unfold order_reply. rewrite EV.
      match goal with
      | |- context [(sevs ++ [?g; ?o])%list] =>
          replace (sevs ++ [g; o])%list with ((sevs ++ [g]) ++ [o])%list
            by (rewrite <- app_assoc; reflexivity)
      end.
      rewrite app_comm_cons.
      rewrite reply_to_order_skip.
      * reflexivity.
      * simpl. now rewrite existsb_app, NoOrd.
    + unfold result_of, run. rewrite S. cbn [fst].
      rewrite TR. unfold entered, logged; simpl.
      rewrite <- !app_assoc. reflexivity.
Qed.

Lemma order_result_accepted transaction_type quantity symbol reply oid :
  reply_order_id reply = Some oid ->
  order_result transaction_type quantity symbol reply
  = placed ("Order placed: " ++ transaction_type ++ " " ++ py_str quantity
              ++ " " ++ py_str symbol) oid.
Proof.
  unfold reply_order_id, order_result, reports_success.
  destruct reply as [resp|e]; [|discriminate].
  destruct (py_truthy resp); [|discriminate]. cbn [andb].
  destruct (py_get resp "status" PyNone) as [s|e]; [|discriminate].
  destruct (py_truthy s); [|discriminate].
  destruct (py_getitem resp "data") as [d|e]; [|discriminate].
  destruct (py_getitem d "orderid") as [o|e]; [|discriminate].
  now intros [= ->].
Qed.

Lemma order_result_success transaction_type quantity symbol reply :
  reports_success (order_result transaction_type quantity symbol reply) = true ->
  exists oid, reply_order_id reply = Some oid.
Proof.
  unfold reply_order_id, order_result, reports_success at 2.
  destruct reply as [resp|e]; [|discriminate].
  destruct (py_truthy resp); [|discriminate]. cbn [andb].
  destruct (py_get resp "status" PyNone) as [s|e]; [|discriminate].
  destruct (py_truthy s); [|discriminate].
  destruct (py_getitem resp "data") as [d|e]; [|discriminate].
  destruct (py_getitem d "orderid") as [o|e]; [|discriminate].
  eauto.
Qed.

(** X1.  When the brokerage's answer to the order is truthy, has a truthy
    [status] and carries [data.orderid], [place_order] returns success with
    exactly that order id and the message
    "Order placed: <BUY|SELL> <quantity> <symbol>". *)
Theorem order_accepted env st symbol action quantity price reply oid :
  let run := place_order symbol action quantity price in
  order_reply run env st = Some reply ->
  reply_order_id reply = Some oid ->
  exists a,
    action = PyStr a /\
    result_of run env st
    = Ok (placed ("Order placed: " ++ transaction_type_for a ++ " "
                    ++ py_str (quantity_used (trader st) quantity)
                    ++ " " ++ py_str symbol) oid).
Proof.
  intros run; subst run; intros R I.
  destruct (place_order_reply env st symbol action quantity price)
    as [(N & _) | (a & reply' & -> & R' & Res)].
  - congruence.
  - rewrite R in R'. injection R' as <-.
    exists a. split; [reflexivity|].
    rewrite Res. f_equal. now apply order_result_accepted.
Qed.

Lemma order_accepted_witness :
  exists a,
    PyStr "sell" = PyStr a /\
    result_of (place_order (PyStr "sbin") (PyStr "sell") PyNone PyNone) env_ok in_session
    = Ok (placed ("Order placed: " ++ transaction_type_for a ++ " "
                    ++ py_str (quantity_used (trader in_session) PyNone)
                    ++ " " ++ py_str (PyStr "sbin")) (PyStr "ORD-1")).
Proof.
  apply (order_accepted env_ok in_session (PyStr "sbin") (PyStr "sell") PyNone PyNone
           (Ok order_reply_ok) (PyStr "ORD-1")); reflexivity.
Defined.

(** X2.  [place_order] never reports success on its own account: a result
    with a truthy [status] means an order was sent and the brokerage's
    answer carried an order id, which is the [order_id] returned. *)
Theorem success_needs_order_id env st symbol action quantity price result :
  let run := place_order symbol action quantity price in
  result_of run env st = Ok result ->
  reports_success result = true ->
  exists reply oid,
    order_reply run env st = Some reply /\
    reply_order_id reply = Some oid /\
    py_getitem result "order_id" = Ok oid.
Proof.
  intros run; subst run; intros R S.
  destruct (place_order_reply env st symbol action quantity price)
    as [(_ & _ & m & Res) | (a & reply & -> & R' & Res)].
  - rewrite R in Res. injection Res as ->. discriminate S.
  - rewrite R in Res. injection Res as ->.
    destruct (order_result_success _ _ _ _ S) as (oid & I).
    exists reply, oid. repeat split; auto.
    now rewrite (order_result_accepted _ _ _ _ _ I).
Qed.

Lemma success_needs_order_id_witness :
  exists reply oid,
    order_reply (place_order (PyStr "TCS") (PyStr "BUY") (PyInt 5) PyNone) env_ok fresh
    = Some reply /\
    reply_order_id reply = Some oid /\
    py_getitem (placed "Order placed: BUY 5 TCS" (PyStr "ORD-1")) "order_id" = Ok oid.
Proof.
  apply (success_needs_order_id env_ok fresh (PyStr "TCS") (PyStr "BUY") (PyInt 5) PyNone);
    reflexivity.
Defined.

(** X3.  When the brokerage's answer to the order is falsy, or is a
    dictionary whose [status] is missing or falsy, [place_order] returns the
    failure "Order failed: <answer>" with the answer rendered by [str()]. *)
Theorem order_rejected env st symbol action quantity price resp :
  let run := place_order symbol action quantity price in
  order_reply run env st = Some (Ok resp) ->
  (py_truthy resp = false \/
   exists s, py_get resp "status" PyNone = Ok s /\ py_truthy s = false) ->
  result_of run env st = Ok (failure ("Order failed: " ++ py_str resp)).
Proof.
  intros run; subst run; intros R C.
  destruct (place_order_reply env st symbol action quantity price)
    as [(N & _) | (a & reply' & -> & R' & Res)].
  - congruence.
  - rewrite R in R'. injection R' as <-. rewrite Res. f_equal.
    unfold order_result. destruct C as [F | (s & G & F)].
    + now rewrite F.
    + destruct (py_truthy resp); [|reflexivity]. now rewrite G, F.
Qed.

Lemma order_rejected_witness :
  result_of (place_order (PyStr "ITC") (PyStr "BUY") PyNone PyNone) env_reject in_session
  = Ok (failure "Order failed: {'status': False, 'message': 'Insufficient funds'}").
Proof.
  apply (order_rejected env_reject in_session (PyStr "ITC") (PyStr "BUY") PyNone PyNone
           (PyDict [("status", PyBool false); ("message", PyStr "Insufficient funds")])).
  - reflexivity.
  - right. exists (PyBool false). split; reflexivity.
Defined.

(** X4.  When the order call raises, [place_order] does not: it returns the
    failure "Error: <text of the exception>". *)
Theorem order_call_raises env st symbol action quantity price e :
  let run := place_order symbol action quantity price in
  order_reply run env st = Some (Raise e) ->
  result_of run env st = Ok (failure ("Error: " ++ exn_str e)).
Proof.
  intros run; subst run; intros R.
  destruct (place_order_reply env st symbol action quantity price)
    as [(N & _) | (a & reply' & -> & R' & Res)].
  - congruence.
  - rewrite R in R'. injection R' as <-. now rewrite Res.
Qed.

Lemma order_call_raises_witness :
  result_of (place_order (PyStr "ITC") (PyStr "BUY") PyNone PyNone) env_down in_session
  = Ok (failure "Error: Connection timed out").
Proof.
  apply (order_call_raises env_down in_session (PyStr "ITC") (PyStr "BUY") PyNone PyNone
           (SdkError "Connection timed out")).
  reflexivity.
Defined.

(** X5.  An answer with a truthy [status] but without [data.orderid] is
    reported as a failure "Error: ...", although the brokerage accepted the
    order. *)
Theorem order_accepted_without_id env st symbol action quantity price resp :
  let run := place_order symbol action quantity price in
  order_reply run env st = Some (Ok resp) ->
  py_truthy resp = true ->
  reports_success resp = true ->
  reply_order_id (Ok resp) = None ->
  exists e, result_of run env st = Ok (failure ("Error: " ++ exn_str e)).
Proof.
  intros run; subst run; intros R T S I.
  destruct (place_order_reply env st symbol action quantity price)
    as [(N & _) | (a & reply' & -> & R' & Res)].
  - congruence.
  - rewrite R in R'. injection R' as <-. rewrite Res.
    unfold reply_order_id in I. unfold order_result.
    rewrite T, S in I. cbn [andb] in I. rewrite T.
    unfold reports_success in S.
    destruct (py_get resp "status" PyNone) as [s|e]; [|discriminate S].
    rewrite S.
    destruct (py_getitem resp "data") as [d|e]; [|eauto].
    destruct (py_getitem d "orderid") as [o|e]; [discriminate I|eauto].
Qed.

Lemma order_accepted_without_id_witness :
  exists e,
    result_of (place_order (PyStr "ITC") (PyStr "BUY") PyNone PyNone)
      {| env_SmartConnect := fun _ _ => Ok 1%nat;
         env_totp_now := fun _ _ => Ok "123456";
         env_generateSession := fun _ _ _ _ _ => Ok session_reply_ok;
         env_placeOrder := fun _ _ _ => Ok (PyDict [("status", PyBool true)]);
         env_now := fun _ => "2024-01-01T09:15:00" |}
      in_session
    = Ok (failure ("Error: " ++ exn_str e)).
Proof.
  apply (order_accepted_without_id _ in_session (PyStr "ITC") (PyStr "BUY") PyNone PyNone
           (PyDict [("status", PyBool true)])); reflexivity.
Defined.

(** ** What a submitted payload holds *)

Lemma order_params_fields self symbol token transaction_type quantity price :
  let p := order_params_for self symbol token transaction_type quantity price in
  lookup "variety" p = Some (PyStr "NORMAL") /\
  lookup "tradingsymbol" p = Some symbol /\
  lookup "symboltoken" p = Some token /\
  lookup "exchange" p = Some (PyStr "NSE") /\
  lookup "ordertype" p = Some (PyStr (order_type self)) /\
  lookup "producttype" p = Some (PyStr (product_type self)) /\
  lookup "duration" p = Some (PyStr "DAY") /\
  lookup "quantity" p = Some (PyStr (py_str quantity)) /\
  (map fst p = payload_keys \/ map fst p = (payload_keys ++ ["price"])%list).
Proof.
  unfold order_params_for.
  destruct ((order_type self =? "LIMIT")%string && py_truthy price);
    repeat split; auto.
Qed.

Lemma token_of_truthy symbol :
  py_truthy (token_of symbol) = true ->
  exists s, symbol = PyStr s /\ lookup (upper s) symbol_map = Some (token_of symbol).
Proof.
  destruct symbol; try discriminate. intros T. exists s. split; [reflexivity|].
  unfold token_of in *. destruct (lookup (upper s) symbol_map); [reflexivity|discriminate].
Qed.

(** X6.  Every payload that reaches the order endpoint has variety NORMAL,
    exchange NSE and duration DAY, carries the order and product types the
    trader was configured with when the call started, names the symbol as
    it was passed (a string) together with the table's token for it, and
    has the nine fixed keys in source order, followed by [price] or not. *)
Theorem payload_fixed_fields env st symbol action quantity price c p :
  In (PlaceOrder c p) (events_of (place_order symbol action quantity price) env st) ->
  lookup "variety" p = Some (PyStr "NORMAL") /\
  lookup "exchange" p = Some (PyStr "NSE") /\
  lookup "duration" p = Some (PyStr "DAY") /\
  lookup "ordertype" p = Some (PyStr (order_type (trader st))) /\
  lookup "producttype" p = Some (PyStr (product_type (trader st))) /\
  lookup "tradingsymbol" p = Some symbol /\
  (exists s token,
     symbol = PyStr s /\
     lookup (upper s) symbol_map = Some token /\
     lookup "symboltoken" p = Some token) /\
  (map fst p = payload_keys \/ map fst p = (payload_keys ++ ["price"])%list).
Proof.
  intros I.
  destruct (submitted_payload _ _ _ _ _ _ _ _ I) as (self & a & K & _ & T & ->).
  destruct (order_params_fields self symbol (token_of symbol)
              (if (upper a =? "BUY")%string then "BUY" else "SELL")
              (if negb (py_truthy quantity)
               then PyInt (default_quantity self) else quantity) price)
    as (V & TS & TK & E & OT & PT & D & _ & KS).
  destruct K as (_ & _ & _ & _ & _ & KP & KO). rewrite KP in PT. rewrite KO in OT.
  destruct (token_of_truthy symbol T) as (s & -> & L).
  repeat split; auto. exists s, (token_of (PyStr s)). auto.
Qed.

Lemma payload_fixed_fields_witness :
  lookup "ordertype"
    (order_params_for (trader in_session) (PyStr "tcs") (PyStr "11536")
       "BUY" (PyInt 1) PyNone)
  = Some (PyStr (order_type (trader in_session))).
Proof.
  apply (payload_fixed_fields env_ok in_session (PyStr "tcs") (PyStr "BUY")
           PyNone PyNone 1%nat).
  vm_compute. auto.
Defined.

(** X7.  The payload's quantity is [str()] of the quantity passed, whatever
    that value is, unless it is falsy ([None], 0, empty), in which case it
    is the configured default quantity. *)
Theorem payload_quantity env st symbol action quantity price c p :
  In (PlaceOrder c p) (events_of (place_order symbol action quantity price) env st) ->
  lookup "quantity" p
  = Some (PyStr (if py_truthy quantity
                 then py_str quantity
                 else str_int (default_quantity (trader st)))).
Proof.
  intros I.
  destruct (submitted_payload _ _ _ _ _ _ _ _ I) as (self & a & K & _ & T & ->).
  destruct (order_params_fields self symbol (token_of symbol)
              (if (upper a =? "BUY")%string then "BUY" else "SELL")
              (if negb (py_truthy quantity)
               then PyInt (default_quantity self) else quantity) price)
    as (_ & _ & _ & _ & _ & _ & _ & Q & _).
  rewrite Q. destruct K as (_ & _ & _ & _ & -> & _).
  destruct (py_truthy quantity); reflexivity.
Qed.

Lemma payload_quantity_witness :
  lookup "quantity"
    (order_params_for (trader in_session) (PyStr "TCS") (PyStr "11536")
       "BUY" (PyInt 1) PyNone)
  = Some (PyStr "1").
Proof.
  apply (payload_quantity env_ok in_session (PyStr "TCS") (PyStr "BUY")
           (PyInt 0) PyNone 1%nat).
  vm_compute. auto.
Defined.

Lemma filter_session_only evs :
  forallb is_session_call evs = true -> filter is_order_call evs = [].
Proof.
  induction evs as [|e r IH]; simpl; auto.
  intros F. apply andb_true_iff in F as [Fe Fr].
  rewrite (session_call_not_order e Fe). auto.
Qed.

(** X8.  One call of [place_order] calls the order endpoint at most once,
    and when it does the order call is the last thing it does. *)
Theorem at_most_one_order env st symbol action quantity price :
  let evs := events_of (place_order symbol action quantity price) env st in
  (length (filter is_order_call evs) <= 1)%nat /\
  (forall c p, In (PlaceOrder c p) evs -> last evs CallLogin = PlaceOrder c p).
Proof.
  destruct (place_order_observed env st symbol action quantity price)
    as (b & st1 & sevs & result & tail & G & F & K & P & NP & R & TA & EV & T & SE).
  cbv zeta. rewrite EV. split.
  - simpl. rewrite filter_app, (filter_session_only sevs F). simpl.
    inversion T; subst; simpl; auto.
  - intros c p [I | I]; [discriminate|].
    apply in_app_or in I as [I | I]; [now apply session_calls_no_order in I|].
    inversion T; subst; simpl in I;
      repeat (destruct I as [I | I]; try discriminate I);
      try contradiction.
    rewrite I.
    rewrite app_comm_cons.
    match goal with
    | |- context [(?l ++ [?g; ?o])%list] =>
        replace (l ++ [g; o])%list with ((l ++ [g]) ++ [o])%list
          by (rewrite <- app_assoc; reflexivity)
    end.
    apply last_last.
Qed.

(** X9.  An action that is not a string is never submitted: once the
    session step succeeded and the symbol resolved, [place_order] returns
    the failure "Error: '<type>' object has no attribute 'upper'". *)
Theorem non_string_action env st symbol action quantity price :
  let run := place_order symbol action quantity price in
  (forall a, action <> PyStr a) ->
  existsb is_order_call (events_of run env st) = false /\
  (session_established env st symbol action quantity price ->
   forall tok,
     result_of (get_symbol_token symbol) env st = Ok tok ->
     py_truthy tok = true ->
     result_of run env st
     = Ok (failure ("Error: '" ++ type_name action
                      ++ "' object has no attribute 'upper'"))).
Proof.
  intros run NS.
  destruct (place_order_observed env st symbol action quantity price)
    as (b & st1 & sevs & result & tail & G & F & K & P & NP & R & TA & EV & T & SE).
  fold run in R, EV. rewrite R, EV.
  assert (NoOrd : existsb is_order_call sevs = false)
    by (apply existsb_session_only; auto using session_call_not_order).
  simpl existsb. rewrite existsb_app, NoOrd. simpl orb.
  unfold result_of. rewrite get_symbol_token_run. cbn [fst].
  inversion T; subst; try (now destruct (NS a)); (split; [reflexivity|]).
  - intros S. apply SE in S. discriminate.
  - intros _ tok [= <-] TT. congruence.
  - intros _ tok _ _. f_equal. f_equal.
    destruct action; try (now destruct (NS s)); simpl in H0;
      injection H0 as <-; reflexivity.
Qed.

Lemma non_string_action_witness :
  result_of (place_order (PyStr "TCS") (PyInt 1) PyNone PyNone) env_ok in_session
  = Ok (failure "Error: 'int' object has no attribute 'upper'").
Proof.
  apply (proj2 (non_string_action env_ok in_session (PyStr "TCS") (PyInt 1) PyNone PyNone
                  ltac:(discriminate)))
    with (tok := PyStr "11536").
  - left. reflexivity.
  - reflexivity.
  - reflexivity.
Defined.

(** ** More about [login] *)

Lemma login_trace env st :
  exists rest,
    trace (snd (login env st))
    = (trace st ++ CallLogin :: SmartConnect (api_key (trader st)) :: rest)%list /\
    (rest = [] \/
     rest = [TotpNow (totp_key (trader st))] \/
     exists c totp,
       rest = [TotpNow (totp_key (trader st));
               GenerateSession c (username (trader st)) (password (trader st)) totp]).
Proof.
  unfold login. monad_unfold. simpl.
  repeat case_step.
  all: rewrite <- ?app_assoc; simpl.
  all: eexists; split; [reflexivity|]; eauto.
Qed.

Lemma login_trace_exact env st :
  let t := trader st in
  trace (snd (login env st))
  = (trace st ++
     CallLogin :: SmartConnect (api_key t) ::
       match env_SmartConnect env (trace st ++ [CallLogin]) (api_key t) with
       | Raise _ => []
       | Ok c =>
           TotpNow (totp_key t) ::
             match env_totp_now env
                     ((trace st ++ [CallLogin]) ++ [SmartConnect (api_key t)])
                     (totp_key t) with
             | Raise _ => []
             | Ok totp => [GenerateSession c (username t) (password t) totp]
             end
       end)%list.
Proof.
  unfold login. monad_unfold. simpl.
  repeat case_step.
  all: rewrite <- ?app_assoc; reflexivity.
Qed.

(** X10.  [login] starts by building a client with the stored API key.  If
    the constructor raises it calls nothing more; otherwise it asks for a
    TOTP with the stored seed; if that raises it calls nothing more;
    otherwise it sends one session request on the client just built, with
    the stored user name and password and the TOTP just obtained.  It makes
    no other call and never calls the order endpoint. *)
Theorem login_calls env st :
  let t := trader st in
  let h0 := (trace st ++ [CallLogin])%list in
  let h1 := (h0 ++ [SmartConnect (api_key t)])%list in
  events_of login env st
  = CallLogin :: SmartConnect (api_key t) ::
      match env_SmartConnect env h0 (api_key t) with
      | Raise _ => []
      | Ok c =>
          TotpNow (totp_key t) ::
            match env_totp_now env h1 (totp_key t) with
            | Raise _ => []
            | Ok totp => [GenerateSession c (username t) (password t) totp]
            end
      end /\
  existsb is_order_call (events_of login env st) = false.
Proof.
  intros t h0 h1.
  assert (E : events_of login env st
              = CallLogin :: SmartConnect (api_key t) ::
                  match env_SmartConnect env h0 (api_key t) with
                  | Raise _ => []
                  | Ok c =>
                      TotpNow (totp_key t) ::
                        match env_totp_now env h1 (totp_key t) with
                        | Raise _ => []
                        | Ok totp =>
                            [GenerateSession c (username t) (password t) totp]
                        end
                  end).
  { unfold events_of. rewrite login_trace_exact. apply skipn_app_length. }
  split; [exact E|]. rewrite E.
  destruct (env_SmartConnect env h0 (api_key t)); [|reflexivity].
  destruct (env_totp_now env h1 (totp_key t)); reflexivity.
Qed.

(** X11.  [login] stores the new client before it authenticates: whenever
    the client constructor returns, that client is the trader's client
    after the call, also when the login fails; when the constructor raises,
    [login] returns false and client and tokens are what they were. *)
Theorem login_client env st :
  let built := env_SmartConnect env (trace st ++ [CallLogin]) (api_key (trader st)) in
  (forall c, built = Ok c -> smart_api (trader_after login env st) = Some c) /\
  (forall e, built = Raise e ->
     result_of login env st = Ok false /\
     smart_api (trader_after login env st) = smart_api (trader st) /\
     tokens (trader_after login env st) = tokens (trader st)).
Proof.
  unfold result_of, trader_after, tokens, login. monad_unfold. simpl.
  split.
  - intros c B. rewrite B. simpl. repeat case_step; reflexivity.
  - intros e B. rewrite B. simpl. auto.
Qed.

Lemma login_client_witness :
  smart_api (trader_after login env_refuse fresh) = Some 1%nat.
Proof.
  apply (proj1 (login_client env_refuse fresh)). reflexivity.
Defined.

(** X12.  A refused login is not remembered.  When [place_order] finds a
    falsy auth token and the session reply carries no truthy status, it
    returns "Login failed" and leaves the trader without a session, so the
    next [place_order], against any environment, starts with a login
    again. *)
Theorem failed_login_is_retried env st symbol action quantity price :
  let run := place_order symbol action quantity price in
  py_truthy (auth_token (trader st)) = false ->
  status_reported
    (session_reply env (entered symbol action quantity price st)) = false ->
  result_of run env st = Ok (failure "Login failed") /\
  session_present (trader_after run env st) = false /\
  forall env' symbol' action' quantity' price',
    In CallLogin
       (events_of (place_order symbol' action' quantity' price') env'
          (state_after run env st)).
Proof.
  intros run A SR.
  assert (SP : session_present (trader st) = false).
  { unfold session_present. rewrite A. now destruct (smart_api (trader st)). }
  destruct (place_order_observed env st symbol action quantity price)
    as (b & st1 & sevs & result & tail & G & F & K & P & NP & R & TA & EV & T & SE).
  fold run in R, TA.
  destruct (NP SP) as (L & _).
  destruct (login_refused env _ SR) as (LR & LT).
  unfold result_of in LR. rewrite L in LR. cbn [fst] in LR. injection LR as ->.
  unfold trader_after in LT. rewrite L in LT. cbn [snd] in LT.
  assert (A1 : py_truthy (auth_token (trader st1)) = false).
  { unfold tokens in LT. injection LT as AT _ _. rewrite AT. exact A. }
  assert (SP1 : session_present (trader_after run env st) = false).
  { rewrite TA. unfold session_present. rewrite A1.
    now destruct (smart_api (trader st1)). }
  inversion T; subst. rewrite R. repeat split; auto.
  intros env' symbol' action' quantity' price'.
  destruct (place_order_observed env' (state_after run env st)
              symbol' action' quantity' price')
    as (b' & st1' & sevs' & result' & tail' & _ & _ & _ & _ & NP' & _ & _ & EV' & _).
  rewrite EV'. destruct (NP' SP1) as (_ & evs' & ->). simpl. auto.
Qed.

Lemma failed_login_is_retried_witness :
  result_of (place_order (PyStr "TCS") (PyStr "BUY") PyNone PyNone) env_refuse fresh
  = Ok (failure "Login failed") /\
  session_present
    (trader_after (place_order (PyStr "TCS") (PyStr "BUY") PyNone PyNone)
       env_refuse fresh) = false.
Proof.
  destruct (failed_login_is_retried env_refuse fresh
              (PyStr "TCS") (PyStr "BUY") PyNone PyNone eq_refl eq_refl)
    as (R & S & _).
  split; [exact R | exact S].
Defined.

(** X13.  After a [login] that returned true and stored a truthy auth
    token, a following [place_order] makes no session call, whatever it is
    asked and whatever the environment answers. *)
Theorem order_after_login env st env' symbol action quantity price :
  result_of login env st = Ok true ->
  py_truthy (auth_token (trader_after login env st)) = true ->
  existsb is_session_call
    (events_of (place_order symbol action quantity price) env'
       (state_after login env st)) = false.
Proof.
  intros L A.
  destruct (login_cases env st) as (b & t' & evs & LC & _ & _ & C).
  unfold result_of in L. unfold trader_after in A. unfold state_after.
  rewrite LC in *. cbn [fst snd trader] in *. injection L as ->.
  destruct (C eq_refl) as (c & Sc).
  set (st' := {| trader := t'; trace := trace st ++ CallLogin :: evs |}).
  assert (SP : session_present (trader st') = true).
  { unfold session_present. cbn [trader st']. now rewrite Sc. }
  destruct (place_order_observed env' st' symbol action quantity price)
    as (b' & st1 & sevs & result & tail & _ & _ & _ & P & _ & _ & _ & EV & T & _).
  destruct (P SP) as (_ & -> & _).
  rewrite EV. simpl. eapply order_tail_no_session_call; eauto.
Qed.

Lemma order_after_login_witness :
  existsb is_session_call
    (events_of (place_order (PyStr "TCS") (PyStr "BUY") PyNone PyNone) env_down
       (state_after login env_ok fresh)) = false.
Proof.
  apply (order_after_login env_ok fresh env_down); reflexivity.
Defined.

(** X14.  The [/login] route always attempts a login, session or not: its
    calls and the trader it leaves are those of [login], it never raises,
    and its body says "success"/"Login successful" when [login] returned
    true and "error"/"Login failed" otherwise. *)
Theorem manual_login_forces_login env st :
  exists b body,
    result_of login env st = Ok b /\
    result_of manual_login env st = Ok (PyDict body) /\
    events_of manual_login env st = events_of login env st /\
    In CallLogin (events_of manual_login env st) /\
    trader_after manual_login env st = trader_after login env st /\
    lookup "status" body = Some (PyStr (if b then "success" else "error")) /\
    lookup "message" body
    = Some (PyStr (if b then "Login successful" else "Login failed")).
Proof.
  destruct (login_cases env st) as (b & t' & evs & L & _).
  assert (E : events_of login env st = CallLogin :: evs).
  { eapply events_of_eq; [exact L|]. reflexivity. }
  exists b. eexists.
  unfold result_of, events_of, trader_after, manual_login, bind, now_isoformat, ret.
  rewrite L. cbn [fst snd].
  split; [reflexivity|]. split; [reflexivity|]. split; [reflexivity|].
  split.
  - cbn [trace]. rewrite skipn_app_length. simpl. auto.
  - repeat split; reflexivity.
Qed.

(** X15.  The [/status] route makes no call and changes nothing.  Its
    [logged_in] is true exactly when the auth token is not [None]: it is
    true whenever the session test of [place_order] passes, and a login
    whose reply carries no truthy status does not change it. *)
Theorem status_logged_in env st railway_environment :
  exists body,
    status railway_environment env st = (Ok (PyDict body), st) /\
    lookup "logged_in" body = Some (PyBool (is_not_none (auth_token (trader st)))) /\
    (session_present (trader st) = true ->
       lookup "logged_in" body = Some (PyBool true)) /\
    (forall env',
       status_reported (session_reply env' st) = false ->
       exists body',
         result_of (status railway_environment) env (state_after login env' st)
         = Ok (PyDict body') /\
         lookup "logged_in" body' = lookup "logged_in" body).
Proof.
  eexists. split; [reflexivity|]. split; [reflexivity|]. split.
  - unfold session_present. intros SP.
    destruct (smart_api (trader st)); [|discriminate].
    cbn [lookup String.eqb Ascii.eqb Bool.eqb]. cbv beta iota.
    destruct (auth_token (trader st)); try discriminate; reflexivity.
  - intros env' SR. eexists. split; [reflexivity|].
    destruct (login_refused env' st SR) as (_ & LT).
    unfold tokens, trader_after in LT. injection LT as AT _ _.
    unfold state_after. cbn [lookup String.eqb Ascii.eqb Bool.eqb]. cbv beta iota.
    now rewrite AT.
Qed.

Lemma status_logged_in_witness :
  exists body,
    status None env_ok in_session = (Ok (PyDict body), in_session) /\
    lookup "logged_in" body = Some (PyBool true).
Proof.
  destruct (status_logged_in env_ok in_session None) as (body & R & _ & S & _).
  exists body. split; [exact R | apply S; reflexivity].
Defined.

(** ** The [/test] route *)

Lemma test_order_dispatches env st r got d :
  get_json r = Ok got ->
  (if py_truthy got then got else PyDict []) = PyDict d ->
  test_order r env st
  = place_order (dict_get d "symbol" (PyStr "NIFTY"))
      (dict_get d "action" (PyStr "BUY"))
      (dict_get d "quantity" (PyInt 1)) PyNone env st.
Proof.
  intros J D.
  destruct (place_order_returns env st (dict_get d "symbol" (PyStr "NIFTY"))
              (dict_get d "action" (PyStr "BUY"))
              (dict_get d "quantity" (PyInt 1)) PyNone)
    as (result & st' & R & _).
  unfold test_order, try_except.
  unfold bind at 1. unfold lift at 1. rewrite J. cbv beta iota.
  rewrite D. unfold py_get.
  do 3 (unfold bind at 1; unfold lift at 1; cbv beta iota).
  unfold bind, ret. rewrite R. reflexivity.
Qed.

Lemma test_order_refuses env st r :
  (forall e, get_json r = Raise e ->
     test_order r env st = (Ok (failure (exn_str e)), st)) /\
  (forall got,
     get_json r = Ok got -> py_truthy got = true -> (forall d, got <> PyDict d) ->
     test_order r env st
     = (Ok (failure ("'" ++ type_name got ++ "' object has no attribute 'get'")), st)).
Proof.
  split.
  - intros e J. unfold test_order, try_except.
    unfold bind at 1. unfold lift at 1. now rewrite J.
  - intros got J T ND. unfold test_order, try_except.
    unfold bind at 1. unfold lift at 1. rewrite J. cbv beta iota. rewrite T.
    unfold bind at 1. unfold lift at 1.
    destruct got; try reflexivity. now destruct (ND d).
Qed.

(** The three ways through [/test]. *)
Lemma test_order_cases env st r :
  (exists m, test_order r env st = (Ok (failure m), st)) \/
  (exists d,
     test_order r env st
     = place_order (dict_get d "symbol" (PyStr "NIFTY"))
         (dict_get d "action" (PyStr "BUY"))
         (dict_get d "quantity" (PyInt 1)) PyNone env st).
Proof.
  destruct (get_json r) as [got|e] eqn:J.
  - destruct (py_truthy got) eqn:T.
    + destruct got as [| | | | | |d];
        try (left; eexists;
             apply (proj2 (test_order_refuses env st r) _ J T); discriminate).
      right. exists d. apply (test_order_dispatches env st r _ d J). now rewrite T.
    + right. exists []. apply (test_order_dispatches env st r _ [] J). now rewrite T.
  - left. exists (exn_str e). exact (proj1 (test_order_refuses env st r) e J).
Qed.

(** X16.  An order placed through [/test] never carries a price, whatever
    the body holds and also under order type LIMIT: the route does not pass
    a price on. *)
Theorem test_order_sends_no_price env st r c p :
  In (PlaceOrder c p) (events_of (test_order r) env st) ->
  lookup "price" p = None.
Proof.
  intros I.
  destruct (test_order_cases env st r) as [(m & R) | (d & R)].
  - rewrite (events_of_same _ _ _ _ R) in I. contradiction.
  - unfold events_of in I. rewrite R in I.
    destruct (submitted_payload _ _ _ _ _ _ _ _ I) as (self & a & _ & _ & _ & ->).
    rewrite order_params_price. now rewrite andb_false_r.
Qed.

Lemma test_order_sends_no_price_witness :
  exists c p,
    In (PlaceOrder c p)
       (events_of (test_order (Json (PyDict [("symbol", PyStr "TCS");
                                             ("price", PyInt 2450)])))
          env_ok in_session_limit) /\
    lookup "price" p = None.
Proof.
  eexists. eexists.
  assert (I : In (PlaceOrder 1
                    (order_params_for (trader in_session_limit) (PyStr "TCS")
                       (PyStr "11536") "BUY" (PyInt 1) PyNone))
                 (events_of (test_order (Json (PyDict [("symbol", PyStr "TCS");
                                                       ("price", PyInt 2450)])))
                    env_ok in_session_limit)).
  { vm_compute. auto. }
  split; [exact I|].
  exact (test_order_sends_no_price _ _ _ _ _ I).
Defined.

(** X17.  [/test] never raises.  When [get_json()] raises, or returns a
    truthy value that is not a JSON object, the route answers with status
    false and the text of the exception, and nothing is called. *)
Theorem test_order_errors env st r :
  (exists body, result_of (test_order r) env st = Ok body) /\
  (forall e, get_json r = Raise e ->
     result_of (test_order r) env st = Ok (failure (exn_str e)) /\
     events_of (test_order r) env st = []) /\
  (forall got,
     get_json r = Ok got -> py_truthy got = true -> (forall d, got <> PyDict d) ->
     result_of (test_order r) env st
     = Ok (failure ("'" ++ type_name got ++ "' object has no attribute 'get'")) /\
     events_of (test_order r) env st = []).
Proof.
  split; [|split].
  - destruct (test_order_cases env st r) as [(m & R) | (d & R)];
      unfold result_of; rewrite R.
    + cbn [fst]. eauto.
    + destruct (place_order_returns env st (dict_get d "symbol" (PyStr "NIFTY"))
                  (dict_get d "action" (PyStr "BUY"))
                  (dict_get d "quantity" (PyInt 1)) PyNone)
        as (result & st' & R' & _).
      rewrite R'. cbn [fst]. eauto.
  - intros e J. pose proof (proj1 (test_order_refuses env st r) e J) as R.
    split; [unfold result_of; now rewrite R | exact (events_of_same _ _ _ _ R)].
  - intros got J T ND.
    pose proof (proj2 (test_order_refuses env st r) got J T ND) as R.
    split; [unfold result_of; now rewrite R | exact (events_of_same _ _ _ _ R)].
Qed.

Lemma test_order_errors_witness :
  result_of (test_order (Json (PyList [PyInt 1]))) env_ok fresh
  = Ok (failure "'list' object has no attribute 'get'") /\
  events_of (test_order (Json (PyList [PyInt 1]))) env_ok fresh = [].
Proof.
  apply (proj2 (proj2 (test_order_errors env_ok fresh (Json (PyList [PyInt 1]))))
           (PyList [PyInt 1])); try reflexivity.
  discriminate.
Defined.

(** X18.  For every request whose body is usable, [/test] does exactly
    what [place_order] does with the body's symbol, action and quantity and
    no price.  A body for which [get_json()] returns [None], an empty object
    or another falsy value is the order NIFTY / BUY / 1; for a non-empty
    JSON object absent keys take these defaults, and the action is not
    checked, so any string action goes through. *)
Theorem test_order_is_place_order env st r :
  (forall got,
     get_json r = Ok got -> py_truthy got = false ->
     test_order r env st
     = place_order (PyStr "NIFTY") (PyStr "BUY") (PyInt 1) PyNone env st) /\
  (forall d,
     get_json r = Ok (PyDict d) -> d <> [] ->
     test_order r env st
     = place_order (dict_get d "symbol" (PyStr "NIFTY"))
         (dict_get d "action" (PyStr "BUY"))
         (dict_get d "quantity" (PyInt 1)) PyNone env st).
Proof.
  split.
  - intros got J T. apply (test_order_dispatches env st r got [] J). now rewrite T.
  - intros d J N. apply (test_order_dispatches env st r (PyDict d) d J).
    now rewrite (dict_truthy d N).
Qed.

Lemma test_order_is_place_order_witness :
  test_order NoJson env_ok in_session
  = place_order (PyStr "NIFTY") (PyStr "BUY") (PyInt 1) PyNone env_ok in_session /\
  test_order (Json (PyDict [("action", PyStr "HOLD")])) env_ok in_session
  = place_order (PyStr "NIFTY") (PyStr "HOLD") (PyInt 1) PyNone env_ok in_session.
Proof.
  split.
  - apply (proj1 (test_order_is_place_order env_ok in_session NoJson) PyNone);
      reflexivity.
  - apply (proj2 (test_order_is_place_order env_ok in_session
                    (Json (PyDict [("action", PyStr "HOLD")])))
             [("action", PyStr "HOLD")]); [reflexivity | discriminate].
Defined.

(** ** More about the webhook route *)

Lemma webhook_try_nodata env st v :
  py_truthy v = false ->
  webhook_try (Json v) env st = (Ok (error_body "No data received", 400), st).
Proof.
  intros TV. unfold webhook_try, get_json.
  unfold bind at 1. unfold lift at 1. cbv beta iota. now rewrite TV.
Qed.

Lemma webhook_try_nondict env st v :
  py_truthy v = true ->
  (forall d, v <> PyDict d) ->
  webhook_try (Json v) env st = (Raise (AttributeError (type_name v) "get"), st).
Proof.
  intros TV ND. unfold webhook_try, get_json.
  unfold bind at 1. unfold lift at 1. cbv beta iota.
  rewrite TV. cbv beta iota delta [negb].
  unfold bind at 1. unfold lift at 1.
  destruct v; try reflexivity. now destruct (ND d).
Qed.

(** The webhook either leaves the state alone or does to it what the one
    [place_order] it dispatches does. *)
Lemma webhook_runs env st r :
  snd (webhook r env st) = st \/
  exists d quantity,
    get_json r = Ok (PyDict d) /\
    in_strs (dict_get d "action" PyNone) ["BUY"; "SELL"] = true /\
    get_quantity_for_signal (dict_get d "signal" PyNone) = Ok quantity /\
    snd (webhook r env st)
    = snd (place_order (dict_get d "symbol" (PyStr "NIFTY"))
             (dict_get d "action" PyNone) quantity
             (dict_get d "price" PyNone) env st).
Proof.
  rewrite webhook_unfold.
  destruct r as [|detail|v]; [left; reflexivity | left; reflexivity |].
  destruct (py_truthy v) eqn:TV.
  2:{ left. now rewrite (webhook_try_nodata env st v TV). }
  destruct v as [| | | | | |d];
    try (left; rewrite (webhook_try_nondict env st _ TV ltac:(discriminate));
         reflexivity).
  assert (N : d <> []) by (destruct d; [discriminate TV | discriminate]).
  destruct (in_strs (dict_get d "action" PyNone) ["BUY"; "SELL"]) eqn:A.
  2:{ left. now rewrite (webhook_try_invalid env st d N A). }
  destruct (get_quantity_for_signal (dict_get d "signal" PyNone))
    as [quantity|e] eqn:Q.
  2:{ left. now rewrite (webhook_try_unhashable env st d e A Q). }
  right. exists d, quantity.
  destruct (webhook_try_dispatched env st d quantity A Q)
    as (body & result & st' & R & W).
  rewrite W, R. auto.
Qed.

Lemma in_strs_buy_sell v :
  in_strs v ["BUY"; "SELL"] = true -> v = PyStr "BUY" \/ v = PyStr "SELL".
Proof.
  destruct v; try discriminate. unfold in_strs. simpl.
  destruct (String.eqb_spec s "BUY") as [->|_]; auto.
  destruct (String.eqb_spec s "SELL") as [->|_]; auto. discriminate.
Qed.

Lemma quantity_values signal quantity :
  get_quantity_for_signal signal = Ok quantity ->
  quantity = PyInt 1 \/ quantity = PyInt 2.
Proof.
  unfold get_quantity_for_signal, table_get.
  destruct signal; try discriminate; try (intros [= <-]; auto).
  unfold signal_quantities. cbn [lookup].
  repeat match goal with
         | |- context [if ?c then _ else _] => destruct c
         end; intros [= <-]; auto.
Qed.

(** X19.  The webhook calls [place_order] at most with what the body says:
    whenever it does, the body is a JSON object, the action is exactly the
    string "BUY" or "SELL" as the body has it, the symbol is the body's or
    NIFTY when the key is absent, the price is the body's or [None], and the
    quantity is what the classifier gives for the body's signal, 1 or 2. *)
Theorem webhook_dispatch env st r symbol action quantity price :
  In (CallPlaceOrder symbol action quantity price) (events_of (webhook r) env st) ->
  (action = PyStr "BUY" \/ action = PyStr "SELL") /\
  (quantity = PyInt 1 \/ quantity = PyInt 2) /\
  exists d,
    get_json r = Ok (PyDict d) /\
    action = dict_get d "action" PyNone /\
    symbol = dict_get d "symbol" (PyStr "NIFTY") /\
    price = dict_get d "price" PyNone /\
    get_quantity_for_signal (dict_get d "signal" PyNone) = Ok quantity.
Proof.
  intros I. unfold events_of in I.
  destruct (webhook_runs env st r) as [S | (d & q & J & A & Q & S)]; rewrite S in I.
  - rewrite <- (app_nil_r (trace st)) in I at 2.
    rewrite skipn_app_length in I. contradiction.
  - destruct (place_order_observed env st (dict_get d "symbol" (PyStr "NIFTY"))
                (dict_get d "action" PyNone) q (dict_get d "price" PyNone))
      as (b & st1 & sevs & result & tail & _ & F & _ & _ & _ & _ & _ & EV & T & _).
    unfold events_of in EV. rewrite EV in I.
    assert (E : CallPlaceOrder (dict_get d "symbol" (PyStr "NIFTY"))
                  (dict_get d "action" PyNone) q (dict_get d "price" PyNone)
                = CallPlaceOrder symbol action quantity price).
    { destruct I as [I | I]; [exact I|]. exfalso.
      apply in_app_or in I as [I | I].
      - rewrite forallb_forall in F. apply F in I. discriminate.
      - inversion T; subst; simpl in I;
          repeat (destruct I as [I | I]; try discriminate I); contradiction. }
    injection E as <- <- <- <-.
    split; [now apply in_strs_buy_sell|].
    split; [now apply (quantity_values _ _ Q)|].
    exists d. auto.
Qed.

Lemma webhook_dispatch_witness :
  In (CallPlaceOrder (PyStr "RELIANCE") (PyStr "BUY") (PyInt 2) PyNone)
     (events_of (webhook (Json (PyDict scenario_a))) env_ok fresh) /\
  (PyInt 2 = PyInt 1 \/ PyInt 2 = PyInt 2).
Proof.
  assert (I : In (CallPlaceOrder (PyStr "RELIANCE") (PyStr "BUY") (PyInt 2) PyNone)
                 (events_of (webhook (Json (PyDict scenario_a))) env_ok fresh)).
  { vm_compute. auto. }
  split; [exact I|].
  exact (proj1 (proj2 (webhook_dispatch _ _ _ _ _ _ _ I))).
Defined.

(** X20.  Every order the webhook sends carries the body's action verbatim
    as its transaction type, the body's symbol (NIFTY when absent) and the
    quantity "1" or "2". *)
Theorem webhook_payload env st r c p :
  In (PlaceOrder c p) (events_of (webhook r) env st) ->
  exists d,
    get_json r = Ok (PyDict d) /\
    lookup "transactiontype" p = Some (dict_get d "action" PyNone) /\
    lookup "tradingsymbol" p = Some (dict_get d "symbol" (PyStr "NIFTY")) /\
    (lookup "quantity" p = Some (PyStr "1") \/
     lookup "quantity" p = Some (PyStr "2")).
Proof.
  intros I. unfold events_of in I.
  destruct (webhook_runs env st r) as [S | (d & q & J & A & Q & S)]; rewrite S in I.
  - rewrite <- (app_nil_r (trace st)) in I at 2.
    rewrite skipn_app_length in I. contradiction.
  - exists d. split; [exact J|].
    destruct (submitted_payload _ _ _ _ _ _ _ _ I) as (self & a & K & E & _ & ->).
    destruct (order_params_fields self (dict_get d "symbol" (PyStr "NIFTY"))
                (token_of (dict_get d "symbol" (PyStr "NIFTY")))
                (if (upper a =? "BUY")%string then "BUY" else "SELL")
                (if negb (py_truthy q)
                 then PyInt (default_quantity self) else q)
                (dict_get d "price" PyNone))
      as (_ & TS & _ & _ & _ & _ & _ & QF & _).
    rewrite order_params_transaction_type, TS, QF.
    split; [|split; [reflexivity|]].
    + rewrite E. apply in_strs_buy_sell in A. rewrite E in A.
      destruct A as [[= ->] | [= ->]]; reflexivity.
    + destruct (quantity_values _ _ Q) as [-> | ->]; auto.
Qed.

Lemma webhook_payload_witness :
  exists d,
    get_json (Json (PyDict scenario_a)) = Ok (PyDict d) /\
    lookup "transactiontype"
      (order_params_for (trader in_session) (PyStr "RELIANCE") (PyStr "2885")
         "BUY" (PyInt 2) PyNone)
    = Some (dict_get d "action" PyNone) /\
    lookup "tradingsymbol"
      (order_params_for (trader in_session) (PyStr "RELIANCE") (PyStr "2885")
         "BUY" (PyInt 2) PyNone)
    = Some (dict_get d "symbol" (PyStr "NIFTY")) /\
    (lookup "quantity"
       (order_params_for (trader in_session) (PyStr "RELIANCE") (PyStr "2885")
          "BUY" (PyInt 2) PyNone) = Some (PyStr "1") \/
     lookup "quantity"
       (order_params_for (trader in_session) (PyStr "RELIANCE") (PyStr "2885")
          "BUY" (PyInt 2) PyNone) = Some (PyStr "2")).
Proof.
  apply (webhook_payload env_ok in_session (Json (PyDict scenario_a)) 1%nat).
  vm_compute. auto.
Defined.

(** X21.  When the webhook dispatches, its response echoes the body's
    signal, action and symbol and the quantity chosen, carries the message
    of the [place_order] result, says "success" with status 200 or "error"
    with status 400 as that result reports, and has an [order_id] only for a
    successful result whose order id is truthy. *)
Theorem webhook_response env st d quantity :
  let action := dict_get d "action" PyNone in
  let symbol := dict_get d "symbol" (PyStr "NIFTY") in
  let signal := dict_get d "signal" PyNone in
  let price := dict_get d "price" PyNone in
  in_strs action ["BUY"; "SELL"] = true ->
  get_quantity_for_signal signal = Ok quantity ->
  exists body result,
    result_of (place_order symbol action quantity price) env st = Ok result /\
    result_of (webhook (Json (PyDict d))) env st
    = Ok (PyDict body, if reports_success result then 200 else 400) /\
    lookup "status" body
    = Some (PyStr (if reports_success result then "success" else "error")) /\
    lookup "signal" body = Some signal /\
    lookup "action" body = Some action /\
    lookup "symbol" body = Some symbol /\
    lookup "quantity" body = Some quantity /\
    ((exists m, result = failure m /\
                lookup "message" body = Some (PyStr m) /\
                lookup "order_id" body = None) \/
     (exists m oid, result = placed m oid /\
                    lookup "message" body = Some (PyStr m) /\
                    lookup "order_id" body
                    = if py_truthy oid then Some oid else None)).
Proof.
  intros action symbol signal price A Q.
  subst action symbol signal price.
  assert (TA : py_truthy (dict_get d "action" PyNone) = true).
  { apply (in_strs_truthy _ _ A). simpl. intros [H|[H|[]]]; discriminate. }
  assert (TD : py_truthy (PyDict d) = true).
  { destruct d; [discriminate A | reflexivity]. }
  destruct (place_order_returns env st (dict_get d "symbol" (PyStr "NIFTY"))
              (dict_get d "action" PyNone) quantity (dict_get d "price" PyNone))
    as (result & st' & R & Shape).
  unfold result_of. rewrite webhook_unfold.
  unfold webhook_try, get_json, py_get.
  unfold bind at 1. unfold lift at 1. cbv beta iota.
  rewrite TD. cbv beta iota delta [negb].
  do 5 (unfold bind at 1; unfold lift at 1; cbv beta iota).
  rewrite TA, A. cbv beta iota delta [negb orb].
  unfold bind at 1. unfold lift at 1. rewrite Q. cbv beta iota.
  unfold bind at 1. rewrite R. cbv beta iota.
  destruct Shape as [(m & ->) | (m & oid & ->)].
  - eexists. exists (failure m).
    split; [reflexivity|]. split; [reflexivity|].
    repeat (split; [reflexivity|]).
    left. exists m. repeat split; reflexivity.
  - unfold bind, lift, ret, now_isoformat. simpl.
    change (dict_get [("status", PyBool true); ("message", PyStr m); ("order_id", oid)]
              "order_id" PyNone) with oid.
    destruct (py_truthy oid) eqn:TO.
    + eexists. exists (placed m oid).
      split; [reflexivity|]. split; [reflexivity|].
      repeat (split; [reflexivity|]).
      right. exists m, oid. rewrite TO. repeat split; reflexivity.
    + eexists. exists (placed m oid).
      split; [reflexivity|]. split; [reflexivity|].
      repeat (split; [reflexivity|]).
      right. exists m, oid. rewrite TO. repeat split; reflexivity.
Qed.

Lemma webhook_response_witness :
  exists body result,
    result_of (place_order (PyStr "RELIANCE") (PyStr "BUY") (PyInt 2) PyNone)
      env_ok fresh = Ok result /\
    result_of (webhook (Json (PyDict scenario_a))) env_ok fresh
    = Ok (PyDict body, if reports_success result then 200 else 400) /\
    lookup "quantity" body = Some (PyInt 2).
Proof.
  destruct (webhook_response env_ok fresh scenario_a (PyInt 2) eq_refl eq_refl)
    as (body & result & R & W & _ & _ & _ & _ & Q & _).
  exists body, result. auto.
Defined.

(** X22.  An alert with a valid action whose signal is a list or an object
    places no order: the quantity lookup raises, and the webhook answers 500
    with the text of the exception, having called nothing. *)
Theorem webhook_unhashable_signal env st d e :
  in_strs (dict_get d "action" PyNone) ["BUY"; "SELL"] = true ->
  get_quantity_for_signal (dict_get d "signal" PyNone) = Raise e ->
  result_of (webhook (Json (PyDict d))) env st = Ok (error_body (exn_str e), 500) /\
  events_of (webhook (Json (PyDict d))) env st = [] /\
  trader_after (webhook (Json (PyDict d))) env st = trader st.
Proof.
  intros A Q.
  pose proof (webhook_try_unhashable env st d e A Q) as W.
  assert (R : webhook (Json (PyDict d)) env st
              = (Ok (error_body (exn_str e), 500), st))
    by (now rewrite webhook_unfold, W).
  unfold result_of, trader_after. rewrite (events_of_same _ _ _ _ R), R. auto.
Qed.

Lemma webhook_unhashable_signal_witness :
  result_of (webhook (Json (PyDict [("action", PyStr "BUY"); ("signal", PyList [])])))
    env_ok fresh
  = Ok (error_body "unhashable type: 'list'", 500).
Proof.
  apply (webhook_unhashable_signal env_ok fresh
           [("action", PyStr "BUY"); ("signal", PyList [])]
           (TypeError "unhashable type: 'list'")); reflexivity.
Defined.

(** X23.  A trader as [__init__] leaves it has no session: its first
    [place_order] always starts by logging in, building a client with the
    API key before anything else. *)
Theorem first_order_logs_in key user pass totp history env symbol action quantity price :
  exists rest,
    events_of (place_order symbol action quantity price) env
      {| trader := init_trader key user pass totp; trace := history |}
    = CallPlaceOrder symbol action quantity price
        :: CallLogin :: SmartConnect key :: rest.
Proof.
  set (st := {| trader := init_trader key user pass totp; trace := history |}).
  destruct (place_order_cases env st symbol action quantity price)
    as (b & st1 & result & tail & G & R & _).
  unfold session_step in G. cbn [session_present trader st entered logged
                                   init_trader smart_api] in G.
  destruct (login_trace env (entered symbol action quantity price st))
    as (rest & T & _).
  unfold entered, logged in T. cbn [trader trace st init_trader api_key] in T.
  unfold entered, logged in G. cbn [trader trace st] in G.
  rewrite G in T. cbn [snd] in T.
  exists (rest ++ tail)%list.
  eapply events_of_eq; [exact R|].
  unfold logged. cbn [trace st]. rewrite T.
  rewrite <- !app_assoc. reflexivity.
Qed.

(** ** More about symbol resolution *)

Lemma symbol_map_tokens key token :
  lookup key symbol_map = Some token ->
  exists t, token = PyStr t /\ t <> EmptyString.
Proof.
  unfold symbol_map. cbn [lookup].
  repeat match goal with
         | |- context [if ?c then _ else _] =>
             destruct c; [intros [= <-]; eexists; split; [reflexivity|discriminate]|]
         end.
  discriminate.
Qed.

(** X24.  Symbol resolution sees only the upper-case form of its argument:
    a string and its upper-case form resolve alike.  What it returns is
    [None] or a non-empty token string, so the falsy test of line 94 turns
    away exactly the symbols that did not resolve. *)
Theorem resolution_by_upper_case s env st :
  result_of (get_symbol_token (PyStr s)) env st
  = result_of (get_symbol_token (PyStr (upper s))) env st /\
  forall symbol tok,
    result_of (get_symbol_token symbol) env st = Ok tok ->
    (tok = PyNone /\ py_truthy tok = false) \/
    (exists t, tok = PyStr t /\ t <> EmptyString /\ py_truthy tok = true).
Proof.
  unfold result_of. split.
  - rewrite !get_symbol_token_run. cbn [fst]. unfold token_of.
    now rewrite upper_idempotent.
  - intros symbol tok. rewrite get_symbol_token_run. cbn [fst]. intros [= <-].
    destruct symbol; try (left; split; reflexivity).
    unfold token_of. destruct (lookup (upper s0) symbol_map) as [t|] eqn:L.
    + right. destruct (symbol_map_tokens _ _ L) as (t' & -> & NE).
      exists t'. repeat split; auto. simpl.
      destruct (String.eqb_spec t' EmptyString); [contradiction|reflexivity].
    + left. split; reflexivity.
Qed.

(** ** [place_order] as a whole *)

(** X25.  [place_order] never raises: whatever goes wrong inside, it
    returns a dictionary with a boolean [status] and a text [message], and
    with an [order_id] exactly when the status is true. *)
Theorem place_order_never_raises env st symbol action quantity price :
  exists result,
    result_of (place_order symbol action quantity price) env st = Ok result /\
    ((exists m,
        result = PyDict [("status", PyBool false); ("message", PyStr m)]) \/
     (exists m oid,
        result = PyDict [("status", PyBool true); ("message", PyStr m);
                         ("order_id", oid)])).
Proof.
  destruct (place_order_returns env st symbol action quantity price)
    as (result & st' & R & Shape).
  exists result. unfold result_of. rewrite R. split; [reflexivity|].
  exact Shape.
Qed.
